(** * FRA report generator: the ArcGIS client, the AOI resolver and the
      indicator derivations, embedded from [app/arcgis.py], [app/layers.py],
      [app/model.py], [app/config.py] and [app/indicators.py].

    Conventions of the embedding.
    - Python [int] is [Z]; Python [float] is idealised as an exact rational
      [Q] (no rounding error, no NaN); [str] is [string]; [Optional[T]] is
      [option T] with [None] for Python's [None].
    - A [dict] used as a map is a [gmap]; a [list] is a [list].
    - Stateful and raising code runs in a state-and-exception monad: a
      computation maps a state to the state it leaves behind and an
      [outcome], which is a value, a raised exception, or [Diverge] when a
      [while True] loop was cut by its fuel.
    - The world outside the process (the HTTP endpoint, the random number
      generator, the injected query client, shapely) is a parameter of the
      section that embeds the code calling it. *)

From stdpp Require Import base strings list gmap.
From Stdlib Require Import ZArith QArith Qround Lqa Lia Ascii.

Close Scope Q_scope.
Open Scope string_scope.
Open Scope list_scope.

(** ** Exceptions and the state-and-exception monad *)

Inductive exn : Type :=
| ValueError (msg : string)
| HTTPError (status : Z)
| ArcGISError (payload : string)
| ConnectionError (msg : string)
| JSONDecodeError
| KeyError (key : string)
| ValidationError (field : string).

Inductive outcome (A : Type) : Type :=
| Ok (a : A)
| Raise (e : exn)
| Diverge.
Arguments Ok {A} a.
Arguments Raise {A} e.
Arguments Diverge {A}.

Definition M (S A : Type) : Type := S -> S * outcome A.

Definition ret {S A} (a : A) : M S A := fun st => (st, Ok a).

Definition raise {S A} (e : exn) : M S A := fun st => (st, Raise e).

Definition diverge {S A} : M S A := fun st => (st, Diverge).

Definition bind {S A B} (m : M S A) (k : A -> M S B) : M S B :=
  fun st =>
    match m st with
    | (st', Ok a) => k a st'
    | (st', Raise e) => (st', Raise e)
    | (st', Diverge) => (st', Diverge)
    end.

(** [try: m except Exception: handler] *)
Definition try_except {S A} (m : M S A) (handler : exn -> M S A) : M S A :=
  fun st =>
    match m st with
    | (st', Raise e) => handler e st'
    | r => r
    end.

Definition get_state {S} : M S S := fun st => (st, Ok st).

Definition modify {S} (f : S -> S) : M S unit := fun st => (f st, Ok tt).

Notation "x <- m ;; k" := (bind m (fun x => k))
  (at level 100, m at next level, k at level 200, right associativity).
Notation "m ;;; k" := (bind m (fun _ => k))
  (at level 100, k at level 200, right associativity).


(** ** Python helpers *)

Module Py.

(** Truthiness of a [str]: only the empty string is falsy. *)
Definition truthy_str (s : string) : bool := negb (String.eqb s "").

(** Truthiness of an [Optional[str]]. *)
Definition truthy (o : option string) : bool :=
  match o with
  | Some s => truthy_str s
  | None => false
  end.

(** [a or b] on [Optional[str]]. *)
Definition or_else (a b : option string) : option string :=
  if truthy a then a else b.

(** [s.rstrip("/")] *)
Fixpoint rstrip_slash (s : string) : string :=
  match s with
  | EmptyString => EmptyString
  | String c s' =>
      match rstrip_slash s' with
      | EmptyString => if Ascii.eqb c "/" then EmptyString else String c EmptyString
      | r => String c r
      end
  end.

(** [s.endswith(suffix)] *)
Fixpoint endswith (s suffix : string) : bool :=
  if String.eqb s suffix then true
  else match s with
       | EmptyString => false
       | String _ s' => endswith s' suffix
       end.

(** [old] replaced by [new] for a one-character [old]: [s.replace(old, new)] *)
Fixpoint replace_char (old : ascii) (new : string) (s : string) : string :=
  match s with
  | EmptyString => EmptyString
  | String c s' =>
      if Ascii.eqb c old then new +:+ replace_char old new s'
      else String c (replace_char old new s')
  end.

(** [sep.join(parts)] *)
Fixpoint join (sep : string) (parts : list string) : string :=
  match parts with
  | [] => ""
  | [p] => p
  | p :: rest => p +:+ sep +:+ join sep rest
  end.

(** The double-quote character, for messages that contain one. *)
Definition dquote : string := String (ascii_of_nat 34) EmptyString.

End Py.

(** ** [app/arcgis.py]: the paginated, retrying query client *)

Module Arcgis.

(** A form value of the POST payload. *)
Inductive pvalue : Type :=
| PStr (s : string)
| PInt (z : Z).

(** The decoded JSON object of a response.  A key that is absent is
    [None]; [error] holds the serialised error payload when the key
    ["error"] is present. *)
Record page (F : Type) : Type := Page {
  error : option string;
  features : option (list F);
  exceededTransferLimit : option bool;
}.
Arguments Page {F} _ _ _.
Arguments error {F} _.
Arguments features {F} _.
Arguments exceededTransferLimit {F} _.

(** What [requests] hands back: a status code and a body, where
    [json = None] is a body that [response.json()] cannot decode. *)
Record response (F : Type) : Type := Response {
  status_code : Z;
  json : option (page F);
}.
Arguments Response {F} _ _.
Arguments status_code {F} _.
Arguments json {F} _.

(** The dataclass [ArcGISClient] (the session is the [net] of the state). *)
Record ArcGISClient : Type := Client {
  token : option string;
  timeout : Z;
  max_retries : Z;
  backoff_factor : Q;
}.

Definition default_client : ArcGISClient :=
  {| token := None; timeout := 30; max_retries := 5; backoff_factor := 0.6%Q |}.

(** The state a client runs in: the network, the position in the stream
    of random draws, and two logs kept for the proofs, the durations
    handed to [time.sleep] and the requests handed to [session.post], both
    oldest first. *)
Record cstate (Net : Type) : Type := CState {
  net : Net;
  rng_pos : nat;
  slept : list Q;
  posts : list (string * gmap string pvalue);
}.
Arguments CState {Net} _ _ _ _.
Arguments net {Net} _.
Arguments rng_pos {Net} _.
Arguments slept {Net} _.
Arguments posts {Net} _.

Definition retry_statuses : list Z := [429; 500; 502; 503; 504]%Z.

Definition is_retry_status (status : Z) : bool :=
  bool_decide (status ∈ retry_statuses).

Section Client.
Context {F Net : Type}.
(** [session.post(url, data=payload, timeout=...)]: a response, or an
    exception raised by the transport. *)
Variable post : Net -> string -> gmap string pvalue -> Net * (exn + response F).
(** The [n]-th value returned by [random.random()]. *)
Variable random : nat -> Q.
(** [int(s)] on a string. *)
Variable int_of_string : string -> option Z.

Local Abbreviation C := (M (cstate Net)).

Definition session_post (url : string) (payload : gmap string pvalue)
  : C (response F) :=
  fun st =>
    let (net', r) := post (net st) url payload in
    (CState net' (rng_pos st) (slept st) (posts st ++ [(url, payload)]),
     match r with inl e => Raise e | inr resp => Ok resp end).

(** [random.uniform(a, b)] is [a + (b - a) * random()]. *)
Definition uniform (a b : Q) : C Q :=
  fun st =>
    (CState (net st) (S (rng_pos st)) (slept st) (posts st),
     Ok (a + (b - a) * random (rng_pos st))%Q).

(** [time.sleep(secs)] rejects a negative duration. *)
Definition time_sleep (secs : Q) : C unit :=
  if Qlt_le_dec secs 0 then raise (ValueError "sleep length must be non-negative")
  else modify (fun st => CState (net st) (rng_pos st) (slept st ++ [secs]) (posts st)).

(** [response.raise_for_status()] *)
Definition raise_for_status (resp : response F) : C unit :=
  if ((400 <=? status_code resp) && (status_code resp <? 600))%Z
  then raise (HTTPError (status_code resp))
  else ret tt.

(** [response.json()] *)
Definition response_json (resp : response F) : C (page F) :=
  match json resp with
  | Some data => ret data
  | None => raise JSONDecodeError
  end.

Definition backoff_base (self : ArcGISClient) (attempt : Z) : Q :=
  (backoff_factor self * inject_Z (2 ^ (attempt - 1)))%Q.

Definition _sleep (self : ArcGISClient) (attempt : Z) : C unit :=
  let base := backoff_base self attempt in
  jitter <- uniform 0 (base / 2)%Q ;;
  time_sleep (base + jitter)%Q.

(** The body of [_request]'s [while True]; [attempt] is the counter
    before its increment. *)
Fixpoint _request_loop (fuel : nat) (self : ArcGISClient) (url : string)
    (params : gmap string pvalue) (attempt : Z) : C (page F) :=
  match fuel with
  | O => diverge
  | S fuel' =>
      let attempt := (attempt + 1)%Z in
      let payload :=
        if Py.truthy (token self)
        then <["token" := PStr (default "" (token self))]> params
        else params in
      resp <- session_post url payload ;;
      if is_retry_status (status_code resp) then
        (if (attempt >? max_retries self)%Z then raise_for_status resp else ret tt) ;;;
        _sleep self attempt ;;;
        _request_loop fuel' self url params attempt
      else
        raise_for_status resp ;;;
        data <- response_json resp ;;
        match error data with
        | Some payload => raise (ArcGISError payload)
        | None => ret data
        end
  end.

(** [_request]: the loop leaves after at most [max_retries + 1]
    iterations, which is the fuel it gets (see [_request_total]). *)
Definition _request (self : ArcGISClient) (url : string)
    (params : gmap string pvalue) : C (page F) :=
  _request_loop (S (Z.to_nat (max_retries self))) self url params 0.

(** [dict.setdefault] *)
Definition setdefault (k : string) (v : pvalue) (m : gmap string pvalue)
  : gmap string pvalue :=
  match m !! k with
  | Some _ => m
  | None => <[k := v]> m
  end.

Definition query_payload (params : option (gmap string pvalue))
  : gmap string pvalue :=
  let payload := default ∅ params in
  let payload := setdefault "where" (PStr "1=1") payload in
  let payload := setdefault "outFields" (PStr "*") payload in
  let payload := setdefault "resultOffset" (PInt 0) payload in
  let payload := setdefault "resultRecordCount" (PInt 2000) payload in
  let payload := setdefault "returnGeometry" (PStr "true") payload in
  let payload := setdefault "outSR" (PInt 4326) payload in
  <["f" := PStr "json"]> payload.

(** [int(payload.get("resultOffset", 0) or 0)] *)
Definition initial_offset (payload : gmap string pvalue) : C Z :=
  match payload !! "resultOffset" with
  | Some (PInt z) => ret z
  | Some (PStr s) =>
      if Py.truthy_str s then
        match int_of_string s with
        | Some z => ret z
        | None => raise (ValueError "invalid literal for int()")
        end
      else ret 0%Z
  | None => ret 0%Z
  end.

Definition request_url (url : string) : string :=
  if Py.endswith (Py.rstrip_slash url) "/query" then url
  else Py.rstrip_slash url +:+ "/query".

(** The body of [query]'s [while True]. *)
Fixpoint query_loop (fuel : nat) (self : ArcGISClient) (url : string)
    (payload : gmap string pvalue) (offset : Z) (items : list F)
  : C (list F) :=
  match fuel with
  | O => diverge
  | S fuel' =>
      let payload := <["resultOffset" := PInt offset]> payload in
      page <- _request self url payload ;;
      let feats := default [] (features page) in
      let items := (items ++ feats)%list in
      let exceeded := default false (exceededTransferLimit page) in
      if negb exceeded || bool_decide (length feats = 0%nat) then ret items
      else query_loop fuel' self url payload
             (offset + Z.of_nat (length feats))%Z items
  end.

Definition query (fuel : nat) (self : ArcGISClient) (url : string)
    (params : option (gmap string pvalue)) : C (list F) :=
  let payload := query_payload params in
  offset <- initial_offset payload ;;
  query_loop fuel self (request_url url) payload offset [].

Definition query_by_where (fuel : nat) (self : ArcGISClient) (url where_ : string)
    (out_fields : string) (additional_params : option (gmap string pvalue))
  : C (list F) :=
  let params := default ∅ additional_params in
  let params := <["where" := PStr where_]> params in
  let params := <["outFields" := PStr out_fields]> params in
  query fuel self url (Some params).

End Client.

End Arcgis.

(** ** [app/layers.py]: the static layer registry *)

Module Layers.

Definition state_name_items : list (string * string) :=
  [ ("Andaman and Nicobar Islands", "AN");
    ("Andhra Pradesh", "AP");
    ("Arunachal Pradesh", "AR");
    ("Assam", "AS");
    ("Bihar", "BR");
    ("Chandigarh", "CH");
    ("Chhattisgarh", "CT");
    ("Dadra and Nagar Haveli and Daman and Diu", "DN");
    ("Delhi", "DL");
    ("Goa", "GA");
    ("Gujarat", "GJ");
    ("Haryana", "HR");
    ("Himachal Pradesh", "HP");
    ("Jammu and Kashmir", "JK");
    ("Jharkhand", "JH");
    ("Karnataka", "KA");
    ("Kerala", "KL");
    ("Ladakh", "LA");
    ("Lakshadweep", "LD");
    ("Madhya Pradesh", "MP");
    ("Maharashtra", "MH");
    ("Manipur", "MN");
    ("Meghalaya", "ML");
    ("Mizoram", "MZ");
    ("Nagaland", "NL");
    ("Odisha", "OR");
    ("Puducherry", "PY");
    ("Punjab", "PB");
    ("Rajasthan", "RJ");
    ("Sikkim", "SK");
    ("Tamil Nadu", "TN");
    ("Telangana", "TG");
    ("Tripura", "TR");
    ("Uttar Pradesh", "UP");
    ("Uttarakhand", "UT");
    ("West Bengal", "WB") ].

(** A dict literal keeps the last value of a repeated key, [list_to_map]
    the first; the table repeats no key, in either direction. *)
Definition STATE_NAME_MAPPING : gmap string string :=
  list_to_map state_name_items.

Definition STATE_ABBREV_TO_FULL : gmap string string :=
  list_to_map (map (fun kv => (snd kv, fst kv)) state_name_items).

Definition upper_ascii (c : ascii) : ascii :=
  let n := nat_of_ascii c in
  if (97 <=? n)%nat && (n <=? 122)%nat then ascii_of_nat (n - 32) else c.

(** [s.upper()], on ASCII letters. *)
Fixpoint upper (s : string) : string :=
  match s with
  | EmptyString => EmptyString
  | String c s' => String (upper_ascii c) (upper s')
  end.

Definition get_state_abbreviation (full_name : string) : option string :=
  STATE_NAME_MAPPING !! full_name.

Definition get_state_full_name (abbreviation : string) : option string :=
  STATE_ABBREV_TO_FULL !! upper abbreviation.

Record Layer : Type := mkLayer {
  name : string;
  url : string;
  fields : list string;
  state_field : option string;
  district_field : option string;
  description : option string;
  name_field : option string;
  parent_field : option string;
  code_field : option string;
  value_field : option string;
}.

Definition state_layer : Layer :=
  {| name := "state";
     url := "https://services5.arcgis.com/73n8CSGpSSyHr1T9/arcgis/rest/services/state_boundary/FeatureServer/0";
     fields :=
       [ "FID"; "shape_leng"; "State_Name"; "State_Cens"; "State_FSI";
         "GA_sqkm"; "VDF2019"; "MDF2019"; "OF2019"; "Forest_201";
         "Per_GA_201"; "Forest_200"; "Ch_wrt2017"; "Ch_per"; "Scrub2019";
         "TC2019"; "Fcount_RFA"; "Extent_TOF"; "Per_FTC_St"; "Per_GA_Sta";
         "RFA_GW_as_"; "nfa_orfa"; "F_FC_Outsid"; "st_area_sh";
         "st_length_"; "Shape__Area"; "Shape__Length"; "GlobalID";
         "geometry" ];
     state_field := Some "State_FSI";
     district_field := None;
     description := Some "India state boundaries from Living Atlas service.";
     name_field := Some "State_FSI";
     parent_field := None;
     code_field := Some "State_Cens";
     value_field := None |}.

Definition district_layer : Layer :=
  {| name := "district";
     url := "https://services5.arcgis.com/73n8CSGpSSyHr1T9/arcgis/rest/services/district_boundary/FeatureServer/0";
     fields :=
       [ "FID"; "District"; "State"; "Annual_Gro"; "Annual_G00";
         "Annual_Rep"; "Natural_Di"; "Projected_"; "Ground_Wat";
         "Net_Ground"; "Annual_Dra"; "Stage_of_d"; "st_area_sh";
         "st_length_"; "Shape__Area"; "Shape__Length"; "GlobalID";
         "geometry" ];
     state_field := Some "State";
     district_field := None;
     description := Some "District boundaries with groundwater assessment attributes.";
     name_field := Some "District";
     parent_field := None;
     code_field := None;
     value_field := None |}.

Definition village_layer : Layer :=
  {| name := "village";
     url := "https://livingatlas.esri.in/server/rest/services/IAB2024/IAB_Village_2024/MapServer/0";
     fields :=
       [ "objectid"; "id"; "name"; "subdistrict"; "District"; "State";
         "country"; "censusname"; "villagename_locallang";
         "lgd_villagename"; "lgd_villagecode"; "lgd_subdistrictcode";
         "lgd_districtcode"; "lgd_statecode"; "censuscode2001";
         "censuscode2011"; "censuscode2021"; "level_2011"; "tru_2011";
         "shape" ];
     state_field := Some "State";
     district_field := Some "district";
     description := Some "India village boundaries (Living Atlas 2024).";
     name_field := Some "name";
     parent_field := Some "lgd_subdistrictcode";
     code_field := Some "lgd_villagecode";
     value_field := None |}.

Definition AOI_LAYERS : gmap string Layer :=
  <["state" := state_layer]>
    (<["district" := district_layer]>
       (<["village" := village_layer]> ∅)).

Definition groundwater_pre_monsoon : Layer :=
  {| name := "groundwater_pre_monsoon";
     url := "https://livingatlas.esri.in/server1/rest/services/Water/Pre_Post_Monsoon_Water_Level_Depth/FeatureServer/1";
     fields :=
       [ "objectid"; "state_"; "district_name"; "block_"; "village_name";
         "lat"; "long"; "date_"; "dtwl_" ];
     state_field := Some "state_";
     district_field := Some "district_name";
     description := Some "Pre-monsoon groundwater depth measurements (latest, mbgl).";
     name_field := Some "district_name";
     parent_field := Some "state_";
     code_field := None;
     value_field := Some "dtwl_" |}.

Definition groundwater_during_monsoon : Layer :=
  {| name := "groundwater_during_monsoon";
     url := "https://livingatlas.esri.in/server1/rest/services/Water/Pre_Post_Monsoon_Water_Level_Depth/FeatureServer/2";
     fields :=
       [ "objectid"; "State"; "district_name"; "block_"; "village_name";
         "lat"; "long"; "date_"; "wl_mbgl" ];
     state_field := Some "State";
     district_field := Some "district_name";
     description := Some "During-monsoon groundwater depth measurements (mbgl).";
     name_field := Some "district_name";
     parent_field := Some "state";
     code_field := None;
     value_field := Some "wl_mbgl" |}.

Definition groundwater_post_monsoon : Layer :=
  {| name := "groundwater_post_monsoon";
     url := "https://livingatlas.esri.in/server1/rest/services/Water/Pre_Post_Monsoon_Water_Level_Depth/FeatureServer/3";
     fields :=
       [ "objectid"; "State"; "district_name"; "block_"; "village_name";
         "lat"; "long"; "date_"; "wl_mbgl" ];
     state_field := Some "State";
     district_field := Some "district_name";
     description := Some "Post-monsoon groundwater depth measurements (mbgl).";
     name_field := Some "district_name";
     parent_field := Some "state";
     code_field := None;
     value_field := Some "wl_mbgl" |}.

Definition aquifer_layer : Layer :=
  {| name := "aquifer";
     url := "https://livingatlas.esri.in/server1/rest/services/Water/Major_Aquifers/MapServer/0";
     fields :=
       [ "objectid"; "state_name"; "new_code_14"; "aquifer"; "newcode43";
         "aquifer_0"; "systems"; "zone_m"; "mbgl"; "avg_mbgl"; "yield_gw";
         "m3_per_day"; "per_cm"; "pa_order" ];
     state_field := Some "state_name";
     district_field := None;
     description := Some "Major aquifer polygons with lithology and recharge attributes.";
     name_field := Some "state_name";
     parent_field := None;
     code_field := Some "new_code_14";
     value_field := Some "aquifer" |}.

Definition rural_facilities : Layer :=
  {| name := "rural_facilities";
     url := "https://livingatlas.esri.in/server1/rest/services/PMGSY/IN_PMGSY_RuralFacilities_2021/MapServer/0";
     fields :=
       [ "objectid"; "facility_id"; "facilityname"; "facilitycat";
         "hab_id"; "habname"; "block_id"; "block"; "dist_id"; "District";
         "state_id"; "State"; "geometry" ];
     state_field := Some "State";
     district_field := Some "District";
     description := Some "Rural facilities (Agro, Education, Medical, Transport/Admin) across India.";
     name_field := Some "facilityname";
     parent_field := None;
     code_field := None;
     value_field := None |}.

Definition mgnrega_workers : Layer :=
  {| name := "mgnrega_workers";
     url := "https://livingatlas.esri.in/server1/rest/services/MGNREGA/IN_DT_CategoryWiseHHWorkers/MapServer/0";
     fields :=
       [ "objectid"; "district_name"; "state_name"; "lgd_district_code";
         "census_code_2011"; "number_of_jobcards_applied_for";
         "number_of_jobcards_issued"; "registered_workers_sc";
         "registered_workers_st"; "registered_workers_oth";
         "registered_workers_total"; "registered_workers_women";
         "number_of_active_job_cards"; "active_workers_sc";
         "active_workers_st"; "active_workers_oth";
         "active_workers_total_workers"; "active_workers_women"; "shape";
         "st_area(shape)"; "st_perimeter(shape)" ];
     state_field := Some "state_name";
     district_field := Some "district_name";
     description := Some "MGNREGA district-wise employment statistics including job cards and worker categories.";
     name_field := Some "district_name";
     parent_field := None;
     code_field := None;
     value_field := None |}.

Definition INDICATOR_LAYERS : gmap string Layer :=
  <["groundwater_pre_monsoon" := groundwater_pre_monsoon]>
    (<["groundwater_during_monsoon" := groundwater_during_monsoon]>
       (<["groundwater_post_monsoon" := groundwater_post_monsoon]>
          (<["aquifer" := aquifer_layer]>
             (<["rural_facilities" := rural_facilities]>
                (<["mgnrega_workers" := mgnrega_workers]> ∅))))).

End Layers.

(** ** [app/model.py] and [app/config.py] *)

Module Model.

(** A JSON scalar, the value of one attribute of a feature. *)
Inductive scalar : Type :=
| SNull
| SStr (s : string)
| SInt (z : Z)
| SFloat (q : Q).

Record AOI : Type := mkAOI {
  state : string;
  district : string;
  block : string;
  village : string;
  centroid_lat : option Q;
  centroid_lon : option Q;
  source_layer : option string;
  area_sqkm : option Q;
  census_code : option string;
  additional_attributes : gmap string scalar;
}.

Record GroundWater : Type := mkGroundWater {
  annual_extraction_mcm : option Q;
  net_available_mcm : option Q;
  stage_of_development_pc : option Q;
  category : option string;
  district_pre2019_m : option Q;
  pre_post_delta_m : option Q;
  stressed : option bool;
}.

Record Aquifer : Type := mkAquifer {
  type : option string;
  code : option string;
}.

(** [Aquifer()] *)
Definition empty_Aquifer : Aquifer := {| type := None; code := None |}.

Record MGNREGAStats : Type := mkMGNREGAStats {
  jobcards_applied : option Z;
  jobcards_issued : option Z;
  registered_workers_total : option Z;
  registered_workers_sc : option Z;
  registered_workers_st : option Z;
  registered_workers_women : option Z;
  active_job_cards : option Z;
  active_workers_total : option Z;
  active_workers_sc : option Z;
  active_workers_st : option Z;
  active_workers_women : option Z;
  jobcard_issuance_rate_pc : option Q;
  worker_activation_rate_pc : option Q;
  women_participation_pc : option Q;
}.

(** [MGNREGAStats()] *)
Definition empty_MGNREGAStats : MGNREGAStats :=
  mkMGNREGAStats None None None None None None None None None None None
                 None None None.

End Model.

Module Config.

Record Settings : Type := mkSettings {
  use_vertex : bool;
  gcp_project : option string;
  gcp_location : string;
  arcgis_token : option string;
  gw_stress_threshold_m : Q;
  nearest_poi_radius_m : Q;
  stub_mode : bool;
}.

(** [Settings()] with no environment variable set. *)
Definition default_settings : Settings :=
  {| use_vertex := false;
     gcp_project := None;
     gcp_location := "us-central1";
     arcgis_token := None;
     gw_stress_threshold_m := 10%Q;
     nearest_poi_radius_m := 50000%Q;
     stub_mode := false |}.

End Config.

(** ** Numbers *)

Module Num.

(** Rounding to the nearest integer, ties to the even one. *)
Definition round_half_even (q : Q) : Z :=
  let f := Qfloor q in
  let r := (q - inject_Z f)%Q in
  match (r ?= 1 # 2)%Q with
  | Lt => f
  | Gt => (f + 1)%Z
  | Eq => if Z.even f then f else (f + 1)%Z
  end.

(** [round(q, 2)], in canonical form. *)
Definition round2 (q : Q) : Q :=
  Qred (inject_Z (round_half_even (q * 100)) / 100)%Q.

(** Truthiness of a number: zero is falsy. *)
Definition truthy_Q (q : Q) : bool := negb (Qeq_bool q 0).

Definition truthy_Z (z : Z) : bool := negb (z =? 0)%Z.

(** [sum(values)] *)
Definition sum_Q (values : list Q) : Q := foldl Qplus 0%Q values.

End Num.

(** ** [app/indicators.py]: AOI resolution and indicator derivation *)

Module Indicators.
Import Model Config Layers.

(** The attributes of a feature.  Schema assumption of the embedding: a
    column is read at the type the layer publishes it with, text for the
    name and abbreviation columns ([get_text]), integer for the job-card
    and worker counts ([get_int]), a number for the area ([get_number]);
    a value of another type in such a column is read as absent. *)
Definition attrs_get (attrs : gmap string scalar) (key : string) : option scalar :=
  match attrs !! key with
  | Some SNull => None
  | o => o
  end.

Definition get_text (attrs : gmap string scalar) (key : string) : option string :=
  match attrs_get attrs key with
  | Some (SStr s) => Some s
  | _ => None
  end.

Definition get_int (attrs : gmap string scalar) (key : string) : option Z :=
  match attrs_get attrs key with
  | Some (SInt z) => Some z
  | _ => None
  end.

Definition get_number (attrs : gmap string scalar) (key : string) : option Q :=
  match attrs_get attrs key with
  | Some (SInt z) => Some (inject_Z z)
  | Some (SFloat q) => Some q
  | _ => None
  end.

(** Truthiness of a scalar. *)
Definition truthy_scalar (v : scalar) : bool :=
  match v with
  | SNull => false
  | SStr s => Py.truthy_str s
  | SInt z => Num.truthy_Z z
  | SFloat q => Num.truthy_Q q
  end.

(** [a or b] on attribute values. *)
Definition scalar_or (a b : option scalar) : option scalar :=
  match a with
  | Some v => if truthy_scalar v then a else b
  | None => b
  end.

Section Service.
(** The geometry encoding of the service, and shapely's conversion and
    centroid [(y, x)] of it, [None] when the conversion raises. *)
Context {Geometry : Type}.
Variable shape_centroid : Geometry -> option (Q * Q).
(** [str(v)] and [float(v)] on a scalar that is not [None]; [float]
    is [None] where Python raises [TypeError] or [ValueError]. *)
Variable py_str : scalar -> string.
Variable py_float : scalar -> option Q.

(** [str(v)]: a string is its own text. *)
Definition str_of_scalar (v : scalar) : string :=
  match v with
  | SStr s => s
  | _ => py_str v
  end.

(** A feature is a dict with the keys ["attributes"] and ["geometry"],
    either of which may be missing; [geometry = None] also stands for a
    null or empty geometry. *)
Record Feature : Type := mkFeature {
  attributes : option (gmap string scalar);
  geometry : option Geometry;
}.

(** Truthiness of a feature dict: only the empty dict is falsy. *)
Definition truthy_feature (f : Feature) : bool :=
  match attributes f, geometry f with
  | None, None => false
  | _, _ => true
  end.

Definition truthy_feature_opt (o : option Feature) : bool :=
  match o with
  | Some f => truthy_feature f
  | None => false
  end.

(** [feature.get("attributes", {})] *)
Definition feature_attrs (f : Feature) : gmap string scalar :=
  default ∅ (attributes f).

(** The calls the service makes on its query client. *)
Inductive request : Type :=
| QueryByWhere (url where_ : string) (additional_params : list (string * string))
| QueryPointWithin (url : string) (x y : Q).

Definition request_layer_url (r : request) : string :=
  match r with
  | QueryByWhere u _ _ => u
  | QueryPointWithin u _ _ => u
  end.

(** The injected query client: each call returns features or raises. *)
Context {World : Type}.
Variable client : World -> request -> World * (exn + list Feature).

(** The state of an [IndicatorService]: the world its client talks to,
    the log of the client calls made so far (oldest first, kept for the
    proofs) and the field [_last_resolution_notes]. *)
Record service_state : Type := mkState {
  world : World;
  queries : list request;
  _last_resolution_notes : list string;
}.

Local Abbreviation R := (M service_state).

Definition client_call (r : request) : R (list Feature) :=
  fun st =>
    let (w, res) := client (world st) r in
    (mkState w (queries st ++ [r]) (_last_resolution_notes st),
     match res with inl e => Raise e | inr fs => Ok fs end).

Definition set_notes (notes : list string) : R unit :=
  modify (fun st => mkState (world st) (queries st) notes).

(** [self._last_resolution_notes.append(note)] *)
Definition append_note (note : string) : R unit :=
  modify (fun st =>
    mkState (world st) (queries st) (_last_resolution_notes st ++ [note])).

(** [context.get(key)] *)
Definition context_get (context : gmap string (option string)) (key : string)
  : option string :=
  match context !! key with
  | Some v => v
  | None => None
  end.

(** [context.get(key, default)] *)
Definition context_get_default (context : gmap string (option string))
    (key : string) (default : string) : option string :=
  match context !! key with
  | Some v => v
  | None => Some default
  end.

(** A required [str] field of a pydantic model rejects [None]. *)
Definition required_str (field : string) (v : option string) : R string :=
  match v with
  | Some s => ret s
  | None => raise (ValidationError field)
  end.

(** [AOI_LAYERS[key]] *)
Definition aoi_layer (key : string) : R Layer :=
  match AOI_LAYERS !! key with
  | Some layer => ret layer
  | None => raise (KeyError key)
  end.

Definition _eq_clause (field value : string) : string :=
  let safe_value := Py.replace_char "'" "''" value in
  "UPPER(" +:+ field +:+ ") = UPPER('" +:+ safe_value +:+ "')".

(** The WHERE clauses [_resolve_feature] collects, in order. *)
Definition where_clauses (layer_key : string) (layer : Layer)
    (name : option string) (context : gmap string (option string))
  : list string :=
  let c_name :=
    if Py.truthy name && Py.truthy (name_field layer)
    then [_eq_clause (default "" (name_field layer)) (default "" name)]
    else [] in
  let c_state :=
    if Py.truthy (state_field layer) && negb (String.eqb layer_key "state") then
      let state_full :=
        Py.or_else (context_get context "state_name_full")
                   (context_get context "state_name") in
      let state_abbrev := context_get context "state_name_abbrev" in
      let state_value :=
        if Py.truthy state_abbrev
           && (String.length (default "" state_abbrev) =? 2)%nat
        then state_abbrev else state_full in
      if Py.truthy state_value
      then [_eq_clause (default "" (state_field layer)) (default "" state_value)]
      else []
    else [] in
  let district_name := context_get context "district_name" in
  let c_district :=
    if Py.truthy (district_field layer) && Py.truthy district_name
       && negb (String.eqb layer_key "state" || String.eqb layer_key "district")
    then [_eq_clause (default "" (district_field layer)) (default "" district_name)]
    else [] in
  let c_parent :=
    if Py.truthy (parent_field layer) then
      let parent_value := context_get context (default "" (parent_field layer)) in
      if Py.truthy parent_value
      then [_eq_clause (default "" (parent_field layer)) (default "" parent_value)]
      else []
    else [] in
  c_name ++ c_state ++ c_district ++ c_parent.

(** [_resolve_feature]; the debug logging and the dump of the first
    feature to a file, whose failure is swallowed, are left out. *)
Definition _resolve_feature (layer_key : string) (name : option string)
    (context : gmap string (option string)) : R (option Feature) :=
  match AOI_LAYERS !! layer_key with
  | None => ret None
  | Some layer =>
      let clauses := where_clauses layer_key layer name context in
      let where_ :=
        match clauses with
        | [] => "1=1"
        | _ => Py.join " AND " clauses
        end in
      try_except
        (results <- client_call (QueryByWhere (url layer) where_ [("outFields", "*")]) ;;
         match results with
         | [] => ret None
         | first :: _ => ret (Some first)
         end)
        (fun _ => ret None)
  end.

(** [_update_context] mutates [context]; here it returns the new one. *)
Definition _update_context (layer_key : string) (feature : Feature)
    (fallback_name : string) (context : gmap string (option string))
  : R (gmap string (option string)) :=
  layer <- aoi_layer layer_key ;;
  let attrs := feature_attrs feature in
  let name_value :=
    if Py.truthy (name_field layer)
    then get_text attrs (default "" (name_field layer)) else None in
  let resolved_name := Py.or_else name_value (Some fallback_name) in
  let context := <[layer_key +:+ "_name" := resolved_name]> context in
  let context :=
    if String.eqb layer_key "state" then
      let full_name := Py.or_else (get_text attrs "State_FSI") resolved_name in
      let abbrev := get_text attrs "State_Name" in
      let abbrev :=
        if Py.truthy full_name && negb (Py.truthy abbrev)
        then get_state_abbreviation (default "" full_name) else abbrev in
      let full_name :=
        if Py.truthy abbrev && negb (Py.truthy full_name)
        then get_state_full_name (default "" abbrev) else full_name in
      <["state_name" := full_name]>
        (<["state_name_abbrev" := abbrev]>
           (<["state_name_full" := full_name]> context))
    else context in
  let context :=
    if Py.truthy (code_field layer) then
      match attrs_get attrs (default "" (code_field layer)) with
      | Some code_value => <[layer_key +:+ "_code" := Some (str_of_scalar code_value)]> context
      | None => context
      end
    else context in
  let context :=
    if Py.truthy (parent_field layer) then
      match attrs_get attrs (default "" (parent_field layer)) with
      | Some parent_value =>
          <[default "" (parent_field layer) := Some (str_of_scalar parent_value)]> context
      | None => context
      end
    else context in
  ret context.

(** The loop of [_select_best_feature] over the remaining keys. *)
Fixpoint first_resolved (features : gmap string (option Feature))
    (keys : list string) : option (Feature * string) :=
  match keys with
  | [] => None
  | key :: rest =>
      match features !! key with
      | Some (Some feature) =>
          if truthy_feature feature then Some (feature, key)
          else first_resolved features rest
      | _ => first_resolved features rest
      end
  end.

Definition _select_best_feature (features : gmap string (option Feature))
  : R (Feature * string) :=
  match first_resolved features ["village"; "block"; "district"; "state"] with
  | Some r => ret r
  | None => raise (ValueError "AOI resolution failed; no matching features found.")
  end.

(** [geometry_centroid] of [app/geo.py]. *)
Definition geometry_centroid (feature : Feature) : option (Q * Q) :=
  match geometry feature with
  | None => None
  | Some g => shape_centroid g
  end.

(** [name or "N/A"] *)
Definition or_NA (name : option string) : string :=
  if Py.truthy name then default "" name else "N/A".

Section Methods.
Variable settings : Settings.

(** One optional level of [resolve_aoi].  The source spells this block
    out three times, for the district, the block and the village; the
    copies differ in the layer key and in the two messages only. *)
Definition resolve_level (layer_key : string) (name : option string)
    (not_found not_configured : string)
    (context : gmap string (option string))
  : R (option Feature * gmap string (option string)) :=
  if Py.truthy name then
    if bool_decide (layer_key ∈ dom AOI_LAYERS) then
      feature <- _resolve_feature layer_key name context ;;
      if truthy_feature_opt feature then
        match feature with
        | Some f =>
            context <- _update_context layer_key f (default "" name) context ;;
            ret (feature, context)
        | None => ret (feature, context)
        end
      else
        append_note not_found ;;;
        ret (feature, context)
    else
      append_note not_configured ;;;
      ret (None, context)
  else ret (None, context).

(** The [additional_attrs] dict built from the winning feature. *)
Definition additional_attrs_of (best_layer_key : string)
    (attrs : gmap string scalar) : gmap string scalar :=
  if String.eqb best_layer_key "state" then
    let a : gmap string scalar :=
      match attrs !! "GA_sqkm" with
      | Some v => <["geographic_area_sqkm" := v]> ∅
      | None => ∅
      end in
    match attrs !! "State_Cens" with
    | Some v => <["state_census_code" := v]> a
    | None => a
    end
  else if String.eqb best_layer_key "district" then
    match attrs !! "st_area_sh" with
    | Some v => <["area_sqkm" := v]> ∅
    | None => ∅
    end
  else ∅.

(** The four features and the context that [resolve_aoi] holds when
    it reaches [_select_best_feature]. *)
Record levels : Type := mkLevels {
  state_feature : option Feature;
  district_feature : option Feature;
  block_feature : option Feature;
  village_feature : option Feature;
  final_context : gmap string (option string);
}.

Definition district_not_found (district : option string) : string :=
  "District '" +:+ default "" district
  +:+ "' not found; using state boundary for calculations.".

Definition block_not_found (block : option string) : string :=
  "Block " +:+ Py.dquote +:+ default "" block +:+ Py.dquote
  +:+ " not found; using higher-level boundary.".

Definition village_not_found (village : option string) : string :=
  "Village " +:+ Py.dquote +:+ default "" village +:+ Py.dquote
  +:+ " not found; using higher-level boundary.".

(** [resolve_aoi] from the reset of the notes to the end of the
    village block: the walk down the hierarchy. *)
Definition resolve_levels (state : string) (district block village : option string)
  : R levels :=
  set_notes [] ;;;
  let context : gmap string (option string) := ∅ in
  state_feature <- _resolve_feature "state" (Some state) context ;;
  match state_feature with
  | Some sf =>
      if negb (truthy_feature sf) then
        raise (ValueError ("State '" +:+ state +:+ "' not found."))
      else
        context <- _update_context "state" sf state context ;;
        dr <- resolve_level "district" district
                (district_not_found district)
                "District layer not configured; using state boundary."
                context ;;
        br <- resolve_level "block" block
                (block_not_found block)
                "Block layer not configured; skipping."
                (snd dr) ;;
        vr <- resolve_level "village" village
                (village_not_found village)
                "Village layer not configured; skipping."
                (snd br) ;;
        ret {| state_feature := state_feature;
               district_feature := fst dr;
               block_feature := fst br;
               village_feature := fst vr;
               final_context := snd vr |}
  | None => raise (ValueError ("State '" +:+ state +:+ "' not found."))
  end.

Definition geometry_note (best_layer_key : string) : string :=
  "AOI geometry resolved at " +:+ best_layer_key +:+ " level.".

(** [resolve_aoi]: the guard on [state], the stub branch, the walk
    [resolve_levels], then the choice of the geometry and the
    construction of the [AOI]. *)
Definition resolve_aoi (state : string) (district block village : option string)
  : R AOI :=
  if negb (Py.truthy_str state) then
    raise (ValueError "State is required to resolve an AOI.")
  else if stub_mode settings then
    district_label <- required_str "district" district ;;
    ret {| state := state;
           district := district_label;
           block := or_NA block;
           village := or_NA village;
           centroid_lat := Some 17.1234%Q;
           centroid_lon := Some 78.5432%Q;
           source_layer := Some "stub";
           area_sqkm := None;
           census_code := None;
           additional_attributes := ∅ |}
  else
    lv <- resolve_levels state district block village ;;
    let context := final_context lv in
    best <- _select_best_feature
              (<["village" := village_feature lv]>
                 (<["block" := block_feature lv]>
                    (<["district" := district_feature lv]>
                       (<["state" := state_feature lv]> ∅)))) ;;
    let best_feature := fst best in
    let best_layer_key := snd best in
    (if negb (String.eqb best_layer_key "village")
     then append_note (geometry_note best_layer_key)
     else ret tt) ;;;
    let centroid := geometry_centroid best_feature in
    let additional_attrs :=
      additional_attrs_of best_layer_key (feature_attrs best_feature) in
    state_label <- required_str "state"
                     (context_get_default context "state_name" state) ;;
    district_label <- required_str "district"
                        (context_get_default context "district_name" (or_NA district)) ;;
    block_label <- required_str "block"
                     (context_get_default context "block_name" (or_NA block)) ;;
    village_label <- required_str "village"
                       (context_get_default context "village_name" (or_NA village)) ;;
    layer <- aoi_layer best_layer_key ;;
    ret {| state := state_label;
           district := district_label;
           block := block_label;
           village := village_label;
           centroid_lat := fst <$> centroid;
           centroid_lon := snd <$> centroid;
           source_layer := Some (url layer);
           area_sqkm := get_number additional_attrs "area_sqkm";
           census_code := str_of_scalar <$> attrs_get additional_attrs "state_census_code";
           additional_attributes := additional_attrs |}.

(** The dict [_fetch_district_groundwater] returns: each key is
    present or not. *)
Record district_gw : Type := mkDistrictGW {
  annual_extraction : option Q;
  net_available : option Q;
  stage_of_development : option Q;
  gw_category : option string;
}.

Definition empty_district_gw : district_gw :=
  mkDistrictGW None None None None.

(** [" AND ".join(where_clauses) or "1=1"] *)
Definition join_where (clauses : list string) : string :=
  let w := Py.join " AND " clauses in
  if Py.truthy_str w then w else "1=1".

Definition _fetch_district_groundwater (aoi : AOI) : R district_gw :=
  match AOI_LAYERS !! "district" with
  | None => ret empty_district_gw
  | Some layer =>
      let c_state :=
        if Py.truthy_str (state aoi) && Py.truthy (state_field layer) then
          match get_state_abbreviation (state aoi) with
          | Some state_abbrev =>
              if Py.truthy_str state_abbrev
              then [default "" (state_field layer) +:+ " = '" +:+ state_abbrev +:+ "'"]
              else []
          | None => []
          end
        else [] in
      let c_district :=
        if Py.truthy_str (district aoi) && Py.truthy (name_field layer) then
          let district_value := Py.replace_char "'" "''" (district aoi) in
          [default "" (name_field layer) +:+ " = '" +:+ district_value +:+ "'"]
        else [] in
      let where_ := join_where (c_state ++ c_district) in
      try_except
        (results <- client_call (QueryByWhere (url layer) where_ [("outFields", "*")]) ;;
         match results with
         | [] => ret empty_district_gw
         | first :: _ =>
             let attrs := feature_attrs first in
             let annual :=
               scalar_or (attrs_get attrs "Annual_Gro") (attrs_get attrs "Annual_G00") in
             let net_avail :=
               scalar_or (attrs_get attrs "Net_Ground") (attrs_get attrs "Ground_Wat") in
             let stage := attrs_get attrs "Stage_of_d" ≫= py_float in
             ret {| annual_extraction := annual ≫= py_float;
                    net_available := net_avail ≫= py_float;
                    stage_of_development := stage;
                    gw_category :=
                      match stage with
                      | Some stage_val =>
                          if Qle_bool 100 stage_val then Some "Over-exploited"
                          else if Qle_bool 90 stage_val then Some "Critical"
                          else if Qle_bool 70 stage_val then Some "Semi-critical"
                          else Some "Safe"
                      | None => None
                      end |}
         end)
        (fun _ => ret empty_district_gw)
  end.

(** The numeric values of [value_field] over the features, skipping
    those that are missing or that [float] rejects. *)
Definition collect_values (value_field : string) (results : list Feature)
  : list Q :=
  omap (fun feature => attrs_get (feature_attrs feature) value_field ≫= py_float)
       results.

Definition _average_groundwater_layer (layer_key : string) (aoi : AOI)
  : R (option Q) :=
  match INDICATOR_LAYERS !! layer_key with
  | None => ret None
  | Some layer =>
      let params := [("outFields", Py.join "," (fields layer))] in
      let c_state :=
        if Py.truthy_str (state aoi)
           && Py.truthy (Py.or_else (state_field layer) (parent_field layer)) then
          let state_field := Py.or_else (state_field layer) (parent_field layer) in
          let state_value := Py.replace_char "'" "''" (state aoi) in
          ["UPPER(" +:+ default "" state_field +:+ ") = UPPER('" +:+ state_value +:+ "')"]
        else [] in
      let c_district :=
        if Py.truthy_str (district aoi)
           && Py.truthy (Py.or_else (district_field layer) (name_field layer)) then
          let district_field := Py.or_else (district_field layer) (name_field layer) in
          let district_value := Py.replace_char "'" "''" (district aoi) in
          ["UPPER(" +:+ default "" district_field +:+ ") = UPPER('" +:+ district_value +:+ "')"]
        else [] in
      let where_ := join_where (c_state ++ c_district) in
      try_except
        (results <- client_call (QueryByWhere (url layer) where_ params) ;;
         let value_field := default "wl_mbgl" (Py.or_else (value_field layer) None) in
         let values := collect_values value_field results in
         match values with
         | [] => ret None
         | _ => ret (Some (Num.sum_Q values / inject_Z (Z.of_nat (length values)))%Q)
         end)
        (fun _ => ret None)
  end.

(** [next((value for value in candidates if value is not None), None)] *)
Fixpoint first_not_None (candidates : list (option Q)) : option Q :=
  match candidates with
  | [] => None
  | Some value :: _ => Some value
  | None :: rest => first_not_None rest
  end.

(** The loop over [delta_pairs]. *)
Fixpoint first_delta (pairs : list (option Q * option Q)) : option Q :=
  match pairs with
  | [] => None
  | (Some newer, Some older) :: _ => Some (Num.round2 (newer - older))
  | _ :: rest => first_delta rest
  end.

(** Truthiness of an [Optional[float]]. *)
Definition truthy_float (o : option Q) : bool :=
  match o with
  | Some q => Num.truthy_Q q
  | None => false
  end.

(** [primary >= threshold if primary else None] *)
Definition stress_flag (threshold : Q) (primary : option Q) : option bool :=
  if truthy_float primary
  then (fun value => Qle_bool threshold value) <$> primary
  else None.

Definition _fetch_groundwater (aoi : AOI) : R GroundWater :=
  gw <- _fetch_district_groundwater aoi ;;
  pre_monsoon <- _average_groundwater_layer "groundwater_pre_monsoon" aoi ;;
  during_monsoon <- _average_groundwater_layer "groundwater_during_monsoon" aoi ;;
  post_monsoon <- _average_groundwater_layer "groundwater_post_monsoon" aoi ;;
  let primary := first_not_None [post_monsoon; during_monsoon; pre_monsoon] in
  let delta :=
    first_delta [(post_monsoon, pre_monsoon); (during_monsoon, pre_monsoon)] in
  let stressed := stress_flag (gw_stress_threshold_m settings) primary in
  let pre2019_value := primary in
  ret {| annual_extraction_mcm := annual_extraction gw;
         net_available_mcm := net_available gw;
         stage_of_development_pc := stage_of_development gw;
         category := gw_category gw;
         district_pre2019_m :=
           if truthy_float pre2019_value then Num.round2 <$> pre2019_value else None;
         pre_post_delta_m := delta;
         stressed := stressed |}.

Definition _fetch_aquifer (aoi : AOI) : R Aquifer :=
  match INDICATOR_LAYERS !! "aquifer" with
  | None => ret empty_Aquifer
  | Some layer =>
      if negb (truthy_float (centroid_lat aoi)) || negb (truthy_float (centroid_lon aoi))
      then ret empty_Aquifer
      else
        try_except
          (results <- client_call
                        (QueryPointWithin (url layer)
                           (default 0%Q (centroid_lon aoi))
                           (default 0%Q (centroid_lat aoi))) ;;
           match results with
           | [] => ret empty_Aquifer
           | first :: _ =>
               let attrs := feature_attrs first in
               let aquifer_type :=
                 scalar_or
                   (scalar_or
                      (scalar_or (attrs_get attrs "aquifer") (attrs_get attrs "aquifers"))
                      (attrs_get attrs "aquifer_0"))
                   (attrs_get attrs "systems") in
               let aquifer_code :=
                 scalar_or (attrs_get attrs "new_code_14") (attrs_get attrs "newcode43") in
               ret {| type := str_of_scalar <$> aquifer_type;
                      code := str_of_scalar <$> aquifer_code |}
           end)
          (fun _ => ret empty_Aquifer)
  end.

Definition _fetch_mgnrega (aoi : AOI) : R MGNREGAStats :=
  match INDICATOR_LAYERS !! "mgnrega_workers" with
  | None => ret empty_MGNREGAStats
  | Some layer =>
      let c_state :=
        if Py.truthy_str (state aoi) && Py.truthy (state_field layer) then
          let state_value := Py.replace_char "'" "''" (state aoi) in
          [default "" (state_field layer) +:+ " = '" +:+ state_value +:+ "'"]
        else [] in
      let c_district :=
        if Py.truthy_str (district aoi) && Py.truthy (district_field layer) then
          let district_value := Py.replace_char "'" "''" (district aoi) in
          [default "" (district_field layer) +:+ " = '" +:+ district_value +:+ "'"]
        else [] in
      let where_ := join_where (c_state ++ c_district) in
      try_except
        (results <- client_call (QueryByWhere (url layer) where_ [("outFields", "*")]) ;;
         match results with
         | [] => ret empty_MGNREGAStats
         | first :: _ =>
             let attrs := feature_attrs first in
             let jobcards_applied := get_int attrs "number_of_jobcards_applied_for" in
             let jobcards_issued := get_int attrs "number_of_jobcards_issued" in
             let registered_total := get_int attrs "registered_workers_total" in
             let registered_sc := get_int attrs "registered_workers_sc" in
             let registered_st := get_int attrs "registered_workers_st" in
             let registered_women := get_int attrs "registered_workers_women" in
             let active_cards := get_int attrs "number_of_active_job_cards" in
             let active_total := get_int attrs "active_workers_total_workers" in
             let active_sc := get_int attrs "active_workers_sc" in
             let active_st := get_int attrs "active_workers_st" in
             let active_women := get_int attrs "active_workers_women" in
             let jobcard_issuance_rate :=
               match jobcards_applied, jobcards_issued with
               | Some applied, Some issued =>
                   if Num.truthy_Z applied && (applied >? 0)%Z
                   then Some (Num.round2 (inject_Z issued / inject_Z applied * 100))
                   else None
               | _, _ => None
               end in
             let worker_activation_rate :=
               match registered_total, active_total with
               | Some registered, Some active =>
                   if Num.truthy_Z registered && (registered >? 0)%Z
                   then Some (Num.round2 (inject_Z active / inject_Z registered * 100))
                   else None
               | _, _ => None
               end in
             let women_participation :=
               match active_total, active_women with
               | Some active, Some women =>
                   if Num.truthy_Z active && (active >? 0)%Z
                   then Some (Num.round2 (inject_Z women / inject_Z active * 100))
                   else None
               | _, _ => None
               end in
             ret {| jobcards_applied := jobcards_applied;
                    jobcards_issued := jobcards_issued;
                    registered_workers_total := registered_total;
                    registered_workers_sc := registered_sc;
                    registered_workers_st := registered_st;
                    registered_workers_women := registered_women;
                    active_job_cards := active_cards;
                    active_workers_total := active_total;
                    active_workers_sc := active_sc;
                    active_workers_st := active_st;
                    active_workers_women := active_women;
                    jobcard_issuance_rate_pc := jobcard_issuance_rate;
                    worker_activation_rate_pc := worker_activation_rate;
                    women_participation_pc := women_participation |}
         end)
        (fun _ => ret empty_MGNREGAStats)
  end.

End Methods.

End Service.
End Indicators.

(** ** Concrete services used to run the definitions *)

Module Fixtures.
Import Arcgis.

(** [⌈a / b⌉] *)
Definition ceil_div (a b : Z) : Z := ((a + b - 1) / b)%Z.

Definition payload_int (payload : gmap string pvalue) (key : string) (d : Z) : Z :=
  match payload !! key with
  | Some (PInt z) => z
  | _ => d
  end.

(** A layer holding the features [db] that honours [resultOffset] and
    [resultRecordCount]: it answers with the page that starts at the
    offset, and reports truncation exactly when features remain after it. *)
Definition paged_post {F} (db : list F) (_ : unit) (_ : string)
    (payload : gmap string pvalue) : unit * (exn + response F) :=
  let offset := payload_int payload "resultOffset" 0 in
  let count := payload_int payload "resultRecordCount" 2000 in
  (tt,
   inr {| status_code := 200;
          json := Some {| error := None;
                          features := Some (take (Z.to_nat count) (drop (Z.to_nat offset) db));
                          exceededTransferLimit :=
                            Some (offset + count <? Z.of_nat (length db))%Z |} |}).

(** An endpoint that plays a script: each request consumes the next
    scripted answer, and the connection fails once the script is over. *)
Definition scripted_post {F} (script : list (exn + response F)) (_ : string)
    (_ : gmap string pvalue) : list (exn + response F) * (exn + response F) :=
  match script with
  | [] => ([], inl (ConnectionError "connection refused"))
  | r :: rest => (rest, r)
  end.

Definition no_random (_ : nat) : Q := 0%Q.

Definition half_random (_ : nat) : Q := (1 # 2)%Q.

Definition no_int (_ : string) : option Z := None.

Definition start {Net} (n : Net) : cstate Net := CState n 0 [] [].

(** A 503 answer, a 200 answer carrying an error payload, and an empty
    200 page that still reports truncation. *)
Definition busy : exn + response nat := inr (Response 503 None).

Definition bad_query : exn + response nat :=
  inr (Response 200 (Some (Page (Some "{code: 400}") None None))).

Definition empty_truncated : exn + response nat :=
  inr (Response 200 (Some (Page None (Some []) (Some true)))).

(** *** A service for the resolver and the indicators *)
Import Model Config Layers Indicators.

(** Geometries are points here, and their centroid is the point. *)
Definition point_centroid (g : Q * Q) : option (Q * Q) := Some g.

Definition plain_str (v : scalar) : string :=
  match v with
  | SStr s => s
  | _ => "?"
  end.

Definition plain_float (v : scalar) : option Q :=
  match v with
  | SInt z => Some (inject_Z z)
  | SFloat q => Some q
  | _ => None
  end.

Definition tripura : @Feature (Q * Q) :=
  {| attributes :=
       Some (<["State_FSI" := SStr "Tripura"]>
               (<["State_Name" := SStr "TR"]>
                  (<["State_Cens" := SStr "16"]> ∅)));
     geometry := Some (23.75, 91.75)%Q |}.

(** The state layer knows Tripura, the district layer is down, every other
    layer is empty. *)
Definition tripura_client (_ : unit) (r : request)
  : unit * (exn + list (@Feature (Q * Q))) :=
  (tt,
   if String.eqb (request_layer_url r) (url state_layer) then inr [tripura]
   else if String.eqb (request_layer_url r) (url district_layer)
        then inl (ConnectionError "district layer unavailable")
        else inr []).

(** No layer answers with a feature. *)
Definition empty_client (_ : unit) (_ : request)
  : unit * (exn + list (@Feature (Q * Q))) :=
  (tt, inr []).

(** Every layer answers with the one feature carrying [attrs]. *)
Definition one_feature_client (attrs : gmap string scalar) (_ : unit) (_ : request)
  : unit * (exn + list (@Feature (Q * Q))) :=
  (tt, inr [ {| attributes := Some attrs; geometry := None |} ]).

(** Only the post-monsoon layer has a reading, of [level] metres. *)
Definition post_monsoon_client (level : Q) (_ : unit) (r : request)
  : unit * (exn + list (@Feature (Q * Q))) :=
  (tt,
   if String.eqb (request_layer_url r) (url groundwater_post_monsoon)
   then inr [ {| attributes := Some (<["wl_mbgl" := SFloat level]> ∅);
                 geometry := None |} ]
   else inr []).

Definition fresh : @service_state unit := mkState tt [] [].

Definition stub_settings : Settings :=
  {| use_vertex := false;
     gcp_project := None;
     gcp_location := "us-central1";
     arcgis_token := None;
     gw_stress_threshold_m := 10%Q;
     nearest_poi_radius_m := 50000%Q;
     stub_mode := true |}.

Definition aoi_at (lat lon : option Q) : AOI :=
  {| state := "Tripura";
     district := "Dhalai";
     block := "N/A";
     village := "N/A";
     centroid_lat := lat;
     centroid_lon := lon;
     source_layer := Some (url state_layer);
     area_sqkm := None;
     census_code := None;
     additional_attributes := ∅ |}.

Definition jobcards (applied issued : Z) : gmap string scalar :=
  <["number_of_jobcards_applied_for" := SInt applied]>
    (<["number_of_jobcards_issued" := SInt issued]> ∅).

End Fixtures.

(** ** The vocabulary of the statements *)

Module Specs.
Import Arcgis Model Config Layers Indicators.

(** The payload [_request] posts: the parameters, with the token when one
    is configured. *)
Definition wire_payload (self : ArcGISClient) (params : gmap string pvalue)
  : gmap string pvalue :=
  if Py.truthy (token self)
  then <["token" := PStr (default "" (token self))]> params
  else params.

(** [random.random()] draws from [[0, 1)]. *)
Definition unit_interval (random : nat -> Q) : Prop :=
  forall n, (0 <= random n)%Q /\ (random n < 1)%Q.

(** The window [[base * 2^(n-1), base * 2^(n-1) * 1.5)] of attempt [n]. *)
Definition in_backoff_window (self : ArcGISClient) (attempt : Z) (d : Q) : Prop :=
  (backoff_base self attempt <= d /\ d < backoff_base self attempt * 1.5)%Q.


Definition aoi_urls : list string :=
  [url state_layer; url district_layer; url village_layer].

Definition label_keys : list string :=
  ["state_name"; "district_name"; "block_name"; "village_name"].

Definition label_set (ctx : gmap string (option string)) (k : string) : Prop :=
  exists n, ctx !! k = Some (Some n).

(** [key in AOI_LAYERS] *)
Definition configured (key : string) : bool := bool_decide (key ∈ dom AOI_LAYERS).

(** The note one optional level leaves: none when the level was not asked
    for or resolved, else the message of the branch taken. *)
Definition level_notes {G} (key : string) (name : option string)
    (feature : option (@Feature G)) (not_found not_configured : string)
  : list string :=
  if Py.truthy name then
    if configured key then
      if truthy_feature_opt feature then [] else [not_found]
    else [not_configured]
  else [].

(** The most specific level the caller named. *)
Definition most_specific_requested (district block village : option string) : string :=
  if Py.truthy village then "village"
  else if Py.truthy block then "block"
  else if Py.truthy district then "district"
  else "state".


(** The stress flag in the words of the specification: the comparison of
    the primary value with the threshold whenever there is a primary
    value, unknown otherwise. *)
Definition stress_by_spec (threshold : Q) (primary : option Q) : option bool :=
  match primary with
  | Some value => Some (Qle_bool threshold value)
  | None => None
  end.

(** A centroid coordinate that is missing or exactly zero. *)
Definition missing_or_zero (coordinate : option Q) : Prop :=
  coordinate = None \/ exists q, coordinate = Some q /\ (q == 0)%Q.

Section Resolver.
Context {Geometry World : Type}.
Variable py_str : scalar -> string.
Variable client : World -> request -> World * (exn + list (@Feature Geometry)).

Local Abbreviation notes := _last_resolution_notes.

(** The state as [resolve_aoi] leaves it when it resets the notes. *)
Definition reset_notes (st : @service_state World) : @service_state World :=
  mkState (world st) (queries st) [].

(** Whether the lookup of the state level yields a usable feature. *)
Definition state_resolves (state : string) (st : @service_state World) : bool :=
  match snd (_resolve_feature client "state" (Some state) ∅ (reset_notes st)) with
  | Ok o => truthy_feature_opt o
  | _ => false
  end.

(** The key [_select_best_feature] settles on. *)
Definition best_key (lv : @levels Geometry) : string :=
  if truthy_feature_opt (village_feature lv) then "village"
  else if truthy_feature_opt (block_feature lv) then "block"
  else if truthy_feature_opt (district_feature lv) then "district"
  else "state".

(** The notes the three optional levels leave, in order. *)
Definition walk_notes (district block village : option string)
    (lv : @levels Geometry) : list string :=
  level_notes "district" district (district_feature lv)
    (district_not_found district)
    "District layer not configured; using state boundary."
  ++ level_notes "block" block (block_feature lv)
       (block_not_found block) "Block layer not configured; skipping."
  ++ level_notes "village" village (village_feature lv)
       (village_not_found village) "Village layer not configured; skipping.".

(** [_update_context] for [key] succeeds, sets the label of [key] and
    leaves the other labels alone. *)
Definition updates_own_label (key : string) : Prop :=
  forall (f : @Feature Geometry) fb ctx (st : @service_state World),
    exists ctx',
      _update_context py_str key f fb ctx st = (st, Ok ctx')
      /\ forall k, k ∈ label_keys ->
           if String.eqb k (key +:+ "_name") then label_set ctx' k
           else ctx' !! k = ctx !! k.

(** What one optional level leaves behind. *)
Definition level_outcome (key : string) (name : option string)
    (not_found not_configured : string)
    (ctx : gmap string (option string)) (st st' : @service_state World)
    (feature : option (@Feature Geometry))
    (ctx' : gmap string (option string)) : Prop :=
  notes st' = notes st ++ level_notes key name feature not_found not_configured
  /\ (exists qs, queries st' = queries st ++ qs
                /\ Forall (fun r => request_layer_url r ∈ aoi_urls) qs
                /\ (configured key = false -> qs = []))
  /\ (truthy_feature_opt feature = true ->
      Py.truthy name = true /\ configured key = true)
  /\ (configured key = false -> feature = None)
  /\ (forall k, k ∈ label_keys ->
        if String.eqb k (key +:+ "_name") && truthy_feature_opt feature
        then label_set ctx' k
        else ctx' !! k = ctx !! k).

(** What the walk leaves behind when the state resolves. *)
Definition walk_outcome (district block village : option string)
    (st st' : @service_state World) (lv : @levels Geometry) : Prop :=
  truthy_feature_opt (state_feature lv) = true
  /\ block_feature lv = None
  /\ notes st' = walk_notes district block village lv
  /\ (exists qs, queries st' = queries st ++ qs
                /\ Forall (fun r => request_layer_url r ∈ aoi_urls) qs)
  /\ (truthy_feature_opt (district_feature lv) = true -> Py.truthy district = true)
  /\ (truthy_feature_opt (village_feature lv) = true -> Py.truthy village = true)
  /\ label_set (final_context lv) "state_name"
  /\ (if truthy_feature_opt (district_feature lv)
      then label_set (final_context lv) "district_name"
      else final_context lv !! "district_name" = None)
  /\ final_context lv !! "block_name" = None
  /\ (if truthy_feature_opt (village_feature lv)
      then label_set (final_context lv) "village_name"
      else final_context lv !! "village_name" = None).

(** What a resolution that returns leaves behind: the walk [lv] it
    made, the notes, and the [AOI]. *)
Definition resolution_outcome (state : string) (district block village : option string)
    (st st' : @service_state World) (lv : @levels Geometry) (aoi : AOI) : Prop :=
  (exists st1,
     resolve_levels py_str client state district block village st = (st1, Ok lv)
     /\ walk_outcome district block village st st1 lv
     /\ world st' = world st1
     /\ queries st' = queries st1)
  /\ notes st'
     = walk_notes district block village lv
       ++ (if String.eqb (best_key lv) "village" then []
           else [geometry_note (best_key lv)])
  /\ source_layer aoi = url <$> AOI_LAYERS !! best_key lv
  /\ is_Some (AOI_LAYERS !! best_key lv)
  /\ (truthy_feature_opt (district_feature lv) = false ->
      Model.district aoi = or_NA district).

End Resolver.

End Specs.

(** ** Further services and vocabulary *)

Module MoreFixtures.
Import Arcgis Fixtures.

(** A layer like [paged_post] whose server never hands out more than [cap]
    features in one page, whatever [resultRecordCount] asks for. *)
Definition capped_post {F} (db : list F) (cap : Z) (_ : unit) (_ : string)
    (payload : gmap string pvalue) : unit * (exn + response F) :=
  let offset := payload_int payload "resultOffset" 0 in
  let count := Z.min (payload_int payload "resultRecordCount" 2000) cap in
  (tt,
   inr {| status_code := 200;
          json := Some {| error := None;
                          features := Some (take (Z.to_nat count) (drop (Z.to_nat offset) db));
                          exceededTransferLimit :=
                            Some (offset + count <? Z.of_nat (length db))%Z |} |}).

(** A service that answers every request with the same one-feature page and
    always reports truncation. *)
Definition truncating_post {F} (feature : F) (_ : unit) (_ : string)
    (_ : gmap string pvalue) : unit * (exn + response F) :=
  (tt,
   inr {| status_code := 200;
          json := Some {| error := None;
                          features := Some [feature];
                          exceededTransferLimit := Some true |} |}).

Definition not_found_answer : exn + response nat := inr (Response 404 None).

Definition good_page : page nat := Page None (Some [7; 8]%nat) (Some false).

Definition good_answer : exn + response nat := inr (Response 200 (Some good_page)).

Import Model Layers Indicators.

Definition dhalai : @Feature (Q * Q) :=
  {| attributes :=
       Some (<["District" := SStr "Dhalai"]>
               (<["State" := SStr "TR"]>
                  (<["st_area_sh" := SFloat 2400]> ∅)));
     geometry := Some (23.93, 91.85)%Q |}.

(** The state layer knows Tripura and the district layer knows Dhalai; the
    village layer is empty. *)
Definition atlas_client (_ : unit) (r : request)
  : unit * (exn + list (@Feature (Q * Q))) :=
  (tt,
   if String.eqb (request_layer_url r) (url state_layer) then inr [tripura]
   else if String.eqb (request_layer_url r) (url district_layer) then inr [dhalai]
        else inr []).



(** An [AOI] whose district name holds a quote. *)
Definition ri_bhoi : AOI :=
  {| state := "Meghalaya";
     district := "Ri'Bhoi";
     block := "N/A";
     village := "N/A";
     centroid_lat := None;
     centroid_lon := None;
     source_layer := Some (url district_layer);
     area_sqkm := None;
     census_code := None;
     additional_attributes := ∅ |}.

(** No layer can be reached. *)
Definition failing_client (_ : unit) (_ : request)
  : unit * (exn + list (@Feature (Q * Q))) :=
  (tt, inl (ConnectionError "service unavailable")).

End MoreFixtures.

Module MoreSpecs.
Import Arcgis Specs.

(** The state one post leaves: the network moved on, one more post logged,
    nothing slept. *)
Definition after_post {Net} (self : ArcGISClient) (url : string)
    (params : gmap string pvalue) (st : cstate Net) (net' : Net) : cstate Net :=
  CState net' (rng_pos st) (slept st) (posts st ++ [(url, wire_payload self params)]).

(** The posts logged in [st'] since [st]. *)
Definition posts_since {Net} (st st' : cstate Net)
    (new : list (string * gmap string pvalue)) : Prop :=
  posts st' = posts st ++ new.

(** Two payloads that differ at most in their [resultOffset]. *)
Definition agrees_off_offset (p q : gmap string pvalue) : Prop :=
  forall key, key <> "resultOffset" -> p !! key = q !! key.

(** Reading the body of a SQL string literal back: a doubled quote stands
    for one quote, and a quote on its own would end the literal. *)
Fixpoint unescape_quotes (s : string) : option string :=
  match s with
  | EmptyString => Some EmptyString
  | String c rest =>
      if Ascii.eqb c "'" then
        match rest with
        | String c' rest' =>
            if Ascii.eqb c' "'" then String "'" <$> unescape_quotes rest' else None
        | EmptyString => None
        end
      else String c <$> unescape_quotes rest
  end.

Section MoreResolver.
Import Model Layers Indicators.
Context {Geometry : Type}.

(** Whether the dict handed to [_select_best_feature] holds a usable
    feature under [key]. *)
Definition resolved_at (features : gmap string (option (@Feature Geometry)))
    (key : string) : bool :=
  match features !! key with
  | Some (Some feature) => truthy_feature feature
  | _ => false
  end.

Definition hierarchy : list string := ["village"; "block"; "district"; "state"].

(** The name a resolved level goes by: the layer's own name for the feature
    when it has a non-empty one, the caller's string otherwise. *)
Definition canonical_name (field : string) (feature : @Feature Geometry)
    (fallback : string) : option string :=
  Py.or_else (get_text (feature_attrs feature) field) (Some fallback).

(** The abbreviation kept for a resolved state: the feature's own, or the
    table's code for its name. *)
Definition state_abbreviation_of (sf : @Feature Geometry) (state : string)
  : option string :=
  if Py.truthy (get_text (feature_attrs sf) "State_Name")
  then get_text (feature_attrs sf) "State_Name"
  else get_state_abbreviation (default "" (canonical_name "State_FSI" sf state)).

(** The value the lower levels filter their state column by: a
    two-character abbreviation when there is one, the name otherwise. *)
Definition state_filter_value (sf : @Feature Geometry) (state : string)
  : option string :=
  if Py.truthy (state_abbreviation_of sf state)
     && (String.length (default "" (state_abbreviation_of sf state)) =? 2)%nat
  then state_abbreviation_of sf state
  else canonical_name "State_FSI" sf state.

(** The WHERE text [_resolve_feature] sends. *)
Definition where_of (layer_key : string) (layer : Layer) (name : option string)
    (context : gmap string (option string)) : string :=
  let clauses := where_clauses layer_key layer name context in
  match clauses with
  | [] => "1=1"
  | _ => Py.join " AND " clauses
  end.

Definition all_fields : list (string * string) := [("outFields", "*")].

(** The feature [_select_best_feature] settles on. *)
Definition best_feature (lv : @levels Geometry) : option (@Feature Geometry) :=
  if truthy_feature_opt (village_feature lv) then village_feature lv
  else if truthy_feature_opt (block_feature lv) then block_feature lv
  else if truthy_feature_opt (district_feature lv) then district_feature lv
  else state_feature lv.

(** The label a level ends up with in the [AOI]. *)
Definition level_label (field : string) (feature : option (@Feature Geometry))
    (name : option string) : string :=
  match feature with
  | Some f =>
      if truthy_feature f then default "" (canonical_name field f (default "" name))
      else or_NA name
  | None => or_NA name
  end.

Section WithStr.
Context {World : Type}.
Variable py_str : scalar -> string.

(** [_update_context] for [key] succeeds, gives the level its canonical
    name read from [field], and leaves the other labels alone. *)
Definition names_level (key field : string) : Prop :=
  forall (f : @Feature Geometry) fb ctx (st : @service_state World),
    exists ctx',
      _update_context py_str key f fb ctx st = (st, Ok ctx')
      /\ ctx' !! (key +:+ "_name") = Some (canonical_name field f fb)
      /\ forall k, k ∈ label_keys -> k <> key +:+ "_name" -> ctx' !! k = ctx !! k.

End WithStr.

End MoreResolver.

End MoreSpecs.

Module Lookups.
Import Model Layers Indicators Specs MoreSpecs.

Section Lookups.
Context {Geometry : Type}.

(** The lookup of the state level: by the caller's string alone. *)
Definition state_query (state : string) : request :=
  QueryByWhere (url state_layer) (_eq_clause "State_FSI" state) all_fields.

(** The lookup of the district level under the resolved state [sf]. *)
Definition district_query (sf : @Feature Geometry) (state d : string) : request :=
  QueryByWhere (url district_layer)
    (Py.join " AND "
       [_eq_clause "District" d;
        _eq_clause "State" (default "" (state_filter_value sf state))])
    all_fields.

(** The district clause of the village lookup: there when the district
    resolved, under the name the district layer gave it. *)
Definition district_clause (df : option (@Feature Geometry)) (district : option string)
  : list string :=
  if truthy_feature_opt df
  then [_eq_clause "district" (level_label "District" df district)]
  else [].

(** The lookup of the village level. *)
Definition village_query (sf : @Feature Geometry) (state : string)
    (df : option (@Feature Geometry)) (district : option string) (v : string) : request :=
  QueryByWhere (url village_layer)
    (Py.join " AND "
       ([_eq_clause "name" v;
         _eq_clause "State" (default "" (state_filter_value sf state))]
        ++ district_clause df district))
    all_fields.

(** The lookups of one resolution, in the order they are made. *)
Definition lookups (sf : @Feature Geometry) (state : string)
    (df : option (@Feature Geometry)) (district village : option string)
  : list request :=
  [state_query state]
  ++ (if Py.truthy district then [district_query sf state (default "" district)] else [])
  ++ (if Py.truthy village
      then [village_query sf state df district (default "" village)] else []).

(** The label of a level in the context: set when the level resolved. *)
Definition context_label (field : string) (feature : option (@Feature Geometry))
    (name : option string) : option (option string) :=
  if truthy_feature_opt feature
  then Some (Some (level_label field feature name))
  else None.

End Lookups.
End Lookups.

(** ** [app/indicators.py]: the indicator bundle and the report notes *)

Module Bundle.
Import Model Config Layers Indicators.

Definition lower_ascii (c : ascii) : ascii :=
  let n := nat_of_ascii c in
  if (65 <=? n)%nat && (n <=? 90)%nat then ascii_of_nat (n + 32) else c.

(** [s.lower()], on ASCII letters. *)
Fixpoint lower (s : string) : string :=
  match s with
  | EmptyString => EmptyString
  | String c s' => String (lower_ascii c) (lower s')
  end.

(** [needle in haystack] on strings. *)
Fixpoint contains (needle haystack : string) : bool :=
  if String.prefix needle haystack then true
  else match haystack with
       | EmptyString => false
       | String _ rest => contains needle rest
       end.

Record LULCPercentages : Type := mkLULCPercentages {
  classes : gmap string Q;
  forest_area_sqkm : option Q;
  forest_percentage : option Q;
  scrub_area_sqkm : option Q;
  geographic_area_sqkm : option Q;
}.

Record IndicatorSet : Type := mkIndicatorSet {
  lulc_pc : LULCPercentages;
  gw : GroundWater;
  aquifer : Aquifer;
  mgnrega : MGNREGAStats;
}.

(** [STUB_INDICATORS] *)
Definition STUB_lulc_pc : gmap string Q :=
  <["forest" := 58%Q]>
    (<["cropland" := 28%Q]> (<["built" := 6%Q]> (<["water" := 2%Q]> ∅))).

Definition STUB_gw : GroundWater :=
  {| annual_extraction_mcm := None;
     net_available_mcm := None;
     stage_of_development_pc := None;
     category := None;
     district_pre2019_m := Some 12.7%Q;
     pre_post_delta_m := Some 1.6%Q;
     stressed := Some true |}.

Definition STUB_aquifer : Aquifer :=
  {| type := Some "Hard rock"; code := Some "HRK" |}.

(** The dict [_fetch_state_forest_data] returns: each key is present or
    not. *)
Record forest_data : Type := mkForestData {
  geographic_area : option Q;
  forest_area : option Q;
  forest_pct : option Q;
  scrub_area : option Q;
}.

Definition empty_forest_data : forest_data := mkForestData None None None None.

Section Service.
Context {Geometry World : Type}.
Variable py_str : scalar -> string.
Variable py_float : scalar -> option Q.
Variable client : World -> request -> World * (exn + list (@Feature Geometry)).
Variable settings : Settings.

Local Abbreviation R := (M (@service_state World)).

Definition _fetch_state_forest_data (aoi : AOI) : R forest_data :=
  match AOI_LAYERS !! "state" with
  | None => ret empty_forest_data
  | Some layer =>
      let c_state :=
        if Py.truthy_str (state aoi) && Py.truthy (name_field layer) then
          let state_value := Py.replace_char "'" "''" (state aoi) in
          [default "" (name_field layer) +:+ " = '" +:+ state_value +:+ "'"]
        else [] in
      let where_ := join_where c_state in
      try_except
        (results <- client_call client
                      (QueryByWhere (url layer) where_ [("outFields", "*")]) ;;
         match results with
         | [] => ret empty_forest_data
         | first :: _ =>
             let attrs := feature_attrs first in
             ret {| geographic_area := attrs_get attrs "GA_sqkm" ≫= py_float;
                    forest_area := attrs_get attrs "Forest_201" ≫= py_float;
                    forest_pct := attrs_get attrs "Per_GA_201" ≫= py_float;
                    scrub_area := attrs_get attrs "Scrub2019" ≫= py_float |}
         end)
        (fun _ => ret empty_forest_data)
  end.

Definition _fetch_lulc (aoi : AOI) : R LULCPercentages :=
  data <- _fetch_state_forest_data aoi ;;
  ret {| classes := ∅;
         forest_area_sqkm := forest_area data;
         forest_percentage := forest_pct data;
         scrub_area_sqkm := scrub_area data;
         geographic_area_sqkm := geographic_area data |}.

Definition _build_stub_bundle : R IndicatorSet :=
  let lulc := {| classes := STUB_lulc_pc;
                 forest_area_sqkm := None;
                 forest_percentage := None;
                 scrub_area_sqkm := None;
                 geographic_area_sqkm := None |} in
  ret {| lulc_pc := lulc;
         gw := STUB_gw;
         aquifer := STUB_aquifer;
         mgnrega := empty_MGNREGAStats |}.

Definition build_indicator_bundle (aoi : AOI) : R IndicatorSet :=
  if stub_mode settings then _build_stub_bundle
  else
    gw <- _fetch_groundwater py_float client settings aoi ;;
    aquifer <- _fetch_aquifer py_str client aoi ;;
    lulc <- _fetch_lulc aoi ;;
    mgnrega <- _fetch_mgnrega client aoi ;;
    ret {| lulc_pc := lulc; gw := gw; aquifer := aquifer; mgnrega := mgnrega |}.

(** [label in {None, "", "N/A"}], for a label that is a [str]. *)
Definition label_unknown (label : string) : bool :=
  String.eqb label "" || String.eqb label "N/A".

(** [any(phrase in note.lower() for note in notes)] *)
Definition any_mentions (phrase : string) (notes : list string) : bool :=
  existsb (fun note => contains phrase (lower note)) notes.

Definition _build_meta_notes (aoi : AOI) (indicators : IndicatorSet) : R (list string) :=
  st <- get_state ;;
  let notes := _last_resolution_notes st in
  let notes :=
    if label_unknown (village aoi) && negb (any_mentions "village boundary" notes)
    then notes ++ ["Village boundary unavailable; report uses higher-level geometry."]
    else notes in
  let notes :=
    if label_unknown (block aoi) && negb (any_mentions "block boundary" notes)
    then notes ++ ["Block boundary unavailable; report uses district context."]
    else notes in
  let notes :=
    if bool_decide (classes (lulc_pc indicators) = ∅)
    then notes ++ ["LULC data unavailable; values omitted."]
    else notes in
  let notes :=
    match stressed (gw indicators) with
    | None => notes ++ ["Groundwater stress could not be evaluated."]
    | Some _ => notes
    end in
  let notes :=
    match pre_post_delta_m (gw indicators) with
    | None => notes ++ ["Groundwater change data unavailable; delta omitted."]
    | Some _ => notes
    end in
  ret notes.



End Service.
End Bundle.

Module BundleSpecs.
Import Model Config Layers Indicators Bundle.

(** [GroundWater()], [LULCPercentages()] and [IndicatorSet()] *)
Definition empty_GroundWater : GroundWater :=
  mkGroundWater None None None None None None None.

Definition empty_LULCPercentages : LULCPercentages :=
  mkLULCPercentages ∅ None None None None.

Definition empty_IndicatorSet : IndicatorSet :=
  {| lulc_pc := empty_LULCPercentages;
     gw := empty_GroundWater;
     aquifer := empty_Aquifer;
     mgnrega := empty_MGNREGAStats |}.


(** Whether the [AOI] has a centroid the aquifer fetch accepts. *)
Definition has_centroid (aoi : AOI) : bool :=
  truthy_float (centroid_lat aoi) && truthy_float (centroid_lon aoi).

(** The layers a live bundle asks, in the order it asks them. *)
Definition bundle_layers (aoi : AOI) : list string :=
  [url district_layer;
   url groundwater_pre_monsoon;
   url groundwater_during_monsoon;
   url groundwater_post_monsoon]
  ++ (if has_centroid aoi then [url aquifer_layer] else [])
  ++ [url state_layer; url mgnrega_workers].

(** The notes [_build_meta_notes] can add. *)
Definition village_note : string :=
  "Village boundary unavailable; report uses higher-level geometry.".
Definition block_note : string :=
  "Block boundary unavailable; report uses district context.".
Definition lulc_note : string := "LULC data unavailable; values omitted.".
Definition stress_note : string := "Groundwater stress could not be evaluated.".
Definition delta_note : string := "Groundwater change data unavailable; delta omitted.".

(** A name as a SQL string literal: quotes doubled, in quotes. *)
Definition sql_literal (value : string) : string :=
  "'" +:+ Py.replace_char "'" "''" value +:+ "'".

Definition star : list (string * string) := [("outFields", "*")].

Section BundleSpecs.
Context {Geometry World : Type}.
Variable client : World -> request -> World * (exn + list (@Feature Geometry)).

(** A client none of whose calls finds a feature: each fails or comes
    back empty. *)
Definition finds_nothing : Prop :=
  forall w r, match snd (client w r) with
              | inl _ | inr [] => True
              | inr (_ :: _) => False
              end.

(** A fetch that made one call, on [layer_url], left the notes alone and
    fell back to [fallback] if the call failed or found nothing. *)
Definition one_call {A} (layer_url : string) (fallback : A)
    (st st' : @service_state World) (result : A) : Prop :=
  exists q,
    queries st' = queries st ++ [q]
    /\ request_layer_url q = layer_url
    /\ _last_resolution_notes st' = _last_resolution_notes st
    /\ match snd (client (world st) q) with
       | inl _ | inr [] => result = fallback
       | inr (_ :: _) => True
       end.

End BundleSpecs.
End BundleSpecs.

(** ** [app/geo.py] and the geometry helpers of [app/indicators.py] *)

Module Geo.
Import Bundle.

(** A JSON value, as [json.loads] builds it: the geometry of a feature. *)
#[local] Set Warnings "-register-all".
Inductive json : Type :=
| JNull
| JBool (b : bool)
| JInt (z : Z)
| JFloat (q : Q)
| JStr (s : string)
| JArr (items : list json)
| JObj (members : gmap string json).
#[local] Set Warnings "register-all".

(** The exceptions the helpers can raise. *)
Inductive error : Type :=
| TypeError
| KeyError.

(** Truthiness of a JSON value. *)
Definition truthy_json (v : json) : bool :=
  match v with
  | JNull => false
  | JBool b => b
  | JInt z => negb (z =? 0)%Z
  | JFloat q => negb (Qeq_bool q 0)
  | JStr s => negb (String.eqb s "")
  | JArr items => negb (length items =? 0)%nat
  | JObj members => negb (size members =? 0)%nat
  end.

(** [len(v)]: numbers, booleans and [None] have no length.  The length of
    a string is counted in characters of the embedding. *)
Definition py_len (v : json) : error + nat :=
  match v with
  | JStr s => inr (String.length s)
  | JArr items => inr (length items)
  | JObj members => inr (size members)
  | _ => inl TypeError
  end.

(** [v[0]] for a [v] of length one: the item of a list, the string itself,
    and [KeyError] on a dict, whose keys are strings. *)
Definition first_of_one (v : json) : error + json :=
  match v with
  | JArr (item :: _) => inr item
  | JStr s => inr (JStr s)
  | JObj _ => inl KeyError
  | _ => inl TypeError
  end.

Definition geojson (type : string) (coordinates : json) : gmap string json :=
  <["type" := JStr type]> (<["coordinates" := coordinates]> ∅).

(** [_esri_to_geojson], on a dict as annotated. *)
Definition _esri_to_geojson (esri_geom : gmap string json)
  : error + gmap string json :=
  match esri_geom !! "rings" with
  | Some rings => inr (geojson "Polygon" rings)
  | None =>
      match esri_geom !! "paths" with
      | Some paths =>
          match py_len paths with
          | inl e => inl e
          | inr n =>
              if (n =? 1)%nat then
                match first_of_one paths with
                | inl e => inl e
                | inr first => inr (geojson "LineString" first)
                end
              else inr (geojson "MultiLineString" paths)
          end
      | None =>
          match esri_geom !! "x", esri_geom !! "y" with
          | Some x, Some y => inr (geojson "Point" (JArr [x; y]))
          | _, _ => inr esri_geom
          end
      end
  end.

(** ["key" in v]: a key of a dict, a substring of a string, an item of a
    list; [TypeError] on anything else. *)
Definition py_in (key : string) (v : json) : error + bool :=
  match v with
  | JObj members => inr (bool_decide (is_Some (members !! key)))
  | JStr s => inr (contains key s)
  | JArr items =>
      inr (existsb (fun item => match item with
                                | JStr s => String.eqb s key
                                | _ => false
                                end) items)
  | _ => inl TypeError
  end.

(** [_feature_point] of [app/indicators.py]. *)
Definition _feature_point (feature : json) : error + option (json * json) :=
  let geometry :=
    match feature with
    | JObj members => members !! "geometry"
    | _ => None
    end in
  match geometry with
  | None => inr None
  | Some geometry =>
      if negb (truthy_json geometry) then inr None
      else
        match py_in "y" geometry with
        | inl e => inl e
        | inr has_y =>
            match (if has_y then py_in "x" geometry else inr false) with
            | inl e => inl e
            | inr true =>
                match geometry with
                | JObj members =>
                    match members !! "y", members !! "x" with
                    | Some y, Some x => inr (Some (y, x))
                    | _, _ => inl KeyError
                    end
                | _ => inl TypeError
                end
            | inr false =>
                match geometry with
                | JObj members =>
                    match members !! "coordinates" with
                    | Some (JArr (c0 :: c1 :: _)) => inr (Some (c1, c0))
                    | _ => inr None
                    end
                | _ => inr None
                end
            end
        end
  end.

Section Distance.
(** [haversine_km], whose trigonometry is left open. *)
Variable haversine_km : Q -> Q -> Q -> Q -> Q.

(** [min(d, *ds)]: the first of the smallest. *)
Definition py_min (d : Q) (ds : list Q) : Q :=
  foldl (fun least x => if Qle_bool least x then least else x) d ds.

Definition min_distance_km (base : Q * Q) (points : list (Q * Q)) : option Q :=
  let distances :=
    map (fun point => haversine_km (fst base) (snd base) (fst point) (snd point))
        points in
  match distances with
  | [] => None
  | d :: ds => Some (py_min d ds)
  end.

End Distance.


End Geo.

(** * Facts *)

Import Arcgis Model Config Layers Indicators Fixtures Specs.

Ltac in_list :=
  repeat first [apply list_elem_of_here | apply list_elem_of_further].

(** ** The query client *)

Section ClientProofs.
Context {F Net : Type}.
Variable post : Net -> string -> gmap string pvalue -> Net * (exn + response F).
Variable random : nat -> Q.
Variable int_of_string : string -> option Z.


Lemma backoff_base_pos self attempt :
  (0 < backoff_factor self)%Q -> (1 <= attempt)%Z -> (0 < backoff_base self attempt)%Q.
Proof.
  intros Hbf Hn. unfold backoff_base.
  apply Qmult_lt_0_compat; [done|].
  replace 0%Q with (inject_Z 0) by done. rewrite <- Zlt_Qlt.
  apply Z.pow_pos_nonneg; lia.
Qed.

Lemma jitter_window (base u : Q) :
  (0 < base)%Q -> (0 <= u)%Q -> (u < 1)%Q ->
  (base <= base + (0 + (base / 2 - 0) * u) /\ base + (0 + (base / 2 - 0) * u) < base * 1.5)%Q.
Proof.
  intros Hb H0 H1.
  assert (0 <= base * u)%Q by (apply Qmult_le_0_compat; lra).
  assert (base * u < base * 1)%Q by (apply Qmult_lt_l; auto).
  assert (E : ((base / 2 - 0) * u == base * u * (1 # 2))%Q) by field.
  rewrite E. split; lra.
Qed.

Lemma _sleep_spec self attempt (st : cstate Net) :
  (0 < backoff_factor self)%Q -> (1 <= attempt)%Z ->
  (0 <= random (rng_pos st))%Q -> (random (rng_pos st) < 1)%Q ->
  exists d,
    _sleep random self attempt st
    = (CState (net st) (S (rng_pos st)) (slept st ++ [d]) (posts st), Ok tt)
    /\ in_backoff_window self attempt d.
Proof.
  intros Hbf Hn H0 H1.
  pose proof (backoff_base_pos self attempt Hbf Hn) as Hb.
  pose proof (jitter_window _ _ Hb H0 H1) as [Hlo Hhi].
  eexists. split.
  - unfold _sleep, bind, uniform, time_sleep. simpl.
    destruct (Qlt_le_dec _ 0) as [Hneg|Hge].
    + exfalso. lra.
    + reflexivity.
  - split; assumption.
Qed.







Lemma success_not_retry status :
  (200 <= status < 300)%Z -> is_retry_status status = false.
Proof.
  intros H. unfold is_retry_status, retry_statuses. apply bool_decide_eq_false.
  intros Hin. repeat (apply elem_of_cons in Hin as [->|Hin]; [lia|]).
  by apply elem_of_nil in Hin.
Qed.

(** C4: an answer with a successful status whose body carries an
    ["error"] key makes [_request] raise [ArcGISError] on that very
    attempt, whatever the attempt counter and the retry budget: the state
    it leaves is the one right after that single post, with no sleep and
    no further post; the error is neither an HTTP nor a transport error. *)
Theorem C4_error_payload_raises_at_once self url params (st : cstate Net)
    net' resp data payload :
  post (net st) url (wire_payload self params) = (net', inr resp) ->
  (200 <= status_code resp < 300)%Z ->
  json resp = Some data ->
  error data = Some payload ->
  let st1 := CState net' (rng_pos st) (slept st)
               (posts st ++ [(url, wire_payload self params)]) in
  (forall fuel attempt,
     _request_loop post random (S fuel) self url params attempt st
     = (st1, Raise (ArcGISError payload)))
  /\ _request post random self url params st = (st1, Raise (ArcGISError payload))
  /\ (forall status, ArcGISError payload <> HTTPError status)
  /\ (forall msg, ArcGISError payload <> ConnectionError msg).
Proof.
  intros Hpost Hstatus Hjson Herr st1.
  assert (Hloop : forall fuel attempt,
     _request_loop post random (S fuel) self url params attempt st
     = (st1, Raise (ArcGISError payload))).
  { intros fuel attempt. cbn [_request_loop]. fold (wire_payload self params).
    unfold bind at 1. unfold session_post at 1. rewrite Hpost.
    rewrite success_not_retry by done.
    unfold bind, raise_for_status, response_json, raise, ret.
    replace ((400 <=? status_code resp)%Z && (status_code resp <? 600)%Z) with false
      by (symmetry; apply andb_false_iff; left; lia).
    by rewrite Hjson, Herr. }
  split_and!; [done|apply Hloop|done|done].
Qed.

End ClientProofs.

Section QueryProofs.
Context {F Net : Type}.
Variable post : Net -> string -> gmap string pvalue -> Net * (exn + response F).
Variable random : nat -> Q.
Variable int_of_string : string -> option Z.

Lemma query_loop_stop fuel self url payload offset items (st st1 : cstate Net) page :
  _request post random self url (<["resultOffset" := PInt offset]> payload) st = (st1, Ok page) ->
  default false (exceededTransferLimit page) = false \/ default [] (features page) = [] ->
  query_loop post random (S fuel) self url payload offset items st
  = (st1, Ok (items ++ default [] (features page))).
Proof.
  intros Hreq Hstop. cbn [query_loop]. unfold bind at 1. rewrite Hreq.
  destruct Hstop as [-> | ->]; [done|].
  by rewrite orb_true_r.
Qed.

Lemma query_loop_continue fuel self url payload offset items (st st1 : cstate Net) page :
  _request post random self url (<["resultOffset" := PInt offset]> payload) st = (st1, Ok page) ->
  default false (exceededTransferLimit page) = true ->
  default [] (features page) <> [] ->
  query_loop post random (S fuel) self url payload offset items st
  = query_loop post random fuel self url (<["resultOffset" := PInt offset]> payload)
      (offset + Z.of_nat (length (default [] (features page))))%Z
      (items ++ default [] (features page)) st1.
Proof.
  intros Hreq Hex Hne. cbn [query_loop]. unfold bind at 1. rewrite Hreq, Hex.
  rewrite bool_decide_eq_false_2; [done|].
  destruct (default [] (features page)); [done|]. simpl. lia.
Qed.

Lemma query_loop_raise fuel self url payload offset items (st st1 : cstate Net) e :
  _request post random self url (<["resultOffset" := PInt offset]> payload) st = (st1, Raise e) ->
  query_loop post random (S fuel) self url payload offset items st = (st1, Raise e).
Proof. intros Hreq. cbn [query_loop]. unfold bind at 1. by rewrite Hreq. Qed.
End QueryProofs.

Section Paged.
Context {F : Type}.
Variable db : list F.
Variable random : nat -> Q.

Lemma ceil_div_small a b : (0 <= a <= b)%Z -> (0 < b)%Z -> Z.max 1 (ceil_div a b) = 1%Z.
Proof.
  intros Ha Hb. unfold ceil_div.
  assert ((a + b - 1) / b < 2)%Z; [|lia].
  apply Z.div_lt_upper_bound; lia.
Qed.

Lemma ceil_div_step a b :
  (0 < b)%Z -> (b < a)%Z -> Z.max 1 (ceil_div a b) = (1 + Z.max 1 (ceil_div (a - b) b))%Z.
Proof.
  intros Hb Ha. unfold ceil_div.
  replace (a + b - 1)%Z with ((a - b + b - 1) + 1 * b)%Z by lia.
  rewrite Z.div_add by lia.
  assert (1 <= (a - b + b - 1) / b)%Z; [|lia].
  apply Z.div_le_lower_bound; lia.
Qed.

Lemma _request_paged self url payload (st : cstate unit) :
  _request (paged_post db) random self url payload st
  = (CState tt (rng_pos st) (slept st) (posts st ++ [(url, wire_payload self payload)]),
     Ok {| error := None;
           features :=
             Some (take (Z.to_nat (payload_int payload "resultRecordCount" 2000))
                     (drop (Z.to_nat (payload_int payload "resultOffset" 0)) db));
           exceededTransferLimit :=
             Some (payload_int payload "resultOffset" 0
                   + payload_int payload "resultRecordCount" 2000
                   <? Z.of_nat (length db))%Z |}).
Proof.
  unfold _request. cbn [_request_loop]. fold (wire_payload self payload).
  unfold bind at 1. unfold session_post, paged_post. cbn.
  assert (Hk : forall key d, key <> "token" ->
            payload_int (wire_payload self payload) key d = payload_int payload key d).
  { intros key d Hne. unfold wire_payload, payload_int.
    destruct (Py.truthy (token self)); [|done]. by rewrite lookup_insert_ne. }
  rewrite !Hk by done. reflexivity.
Qed.

Lemma query_loop_paged self url ps :
  (0 < ps)%Z ->
  forall fuel o payload items (st : cstate unit),
    (o <= length db)%nat ->
    payload !! "resultRecordCount" = Some (PInt ps) ->
    (length db - o < fuel)%nat ->
    exists st',
      query_loop (paged_post db) random fuel self url payload (Z.of_nat o) items st
      = (st', Ok (items ++ drop o db))
      /\ Z.of_nat (length (posts st'))
         = (Z.of_nat (length (posts st))
            + Z.max 1 (ceil_div (Z.of_nat (length db - o)) ps))%Z.
Proof.
  intros Hps. induction fuel as [|fuel IH]; intros o payload items st Ho Hcount Hfuel; [lia|].
  set (payload' := <["resultOffset" := PInt (Z.of_nat o)]> payload).
  assert (Hc : payload_int payload' "resultRecordCount" 2000 = ps).
  { unfold payload_int, payload'. by rewrite lookup_insert_ne, Hcount. }
  assert (Ho' : payload_int payload' "resultOffset" 0 = Z.of_nat o).
  { unfold payload_int, payload'. by rewrite lookup_insert_eq. }
  pose proof (_request_paged self url payload' st) as Hreq.
  rewrite Hc, Ho', Nat2Z.id in Hreq.
  destruct (Z.of_nat o + ps <? Z.of_nat (length db))%Z eqn:Hmore.
  - apply Z.ltb_lt in Hmore.
    assert (Hlen : length (take (Z.to_nat ps) (drop o db)) = Z.to_nat ps).
    { rewrite length_take, length_drop. lia. }
    erewrite query_loop_continue; [|exact Hreq|done|].
    2:{ simpl. intros Hnil. rewrite Hnil in Hlen. simpl in Hlen. lia. }
    simpl. rewrite Hlen.
    replace (Z.of_nat o + Z.of_nat (Z.to_nat ps))%Z with (Z.of_nat (o + Z.to_nat ps)) by lia.
    destruct (IH (o + Z.to_nat ps)%nat payload' (items ++ take (Z.to_nat ps) (drop o db))
                (CState tt (rng_pos st) (slept st)
                   (posts st ++ [(url, wire_payload self payload')]))
                ltac:(lia)) as (st' & Hrun & Hposts).
    { unfold payload'. by rewrite lookup_insert_ne. }
    { lia. }
    exists st'. split.
    + fold payload'. rewrite Hrun. f_equal. f_equal. rewrite <- app_assoc. f_equal.
      rewrite <- (take_drop (Z.to_nat ps) (drop o db)) at 2.
      by rewrite drop_drop.
    + rewrite Hposts. simpl. rewrite length_app. simpl.
      rewrite (ceil_div_step (Z.of_nat (length db - o)) ps) by lia.
      replace (Z.of_nat (length db - (o + Z.to_nat ps))) with (Z.of_nat (length db - o) - ps)%Z by lia.
      lia.
  - apply Z.ltb_ge in Hmore.
    erewrite query_loop_stop; [|exact Hreq|by left].
    eexists. split.
    + simpl. f_equal. f_equal. f_equal. apply take_ge. rewrite length_drop. lia.
    + simpl. rewrite length_app. simpl.
      rewrite ceil_div_small by lia. lia.
Qed.
End Paged.

(** C2, as amended: against a layer that fills every page, [query] returns
    all the features in their order after exactly
    [max 1 ⌈total / page_size⌉] round trips, one round trip being needed
    even for an empty layer.  In general, each page is appended intact in
    the order received; the loop stops at the first page that reports no
    truncation or that is empty, also when that empty page still reports
    truncation, and goes on from the advanced offset otherwise. *)
Theorem C2_pagination_round_trips {F} (db : list F) random int_of_string self url
    params ps fuel (st : cstate unit) :
  (0 < ps)%Z ->
  query_payload params !! "resultRecordCount" = Some (PInt ps) ->
  query_payload params !! "resultOffset" = Some (PInt 0) ->
  (length db < fuel)%nat ->
  (exists st',
     query (paged_post db) random int_of_string fuel self url params st = (st', Ok db)
     /\ Z.of_nat (length (posts st'))
        = (Z.of_nat (length (posts st)) + Z.max 1 (ceil_div (Z.of_nat (length db)) ps))%Z)
  /\ (forall (Net : Type)
             (post : Net -> string -> gmap string pvalue -> Net * (exn + response F))
             fuel' self' url' payload offset items (st0 st1 : cstate Net) page,
        _request post random self' url' (<["resultOffset" := PInt offset]> payload) st0
        = (st1, Ok page) ->
        (default false (exceededTransferLimit page) = false
         \/ default [] (features page) = [] ->
         query_loop post random (S fuel') self' url' payload offset items st0
         = (st1, Ok (items ++ default [] (features page))))
        /\ (default false (exceededTransferLimit page) = true ->
            default [] (features page) <> [] ->
            query_loop post random (S fuel') self' url' payload offset items st0
            = query_loop post random fuel' self' url'
                (<["resultOffset" := PInt offset]> payload)
                (offset + Z.of_nat (length (default [] (features page))))%Z
                (items ++ default [] (features page)) st1)).
Proof.
  intros Hps Hcount Hoff Hfuel. split.
  - unfold query. unfold bind, initial_offset. rewrite Hoff. unfold ret.
    destruct (query_loop_paged db random self (request_url url) ps Hps fuel 0
                (query_payload params) [] st ltac:(lia) Hcount ltac:(lia))
      as (st' & Hrun & Hposts).
    exists st'. split; [exact Hrun|].
    rewrite Hposts. by rewrite Nat.sub_0_r.
  - intros Net post fuel' self' url' payload offset items st0 st1 page Hreq. split.
    + intros Hstop. by apply query_loop_stop.
    + intros Hmore Hne. by apply query_loop_continue.
Qed.

Lemma C2_witness :
  exists st',
    query (paged_post [1; 2; 3; 4; 5]%nat) no_random no_int 6 default_client
      "https://host/arcgis/rest/services/layer/FeatureServer/0"
      (Some {["resultRecordCount" := PInt 2]}) (start tt)
    = (st', Ok [1; 2; 3; 4; 5]%nat)
    /\ Z.of_nat (length (posts st')) = 3%Z.
Proof.
  exact (proj1 (C2_pagination_round_trips [1; 2; 3; 4; 5]%nat no_random no_int
                  default_client
                  "https://host/arcgis/rest/services/layer/FeatureServer/0"
                  (Some {["resultRecordCount" := PInt 2]}) 2 6 (start tt)
                  eq_refl eq_refl eq_refl ltac:(simpl; lia))).
Defined.

(** An empty layer costs one round trip, which is more than [⌈0 / 2000⌉]. *)
Lemma C2_empty_layer_needs_a_round_trip :
  exists st',
    query (paged_post (@nil nat)) no_random no_int 1 default_client
      "https://host/arcgis/rest/services/layer/FeatureServer/0" None (start tt)
    = (st', Ok [])
    /\ length (posts st') = 1%nat
    /\ ceil_div 0 2000 = 0%Z
    /\ ~ (Z.of_nat (length (posts st')) <= ceil_div 0 2000)%Z.
Proof.
  eexists. split; [vm_compute; reflexivity|].
  split; [reflexivity|]. split; [reflexivity|]. vm_compute. intros H; apply H; reflexivity.
Qed.

(** After an empty page that still reports truncation no request follows. *)
Lemma query_stops_on_empty_truncated_page :
  exists st',
    query (@scripted_post nat) no_random no_int 5 default_client
      "https://host/arcgis/rest/services/layer/FeatureServer/0" None
      (start [empty_truncated; busy])
    = (st', Ok [])
    /\ length (posts st') = 1%nat
    /\ net st' = [busy].
Proof. eexists. split; [vm_compute; reflexivity|]. by split. Qed.


Lemma C4_witness :
  _request (@scripted_post nat) no_random default_client
    "https://host/layer/0/query" ∅ (start [bad_query; busy])
  = (CState [busy] 0 [] [("https://host/layer/0/query", ∅)],
     Raise (ArcGISError "{code: 400}")).
Proof.
  exact (proj1 (proj2 (C4_error_payload_raises_at_once
                         (@scripted_post nat) no_random default_client
                         "https://host/layer/0/query" ∅ (start [bad_query; busy])
                         [busy] (Response 200 (Some (Page (Some "{code: 400}") None None)))
                         (Page (Some "{code: 400}") None None) "{code: 400}"
                         eq_refl ltac:(simpl; lia) eq_refl eq_refl))).
Defined.

(** ** The AOI resolver *)


Lemma configured_district : configured "district" = true.
Proof. unfold configured. apply bool_decide_eq_true, elem_of_dom. by eexists. Qed.



Lemma truthy_Some (o : option string) : Py.truthy o = true -> exists s, o = Some s.
Proof. destruct o; [eauto|done]. Qed.

Lemma or_else_truthy a b : Py.truthy b = true -> Py.truthy (Py.or_else a b) = true.
Proof. unfold Py.or_else. by destruct (Py.truthy a) eqn:E. Qed.


Section ResolverProofs.
Context {Geometry World : Type}.
Variable shape_centroid : Geometry -> option (Q * Q).
Variable py_str : scalar -> string.
Variable client : World -> request -> World * (exn + list (@Feature Geometry)).

Local Abbreviation notes := _last_resolution_notes.

Lemma _resolve_feature_spec key name ctx (st : service_state) :
  exists st' o,
    _resolve_feature client key name ctx st = (st', Ok o)
    /\ notes st' = notes st
    /\ match AOI_LAYERS !! key with
       | None => st' = st /\ o = None
       | Some layer =>
           exists w, queries st' = queries st ++ [QueryByWhere (url layer) w [("outFields", "*")]]
       end.
Proof.
  unfold _resolve_feature. destruct (AOI_LAYERS !! key) as [layer|]; [|by eexists _, _].
  unfold try_except, bind, client_call.
  destruct (client (world st) _) as [w [e|[|first rest]]]; eexists _, _; split_and!; try done; by eexists.
Qed.

Lemma _update_context_state (f : @Feature Geometry) fb ctx (st : @service_state World) :
  Py.truthy_str fb = true ->
  exists ctx',
    _update_context py_str "state" f fb ctx st = (st, Ok ctx')
    /\ label_set ctx' "state_name"
    /\ ctx' !! "district_name" = ctx !! "district_name"
    /\ ctx' !! "block_name" = ctx !! "block_name"
    /\ ctx' !! "village_name" = ctx !! "village_name".
Proof.
  intros Hfb. unfold _update_context, bind, aoi_layer.
  change (AOI_LAYERS !! "state") with (Some state_layer). cbn -[get_state_abbreviation get_state_full_name].
  set (resolved := Py.or_else (get_text (feature_attrs f) "State_FSI") (Some fb)).
  assert (Hres : Py.truthy resolved = true) by (by apply or_else_truthy).
  assert (Hfull : Py.truthy (Py.or_else (get_text (feature_attrs f) "State_FSI") resolved) = true)
    by (by apply or_else_truthy).
  rewrite Hfull. cbn -[get_state_abbreviation get_state_full_name].
  rewrite andb_false_r.
  destruct (truthy_Some _ Hfull) as [n Hn]. rewrite Hn.
  eexists. split; [reflexivity|].
  destruct (attrs_get (feature_attrs f) "State_Cens");
    unfold label_set; split_and!; simplify_map_eq; eauto.
Qed.

Lemma _update_context_district (f : @Feature Geometry) fb ctx (st : @service_state World) :
  exists ctx',
    _update_context py_str "district" f fb ctx st = (st, Ok ctx')
    /\ ctx' !! "state_name" = ctx !! "state_name"
    /\ label_set ctx' "district_name"
    /\ ctx' !! "block_name" = ctx !! "block_name"
    /\ ctx' !! "village_name" = ctx !! "village_name".
Proof.
  unfold _update_context, bind, aoi_layer.
  change (AOI_LAYERS !! "district") with (Some district_layer). cbn.
  eexists. split; [reflexivity|].
  unfold label_set, Py.or_else.
  destruct (Py.truthy (get_text (feature_attrs f) "District")) eqn:E.
  - destruct (truthy_Some _ E) as [n ->]. split_and!; simplify_map_eq; eauto.
  - split_and!; simplify_map_eq; eauto.
Qed.

Lemma _update_context_village (f : @Feature Geometry) fb ctx (st : @service_state World) :
  exists ctx',
    _update_context py_str "village" f fb ctx st = (st, Ok ctx')
    /\ ctx' !! "state_name" = ctx !! "state_name"
    /\ ctx' !! "district_name" = ctx !! "district_name"
    /\ ctx' !! "block_name" = ctx !! "block_name"
    /\ label_set ctx' "village_name".
Proof.
  unfold _update_context, bind, aoi_layer.
  change (AOI_LAYERS !! "village") with (Some village_layer). cbn.
  eexists. split; [reflexivity|].
  unfold label_set, Py.or_else.
  destruct (attrs_get (feature_attrs f) "lgd_villagecode");
    destruct (attrs_get (feature_attrs f) "lgd_subdistrictcode");
    destruct (Py.truthy (get_text (feature_attrs f) "name")) eqn:E;
    try (destruct (truthy_Some _ E) as [n ->]);
    split_and!; simplify_map_eq; eauto.
Qed.


Lemma updates_own_label_district : @updates_own_label Geometry World py_str "district".
Proof.
  intros f fb ctx st.
  destruct (_update_context_district f fb ctx st) as (ctx' & Hup & Hs & Hd & Hb & Hv).
  exists ctx'. split; [done|]. intros k Hk. unfold label_keys in Hk.
  repeat (apply elem_of_cons in Hk as [->|Hk]); try done.
  by apply elem_of_nil in Hk.
Qed.

Lemma updates_own_label_village : @updates_own_label Geometry World py_str "village".
Proof.
  intros f fb ctx st.
  destruct (_update_context_village f fb ctx st) as (ctx' & Hup & Hs & Hd & Hb & Hv).
  exists ctx'. split; [done|]. intros k Hk. unfold label_keys in Hk.
  repeat (apply elem_of_cons in Hk as [->|Hk]); try done.
  by apply elem_of_nil in Hk.
Qed.

Lemma resolve_level_configured key layer name nf nc ctx (st : @service_state World) :
  AOI_LAYERS !! key = Some layer ->
  url layer ∈ aoi_urls ->
  @updates_own_label Geometry World py_str key ->
  exists st' feature ctx',
    resolve_level py_str client key name nf nc ctx st = (st', Ok (feature, ctx'))
    /\ level_outcome key name nf nc ctx st st' feature ctx'.
Proof.
  intros Hlayer Hurl Hupd.
  assert (Hconf : configured key = true).
  { unfold configured. apply bool_decide_eq_true, elem_of_dom. by eexists. }
  unfold resolve_level, level_outcome, level_notes. fold (configured key).
  rewrite Hconf.
  destruct (Py.truthy name) eqn:Hname.
  2:{ exists st, None, ctx. split; [done|]. split_and!; try done.
      - by rewrite app_nil_r.
      - exists []. by rewrite app_nil_r.
      - intros k Hk. by rewrite andb_false_r. }
  unfold bind at 1.
  destruct (_resolve_feature_spec key name ctx st) as (st1 & o & Hrun & Hnotes & Hq).
  rewrite Hrun. rewrite Hlayer in Hq. destruct Hq as [w Hq].
  assert (Hqs : exists qs, queries st1 = queries st ++ qs
                /\ Forall (fun r => request_layer_url r ∈ aoi_urls) qs
                /\ (true = false -> qs = [])).
  { eexists. split; [exact Hq|]. split; [|done].
    constructor; [|constructor]. exact Hurl. }
  destruct (truthy_feature_opt o) eqn:Ho.
  - destruct o as [f|]; [|done].
    destruct (Hupd f (default "" name) ctx st1) as (ctx' & Hup & Hlabels).
    unfold bind. rewrite Hup. unfold ret.
    exists st1, (Some f), ctx'. split; [done|]. split_and!; try done.
    + by rewrite Ho, app_nil_r.
    + intros k Hk. rewrite Ho, andb_true_r. by apply Hlabels.
  - unfold bind, append_note, modify, ret. simpl.
    exists (mkState (world st1) (queries st1) (notes st1 ++ [nf])), o, ctx.
    split; [done|]. split_and!; simpl; try done.
    + by rewrite Hnotes, Ho.
    + intros k Hk. by rewrite Ho, andb_false_r.
Qed.

Lemma resolve_level_unconfigured key name nf nc ctx (st : @service_state World) :
  AOI_LAYERS !! key = None ->
  exists st',
    resolve_level py_str client key name nf nc ctx st = (st', Ok (None, ctx))
    /\ @level_outcome Geometry World key name nf nc ctx st st' None ctx.
Proof.
  intros Hlayer.
  assert (Hconf : configured key = false).
  { unfold configured. apply bool_decide_eq_false. by rewrite not_elem_of_dom. }
  unfold resolve_level, level_outcome, level_notes. fold (configured key).
  rewrite Hconf.
  destruct (Py.truthy name) eqn:Hname.
  - unfold bind, append_note, modify, ret. simpl.
    eexists. split; [reflexivity|]. split_and!; simpl; try done.
    + exists []. by rewrite app_nil_r.
    + intros k Hk. by rewrite andb_false_r.
  - exists st. split; [done|]. split_and!; try done.
    + by rewrite app_nil_r.
    + exists []. by rewrite app_nil_r.
    + intros k Hk. by rewrite andb_false_r.
Qed.

Lemma Forall_urls_app (qs1 qs2 : list request) :
  Forall (fun r => request_layer_url r ∈ aoi_urls) qs1 ->
  Forall (fun r => request_layer_url r ∈ aoi_urls) qs2 ->
  Forall (fun r => request_layer_url r ∈ aoi_urls) (qs1 ++ qs2).
Proof. intros. by apply Forall_app. Qed.


Lemma resolve_levels_spec state district block village (st : @service_state World) :
  Py.truthy_str state = true ->
  if state_resolves client state st then
    exists st' lv,
      resolve_levels py_str client state district block village st = (st', Ok lv)
      /\ walk_outcome district block village st st' lv
  else
    exists st',
      resolve_levels py_str client state district block village st
      = (st', Raise (ValueError ("State '" +:+ state +:+ "' not found.")))
      /\ notes st' = []
      /\ exists qs, queries st' = queries st ++ qs
                   /\ Forall (fun r => request_layer_url r ∈ aoi_urls) qs.
Proof.
  intros Hstate. unfold state_resolves.
  destruct (_resolve_feature_spec "state" (Some state) ∅ (reset_notes st))
    as (st1 & o & Hrun & Hnotes1 & Hq1).
  rewrite Hrun. cbn [snd].
  assert (Hhead : forall k : option (@Feature Geometry) -> M (@service_state World) (@levels Geometry),
            (set_notes [] ;;; o' <- _resolve_feature client "state" (Some state) ∅ ;; k o') st
            = k o st1).
  { intros k. unfold bind at 1. unfold set_notes at 1, modify at 1. fold (reset_notes st).
    unfold bind at 1. by rewrite Hrun. }
  unfold resolve_levels. rewrite Hhead. clear Hhead.
  change (AOI_LAYERS !! "state") with (Some state_layer) in Hq1. destruct Hq1 as [w1 Hq1].
  assert (Hfail : exists qs, queries st1 = queries st ++ qs
                   /\ Forall (fun r => request_layer_url r ∈ aoi_urls) qs).
  { eexists. split; [exact Hq1|]. constructor; [|constructor]. in_list. }
  destruct o as [sf|]; cbn [truthy_feature_opt]; [|by eexists].
  destruct (truthy_feature sf) eqn:Hsf; cbn [negb]; [|by eexists].
  clear Hfail.
  destruct (_update_context_state sf state ∅ st1 Hstate) as (ctx1 & Hup & Hs1 & Hd1 & Hb1 & Hv1).
  unfold bind at 1. rewrite Hup.
  destruct (resolve_level_configured "district" district_layer district
              (district_not_found district)
              "District layer not configured; using state boundary." ctx1 st1)
    as (st2 & df & ctx2 & Hrun2 & Hn2 & (qs2 & Hq2 & Hu2 & _) & Hdt & _ & Hl2);
    [done|unfold aoi_urls; in_list|apply updates_own_label_district|].
  unfold bind at 1. rewrite Hrun2. cbn [fst snd].
  destruct (resolve_level_unconfigured "block" block (block_not_found block)
              "Block layer not configured; skipping." ctx2 st2)
    as (st3 & Hrun3 & Hn3 & (qs3 & Hq3 & Hu3 & _) & _ & _ & Hl3); [done|].
  unfold bind at 1. rewrite Hrun3. cbn [fst snd].
  destruct (resolve_level_configured "village" village_layer village
              (village_not_found village)
              "Village layer not configured; skipping." ctx2 st3)
    as (st4 & vf & ctx4 & Hrun4 & Hn4 & (qs4 & Hq4 & Hu4 & _) & Hvt & _ & Hl4);
    [done|unfold aoi_urls; in_list|apply updates_own_label_village|].
  unfold bind at 1. rewrite Hrun4. cbn [fst snd]. unfold ret.
  eexists _, _. split; [reflexivity|].
  unfold walk_outcome, walk_notes. cbn [state_feature district_feature block_feature
    village_feature final_context truthy_feature_opt].
  split_and!; try done.
  - rewrite Hn4, Hn3, Hn2, Hnotes1. simpl. by rewrite <- !app_assoc.
  - exists ([QueryByWhere (url state_layer) w1 [("outFields", "*")]] ++ qs2 ++ qs3 ++ qs4).
    split.
    + rewrite Hq4, Hq3, Hq2, Hq1. simpl. by rewrite <- !app_assoc.
    + repeat apply Forall_urls_app; try done.
      constructor; [|constructor]. unfold aoi_urls. in_list.
  - intros H. by apply Hdt.
  - intros H. by apply Hvt.
  - pose proof (Hl4 "state_name" ltac:(in_list)) as H4.
    pose proof (Hl2 "state_name" ltac:(in_list)) as H2.
    cbn in H4, H2. unfold label_set in *. rewrite H4, H2. exact Hs1.
  - pose proof (Hl4 "district_name" ltac:(in_list)) as H4.
    pose proof (Hl2 "district_name" ltac:(in_list)) as H2.
    cbn in H4, H2. destruct (truthy_feature_opt df).
    + unfold label_set in *. by rewrite H4.
    + rewrite H4, H2, Hd1. apply lookup_empty.
  - pose proof (Hl4 "block_name" ltac:(in_list)) as H4.
    pose proof (Hl2 "block_name" ltac:(in_list)) as H2.
    cbn in H4, H2. rewrite H4, H2, Hb1. apply lookup_empty.
  - pose proof (Hl4 "village_name" ltac:(in_list)) as H4.
    pose proof (Hl2 "village_name" ltac:(in_list)) as H2.
    cbn in H4, H2. destruct (truthy_feature_opt vf).
    + done.
    + rewrite H4, H2, Hv1. apply lookup_empty.
Qed.

Variable settings : Settings.

Lemma first_resolved_levels (lv : @levels Geometry) :
  block_feature lv = None ->
  truthy_feature_opt (state_feature lv) = true ->
  exists f,
    first_resolved
      (<["village" := village_feature lv]>
         (<["block" := block_feature lv]>
            (<["district" := district_feature lv]>
               (<["state" := state_feature lv]> ∅))))
      ["village"; "block"; "district"; "state"]
    = Some (f, best_key lv).
Proof.
  intros Hb Hs. unfold best_key. rewrite Hb. cbn [first_resolved truthy_feature_opt].
  rewrite lookup_insert_eq.
  rewrite lookup_insert_ne by done. rewrite lookup_insert_eq.
  rewrite !(lookup_insert_ne _ "village" "district") by done.
  rewrite !(lookup_insert_ne _ "block" "district") by done. rewrite lookup_insert_eq.
  rewrite !(lookup_insert_ne _ _ "state") by done. rewrite lookup_insert_eq.
  destruct (village_feature lv) as [vf|]; cbn [truthy_feature_opt];
    [destruct (truthy_feature vf); [by eexists|]|];
    (destruct (district_feature lv) as [df|]; cbn [truthy_feature_opt];
     [destruct (truthy_feature df); [by eexists|]|]);
    (destruct (state_feature lv) as [sf|]; [|done]; cbn [truthy_feature_opt] in Hs;
     rewrite Hs; by eexists).
Qed.

Lemma best_key_cases (lv : @levels Geometry) :
  block_feature lv = None ->
  best_key lv = "village" \/ best_key lv = "district" \/ best_key lv = "state".
Proof.
  intros Hb. unfold best_key. rewrite Hb. cbn.
  destruct (truthy_feature_opt (village_feature lv)); [by left|].
  destruct (truthy_feature_opt (district_feature lv)); [by right; left|by right; right].
Qed.


Lemma resolve_aoi_live state district block village (st : @service_state World) :
  stub_mode settings = false ->
  Py.truthy_str state = true ->
  state_resolves client state st = true ->
  exists st' lv aoi,
    resolve_aoi shape_centroid py_str client settings state district block village st
    = (st', Ok aoi)
    /\ resolution_outcome py_str client state district block village st st' lv aoi.
Proof.
  intros Hstub Hstate Hres.
  pose proof (resolve_levels_spec state district block village st Hstate) as Hwalk.
  rewrite Hres in Hwalk. destruct Hwalk as (st1 & lv & Hrun & Hout).
  pose proof Hout as (Hsf & Hbf & Hnotes & Hqs & Hdt & Hvt & Hls & Hld & Hlb & Hlv).
  destruct (first_resolved_levels lv Hbf Hsf) as [best Hbest].
  unfold resolve_aoi. rewrite Hstate, Hstub. cbn [negb].
  unfold bind at 1. rewrite Hrun.
  unfold bind at 1. unfold _select_best_feature. rewrite Hbest. unfold ret at 1. cbn [fst snd].
  set (st2 := if String.eqb (best_key lv) "village" then st1
              else mkState (world st1) (queries st1) (notes st1 ++ [geometry_note (best_key lv)])).
  assert (Hnote : (if negb (String.eqb (best_key lv) "village")
                   then append_note (geometry_note (best_key lv)) else ret tt) st1
                  = (st2, Ok tt)).
  { unfold st2. by destruct (String.eqb (best_key lv) "village"). }
  unfold bind at 1. rewrite Hnote.
  destruct Hls as [sn Hsn].
  unfold bind at 1. unfold context_get_default at 1. rewrite Hsn. cbn [required_str]. unfold ret at 1.
  assert (Hdist : exists dn, context_get_default (final_context lv) "district_name" (or_NA district) = Some dn
            /\ (truthy_feature_opt (district_feature lv) = false -> dn = or_NA district)).
  { unfold context_get_default. destruct (truthy_feature_opt (district_feature lv)).
    - destruct Hld as [dn ->]. by exists dn.
    - rewrite Hld. by eexists. }
  destruct Hdist as (dn & Hdn & Hdfall).
  unfold bind at 1. rewrite Hdn. cbn [required_str]. unfold ret at 1.
  unfold bind at 1. unfold context_get_default at 1. rewrite Hlb. cbn [required_str]. unfold ret at 1.
  assert (Hvil : exists vn, context_get_default (final_context lv) "village_name" (or_NA village) = Some vn).
  { unfold context_get_default. destruct (truthy_feature_opt (village_feature lv)).
    - destruct Hlv as [vn ->]. by exists vn.
    - rewrite Hlv. by eexists. }
  destruct Hvil as (vn & Hvn).
  unfold bind at 1. rewrite Hvn. cbn [required_str]. unfold ret at 1.
  assert (Hlayer : exists layer, AOI_LAYERS !! best_key lv = Some layer).
  { destruct (best_key_cases lv Hbf) as [ -> | [ -> | -> ] ]; by eexists. }
  destruct Hlayer as (layer & Hlayer).
  unfold bind at 1. unfold aoi_layer. rewrite Hlayer. unfold ret.
  eexists st2, lv, _. split; [reflexivity|].
  unfold resolution_outcome. cbn [source_layer Model.district].
  split_and!.
  - exists st1. split_and!; try done; unfold st2; by destruct (String.eqb (best_key lv) "village").
  - unfold st2. destruct (String.eqb (best_key lv) "village"); simpl.
    + by rewrite app_nil_r.
    + by rewrite Hnotes.
  - by rewrite Hlayer.
  - by rewrite Hlayer.
  - exact Hdfall.
Qed.

Lemma resolve_aoi_blank_state state district block village (st : @service_state World) :
  Py.truthy_str state = false ->
  resolve_aoi shape_centroid py_str client settings state district block village st
  = (st, Raise (ValueError "State is required to resolve an AOI.")).
Proof. intros H. unfold resolve_aoi. by rewrite H. Qed.

Lemma resolve_aoi_unresolved_state state district block village (st : @service_state World) :
  stub_mode settings = false ->
  Py.truthy_str state = true ->
  state_resolves client state st = false ->
  exists st',
    resolve_aoi shape_centroid py_str client settings state district block village st
    = (st', Raise (ValueError ("State '" +:+ state +:+ "' not found.")))
    /\ notes st' = []
    /\ exists qs, queries st' = queries st ++ qs
                 /\ Forall (fun r => request_layer_url r ∈ aoi_urls) qs.
Proof.
  intros Hstub Hstate Hres.
  pose proof (resolve_levels_spec state district block village st Hstate) as Hwalk.
  rewrite Hres in Hwalk. destruct Hwalk as (st' & Hrun & Hrest).
  exists st'. split; [|exact Hrest].
  unfold resolve_aoi. rewrite Hstate, Hstub. cbn [negb]. unfold bind at 1. by rewrite Hrun.
Qed.



Lemma resolve_aoi_returns_inv state district block village
    (st st' : @service_state World) aoi :
  stub_mode settings = false ->
  resolve_aoi shape_centroid py_str client settings state district block village st
  = (st', Ok aoi) ->
  Py.truthy_str state = true
  /\ state_resolves client state st = true
  /\ exists lv, resolution_outcome py_str client state district block village st st' lv aoi.
Proof.
  intros Hstub Hrun.
  destruct (Py.truthy_str state) eqn:Hstate.
  2:{ rewrite resolve_aoi_blank_state in Hrun by done. congruence. }
  destruct (state_resolves client state st) eqn:Hres.
  2:{ destruct (resolve_aoi_unresolved_state state district block village st Hstub Hstate Hres)
        as (st2 & Hrun2 & _). congruence. }
  destruct (resolve_aoi_live state district block village st Hstub Hstate Hres)
    as (st2 & lv & aoi2 & Hrun2 & Hout).
  rewrite Hrun2 in Hrun. injection Hrun as <- <-. split_and!; try done. by exists lv.
Qed.

Lemma walk_notes_not_geometry district block village (lv : @levels Geometry) note key :
  note ∈ walk_notes district block village lv -> note <> geometry_note key.
Proof.
  unfold walk_notes, level_notes. intros Hin.
  repeat (apply elem_of_app in Hin as [Hin|Hin]);
    repeat match type of Hin with
           | _ ∈ (if ?b then _ else _) => destruct b
           end;
    try (by apply elem_of_nil in Hin);
    apply list_elem_of_singleton in Hin as ->; discriminate.
Qed.


(** C5: when the state resolves, the district that was asked for does not,
    and neither the block nor the village resolves, the [AOI] keeps the
    caller's district string as its label, takes its geometry from the
    state layer, and the notes say that the district was not found. *)
Theorem C5_unresolved_district_falls_back_to_state state d block village
    (st st1 : @service_state World) (lv : @levels Geometry) :
  stub_mode settings = false ->
  Py.truthy_str state = true ->
  Py.truthy_str d = true ->
  resolve_levels py_str client state (Some d) block village st = (st1, Ok lv) ->
  truthy_feature_opt (district_feature lv) = false ->
  truthy_feature_opt (village_feature lv) = false ->
  exists st' aoi,
    resolve_aoi shape_centroid py_str client settings state (Some d) block village st
    = (st', Ok aoi)
    /\ Model.district aoi = d
    /\ source_layer aoi = Some (url state_layer)
    /\ district_not_found (Some d) ∈ notes st'
    /\ truthy_feature_opt (block_feature lv) = false.
Proof.
  intros Hstub Hstate Hd Hwalk Hdf Hvf.
  destruct (state_resolves client state st) eqn:Hres.
  2:{ pose proof (resolve_levels_spec state (Some d) block village st Hstate) as Hspec.
      rewrite Hres in Hspec. destruct Hspec as (st2 & Hrun2 & _). congruence. }
  destruct (resolve_aoi_live state (Some d) block village st Hstub Hstate Hres)
    as (st' & lv' & aoi & Hrun & (st1' & Hwalk' & Hout & _) & Hnotes & Hsrc & _ & Hlabel).
  rewrite Hwalk in Hwalk'. injection Hwalk' as <- <-.
  destruct Hout as (_ & Hbf & _).
  assert (Hkey : best_key lv = "state").
  { unfold best_key. by rewrite Hvf, Hbf, Hdf. }
  exists st', aoi. split_and!; try done.
  - rewrite (Hlabel Hdf). unfold or_NA. cbn [Py.truthy]. by rewrite Hd.
  - by rewrite Hsrc, Hkey.
  - rewrite Hnotes. apply elem_of_app. left. unfold walk_notes, level_notes.
    cbn [Py.truthy]. rewrite Hd, configured_district, Hdf. apply elem_of_app. left. in_list.
  - by rewrite Hbf.
Qed.

(** C8, as amended: whenever a resolution returns, the note naming the
    level that supplied the geometry is recorded exactly when that level
    is not the village level, whatever levels the caller asked for. *)
Theorem C8_geometry_note_unless_village state district block village
    (st st' : @service_state World) aoi :
  stub_mode settings = false ->
  resolve_aoi shape_centroid py_str client settings state district block village st
  = (st', Ok aoi) ->
  exists lv,
    resolution_outcome py_str client state district block village st st' lv aoi
    /\ (geometry_note (best_key lv) ∈ notes st' <-> best_key lv <> "village").
Proof.
  intros Hstub Hrun.
  destruct (resolve_aoi_returns_inv state district block village st st' aoi Hstub Hrun)
    as (_ & _ & lv & Hout).
  exists lv. split; [done|].
  destruct Hout as (_ & Hnotes & _). rewrite Hnotes. split.
  - intros Hin Hkey. rewrite Hkey in Hin. cbn in Hin. rewrite app_nil_r in Hin.
    by eapply walk_notes_not_geometry.
  - intros Hkey. apply elem_of_app. right.
    destruct (String.eqb (best_key lv) "village") eqn:E; [|in_list].
    by apply String.eqb_eq in E.
Qed.

End ResolverProofs.


Lemma C5_witness :
  exists st' aoi,
    resolve_aoi point_centroid plain_str tripura_client default_settings
      "Tripura" (Some "Dhalai") None None fresh = (st', Ok aoi)
    /\ Model.district aoi = "Dhalai"
    /\ source_layer aoi = Some (url state_layer)
    /\ district_not_found (Some "Dhalai") ∈ _last_resolution_notes st'.
Proof.
  edestruct (C5_unresolved_district_falls_back_to_state point_centroid plain_str
               tripura_client default_settings "Tripura" "Dhalai" None None fresh)
    as (st' & aoi & Hrun & Hd & Hs & Hn & _).
  - reflexivity.
  - reflexivity.
  - reflexivity.
  - vm_compute. reflexivity.
  - reflexivity.
  - reflexivity.
  - exists st', aoi. by split_and!.
Defined.

Lemma C8_witness :
  exists st' aoi (lv : @levels (Q * Q)),
    resolve_aoi point_centroid plain_str tripura_client default_settings
      "Tripura" (Some "Dhalai") None None fresh = (st', Ok aoi)
    /\ (geometry_note (best_key lv) ∈ _last_resolution_notes st'
        <-> best_key lv <> "village").
Proof.
  assert (exists st' aoi,
            resolve_aoi point_centroid plain_str tripura_client default_settings
              "Tripura" (Some "Dhalai") None None fresh = (st', Ok aoi))
    as (st' & aoi & Hrun) by (eexists _, _; vm_compute; reflexivity).
  destruct (C8_geometry_note_unless_village point_centroid plain_str tripura_client
              default_settings "Tripura" (Some "Dhalai") None None fresh st' aoi
              eq_refl Hrun) as (lv & _ & Hiff).
  by exists st', aoi, lv.
Defined.


(** A request that names only the state, which resolves, still records the
    note, although the state is the most specific level asked for. *)
Lemma C8_state_only_request_is_noted :
  exists st' aoi,
    resolve_aoi point_centroid plain_str tripura_client default_settings
      "Tripura" None None None fresh = (st', Ok aoi)
    /\ source_layer aoi = Some (url state_layer)
    /\ ~ (geometry_note "state" ∈ _last_resolution_notes st'
          <-> "state" <> most_specific_requested None None None).
Proof.
  eexists _, _. split; [vm_compute; reflexivity|]. split; [reflexivity|].
  intros [H _]. apply H; [|reflexivity]. cbn. in_list.
Qed.

(** ** The indicators *)

Section IndicatorProofs.
Context {Geometry World : Type}.
Variable py_str : scalar -> string.
Variable py_float : scalar -> option Q.
Variable client : World -> request -> World * (exn + list (@Feature Geometry)).
Variable settings : Settings.

Lemma missing_or_zero_falsy coordinate :
  missing_or_zero coordinate -> truthy_float coordinate = false.
Proof.
  intros [->|(q & -> & Hq)]; [done|].
  unfold truthy_float, Num.truthy_Q. by rewrite (proj2 (Qeq_bool_iff q 0) Hq).
Qed.

(** C10: when the centroid latitude or the centroid longitude of the
    [AOI] is missing or exactly zero, the aquifer fetch returns the empty
    [Aquifer] and leaves the state as it was, so no query was made: a
    centroid on the equator or on the prime meridian counts as missing. *)
Theorem C10_aquifer_needs_a_nonzero_centroid aoi (st : @service_state World) :
  missing_or_zero (centroid_lat aoi) \/ missing_or_zero (centroid_lon aoi) ->
  _fetch_aquifer py_str client aoi st = (st, Ok empty_Aquifer).
Proof.
  intros H. unfold _fetch_aquifer.
  change (INDICATOR_LAYERS !! "aquifer") with (Some aquifer_layer).
  destruct H as [H|H]; rewrite (missing_or_zero_falsy _ H); [done|].
  by rewrite orb_true_r.
Qed.

Lemma _fetch_aquifer_queries_otherwise aoi lat lon (st : @service_state World) :
  centroid_lat aoi = Some lat -> centroid_lon aoi = Some lon ->
  ~ (lat == 0)%Q -> ~ (lon == 0)%Q ->
  queries (fst (_fetch_aquifer py_str client aoi st))
  = queries st ++ [QueryPointWithin (url aquifer_layer) lon lat].
Proof.
  intros Hlat Hlon Hlat0 Hlon0. unfold _fetch_aquifer.
  change (INDICATOR_LAYERS !! "aquifer") with (Some aquifer_layer).
  rewrite Hlat, Hlon. unfold truthy_float, Num.truthy_Q.
  destruct (Qeq_bool lat 0) eqn:E1; [by apply Qeq_bool_iff in E1|].
  destruct (Qeq_bool lon 0) eqn:E2; [by apply Qeq_bool_iff in E2|].
  cbn [negb orb default].
  unfold try_except, bind, client_call.
  by destruct (client (world st) _) as [w [e|[|first rest]]].
Qed.




(** The flag the code computes, against the one the specification words. *)
Lemma stress_flag_by_spec threshold primary :
  stress_flag threshold primary
  = if truthy_float primary then stress_by_spec threshold primary else None.
Proof. unfold stress_flag, stress_by_spec. by destruct primary. Qed.

Lemma stress_flag_nonzero threshold value :
  ~ (value == 0)%Q ->
  stress_flag threshold (Some value) = stress_by_spec threshold (Some value).
Proof.
  intros H. unfold stress_flag, truthy_float, Num.truthy_Q.
  destruct (Qeq_bool value 0) eqn:E; [by apply Qeq_bool_iff in E|done].
Qed.

Lemma _fetch_district_groundwater_total aoi (st : @service_state World) :
  exists st' gw, _fetch_district_groundwater py_float client aoi st = (st', Ok gw).
Proof.
  unfold _fetch_district_groundwater.
  change (AOI_LAYERS !! "district") with (Some district_layer).
  unfold try_except, bind, client_call.
  destruct (client (world st) _) as [w [e|[|first rest]]]; by eexists _, _.
Qed.

Lemma _average_groundwater_layer_total layer_key aoi (st : @service_state World) :
  exists st' average,
    _average_groundwater_layer py_float client layer_key aoi st = (st', Ok average).
Proof.
  unfold _average_groundwater_layer.
  destruct (INDICATOR_LAYERS !! layer_key) as [layer|]; [|by eexists _, _].
  unfold try_except, bind, client_call.
  destruct (client (world st) _) as [w [e|results]]; [by eexists _, _|].
  destruct (collect_values _ _ _); by eexists _, _.
Qed.

(** [_fetch_groundwater] always returns, and its flag is [stress_flag] of
    the first seasonal average that is present, post-monsoon first. *)
Lemma _fetch_groundwater_stressed aoi (st : @service_state World) :
  exists st1 dgw st2 pre st3 during st4 post gw,
    _fetch_district_groundwater py_float client aoi st = (st1, Ok dgw)
    /\ _average_groundwater_layer py_float client "groundwater_pre_monsoon" aoi st1
       = (st2, Ok pre)
    /\ _average_groundwater_layer py_float client "groundwater_during_monsoon" aoi st2
       = (st3, Ok during)
    /\ _average_groundwater_layer py_float client "groundwater_post_monsoon" aoi st3
       = (st4, Ok post)
    /\ _fetch_groundwater py_float client settings aoi st = (st4, Ok gw)
    /\ stressed gw
       = stress_flag (gw_stress_threshold_m settings) (first_not_None [post; during; pre]).
Proof.
  destruct (_fetch_district_groundwater_total aoi st) as (st1 & dgw & H1).
  destruct (_average_groundwater_layer_total "groundwater_pre_monsoon" aoi st1)
    as (st2 & pre & H2).
  destruct (_average_groundwater_layer_total "groundwater_during_monsoon" aoi st2)
    as (st3 & during & H3).
  destruct (_average_groundwater_layer_total "groundwater_post_monsoon" aoi st3)
    as (st4 & post & H4).
  eexists st1, dgw, st2, pre, st3, during, st4, post, _.
  split_and!; try done.
  - unfold _fetch_groundwater.
    unfold bind at 1. rewrite H1. unfold bind at 1. rewrite H2.
    unfold bind at 1. rewrite H3. unfold bind at 1. rewrite H4. reflexivity.
  - reflexivity.
Qed.
End IndicatorProofs.

Lemma C10_witness :
  _fetch_aquifer plain_str tripura_client (aoi_at (Some 0%Q) (Some 91.75%Q)) fresh
  = (fresh, Ok empty_Aquifer).
Proof.
  apply (C10_aquifer_needs_a_nonzero_centroid plain_str tripura_client).
  left. right. exists 0%Q. split; reflexivity.
Defined.

Lemma jobcards_run :
  exists st' stats,
    _fetch_mgnrega (one_feature_client (jobcards 100 80)) (aoi_at None None) fresh = (st', Ok stats)
    /\ jobcard_issuance_rate_pc stats = Some 80%Q.
Proof. eexists _, _. split; [vm_compute; reflexivity|reflexivity]. Qed.

(** C6: the flag is the comparison with the threshold for a reading of
    12 m ([true] against 10 m) and is unknown when no layer has a reading;
    but for a reading of exactly 0 m, which is a primary value, the code
    reports unknown where the comparison gives [false]. *)
Theorem C6_zero_level_is_reported_unknown :
  (exists st' gw,
     _fetch_groundwater plain_float (post_monsoon_client 12) default_settings
       (aoi_at None None) fresh = (st', Ok gw)
     /\ stressed gw = Some true)
  /\ (exists st' gw,
        _fetch_groundwater plain_float empty_client default_settings
          (aoi_at None None) fresh = (st', Ok gw)
        /\ stressed gw = None)
  /\ (exists st0 primary st' gw,
        _average_groundwater_layer plain_float (post_monsoon_client 0)
          "groundwater_post_monsoon" (aoi_at None None) fresh = (st0, Ok (Some primary))
        /\ (primary == 0)%Q
        /\ _fetch_groundwater plain_float (post_monsoon_client 0) default_settings
             (aoi_at None None) fresh = (st', Ok gw)
        /\ stressed gw = None
        /\ stress_by_spec (gw_stress_threshold_m default_settings) (Some primary)
           = Some false).
Proof.
  split_and!.
  - eexists _, _. split; [vm_compute; reflexivity|reflexivity].
  - eexists _, _. split; [vm_compute; reflexivity|reflexivity].
  - eexists _, _, _, _. split; [vm_compute; reflexivity|].
    split; [reflexivity|]. split; [vm_compute; reflexivity|]. by split.
Qed.

(** * Further facts *)

Import MoreFixtures MoreSpecs.

(** ** More on the query client *)

Lemma endswith_refl s : Py.endswith s s = true.
Proof. destruct s; cbn [Py.endswith]; by rewrite String.eqb_refl. Qed.

Lemma endswith_app s suffix : Py.endswith (s +:+ suffix) suffix = true.
Proof.
  induction s as [|c s IH]; [apply endswith_refl|].
  change (String c s +:+ suffix) with (String c (s +:+ suffix)).
  cbn [Py.endswith]. rewrite IH. by case_match.
Qed.

Lemma endswith_inv s suffix :
  Py.endswith s suffix = true -> exists p, s = p +:+ suffix.
Proof.
  induction s as [|c s IH]; cbn [Py.endswith]; intros H.
  - destruct (String.eqb "" suffix) eqn:E; [|done].
    apply String.eqb_eq in E. by exists "".
  - destruct (String.eqb (String c s) suffix) eqn:E.
    + apply String.eqb_eq in E. by exists "".
    + destruct (IH H) as [p ->]. by exists (String c p).
Qed.

Lemma rstrip_slash_app_query s :
  Py.rstrip_slash (s +:+ "/query") = s +:+ "/query".
Proof.
  induction s as [|c s IH]; [reflexivity|].
  change (String c s +:+ "/query") with (String c (s +:+ "/query")).
  cbn [Py.rstrip_slash]. rewrite IH.
  by destruct s.
Qed.

(** X1 ([query], the request URL): the URL [query] posts to ends in
    [/query] once trailing slashes are stripped; normalising is idempotent;
    and a URL that already ends in [/query] is used as it is. *)
Theorem request_url_normalised url :
  Py.endswith (Py.rstrip_slash (request_url url)) "/query" = true
  /\ request_url (request_url url) = request_url url
  /\ (Py.endswith url "/query" = true -> request_url url = url).
Proof.
  unfold request_url.
  destruct (Py.endswith (Py.rstrip_slash url) "/query") eqn:E.
  - split_and!; [done|by rewrite E|done].
  - split_and!.
    + by rewrite rstrip_slash_app_query, endswith_app.
    + by rewrite rstrip_slash_app_query, endswith_app.
    + intros H. destruct (endswith_inv _ _ H) as [p ->].
      by rewrite rstrip_slash_app_query, endswith_app in E.
Qed.

Lemma lookup_setdefault k v (m : gmap string pvalue) k' :
  setdefault k v m !! k'
  = match m !! k' with
    | Some x => Some x
    | None => if decide (k = k') then Some v else None
    end.
Proof.
  unfold setdefault. destruct (m !! k) eqn:E.
  - destruct (m !! k') eqn:E'; [done|]. case_decide; [congruence|done].
  - rewrite lookup_insert. case_decide; [subst; by rewrite E|]. by destruct (m !! k').
Qed.

(** X2 ([query], the payload): every key the caller passed other than
    [f] reaches the payload with the caller's value; [f] is always [json],
    whatever the caller passed; and each of [where], [outFields],
    [resultOffset], [resultRecordCount], [returnGeometry] and [outSR] gets
    its default ([1=1], [*], 0, 2000, [true], 4326) when the caller left it
    out. *)
Theorem query_payload_defaults params :
  (forall key value, key <> "f" ->
     default ∅ params !! key = Some value -> query_payload params !! key = Some value)
  /\ query_payload params !! "f" = Some (PStr "json")
  /\ (default ∅ params !! "where" = None ->
      query_payload params !! "where" = Some (PStr "1=1"))
  /\ (default ∅ params !! "outFields" = None ->
      query_payload params !! "outFields" = Some (PStr "*"))
  /\ (default ∅ params !! "resultOffset" = None ->
      query_payload params !! "resultOffset" = Some (PInt 0))
  /\ (default ∅ params !! "resultRecordCount" = None ->
      query_payload params !! "resultRecordCount" = Some (PInt 2000))
  /\ (default ∅ params !! "returnGeometry" = None ->
      query_payload params !! "returnGeometry" = Some (PStr "true"))
  /\ (default ∅ params !! "outSR" = None ->
      query_payload params !! "outSR" = Some (PInt 4326)).
Proof.
  unfold query_payload. split_and!.
  - intros key value Hf Hk. rewrite lookup_insert_ne by done.
    rewrite !lookup_setdefault, Hk. done.
  - apply lookup_insert_eq.
  - intros H. rewrite lookup_insert_ne by done. rewrite !lookup_setdefault, H. done.
  - intros H. rewrite lookup_insert_ne by done. rewrite !lookup_setdefault, H. done.
  - intros H. rewrite lookup_insert_ne by done. rewrite !lookup_setdefault, H. done.
  - intros H. rewrite lookup_insert_ne by done. rewrite !lookup_setdefault, H. done.
  - intros H. rewrite lookup_insert_ne by done. rewrite !lookup_setdefault, H. done.
  - intros H. rewrite lookup_insert_ne by done. rewrite !lookup_setdefault, H. done.
Qed.

Section MoreClientProofs.
Context {F Net : Type}.
Variable post : Net -> string -> gmap string pvalue -> Net * (exn + response F).
Variable random : nat -> Q.
Variable int_of_string : string -> option Z.

(** X3 ([_request], no retry outside the retry set): when the post raises
    a transport exception, or answers with a 4xx/5xx status that is not one
    of 429, 500, 502, 503, 504, or answers 2xx with a body that is not JSON,
    [_request] raises at once (the exception itself, [HTTPError] with the
    status, [JSONDecodeError]) after that single post and without sleeping,
    whatever the attempt number. *)
Theorem _request_fails_fast self url params (st : cstate Net) net' answer :
  post (net st) url (wire_payload self params) = (net', answer) ->
  forall fuel attempt,
    let run := _request_loop post random (S fuel) self url params attempt st in
    (forall e, answer = inl e ->
       run = (after_post self url params st net', Raise e))
    /\ (forall resp, answer = inr resp ->
        (400 <= status_code resp < 600)%Z ->
        is_retry_status (status_code resp) = false ->
        run = (after_post self url params st net', Raise (HTTPError (status_code resp))))
    /\ (forall resp, answer = inr resp ->
        (200 <= status_code resp < 300)%Z ->
        json resp = None ->
        run = (after_post self url params st net', Raise JSONDecodeError)).
Proof.
  intros Hpost fuel attempt run. subst run. unfold after_post.
  assert (Hstep : forall k : response F -> M (cstate Net) (page F),
            (resp <- session_post post url (wire_payload self params) ;; k resp) st
            = match answer with
              | inl e =>
                  (CState net' (rng_pos st) (slept st)
                     (posts st ++ [(url, wire_payload self params)]), Raise e)
              | inr resp =>
                  k resp (CState net' (rng_pos st) (slept st)
                            (posts st ++ [(url, wire_payload self params)]))
              end).
  { intros k. unfold bind, session_post. rewrite Hpost. by destruct answer. }
  cbn [_request_loop]. fold (wire_payload self params). rewrite Hstep. clear Hstep.
  destruct answer as [e|resp]; (split_and!; [intros ? [= <-]|intros ? [= <-]..]).
  - done.
  - intros Hstatus Hretry. rewrite Hretry.
    unfold bind, raise_for_status.
    replace ((400 <=? status_code resp)%Z && (status_code resp <? 600)%Z) with true; [done|].
    symmetry. apply andb_true_iff. split; [apply Z.leb_le|apply Z.ltb_lt]; lia.
  - intros Hstatus Hjson. rewrite success_not_retry by done.
    unfold bind, raise_for_status, response_json.
    replace ((400 <=? status_code resp)%Z && (status_code resp <? 600)%Z) with false
      by (symmetry; apply andb_false_iff; left; lia).
    by rewrite Hjson.
Qed.

Lemma _sleep_posts self attempt (st : cstate Net) :
  posts (fst (_sleep random self attempt st)) = posts st
  /\ net (fst (_sleep random self attempt st)) = net st.
Proof.
  unfold _sleep, bind, uniform, time_sleep. simpl.
  by destruct (Qlt_le_dec _ 0).
Qed.

Lemma _request_loop_posts self url params fuel :
  forall attempt (st : cstate Net),
    exists k,
      posts (fst (_request_loop post random fuel self url params attempt st))
      = posts st ++ replicate k (url, wire_payload self params).
Proof.
  induction fuel as [|fuel IH]; intros attempt st.
  { exists 0%nat. simpl. by rewrite app_nil_r. }
  cbn [_request_loop]. fold (wire_payload self params).
  unfold bind at 1. unfold session_post at 1.
  destruct (post (net st) url (wire_payload self params)) as [net' [e|resp]].
  { by exists 1%nat. }
  set (st1 := CState net' (rng_pos st) (slept st) (posts st ++ [(url, wire_payload self params)])).
  destruct (is_retry_status (status_code resp)).
  - unfold bind at 1.
    destruct ((if (attempt + 1 >? max_retries self)%Z then raise_for_status resp else ret tt) st1)
      as [st2 o] eqn:E1.
    assert (st2 = st1) as ->.
    { destruct (attempt + 1 >? max_retries self)%Z.
      - unfold raise_for_status in E1. destruct (_ && _); by injection E1.
      - by injection E1. }
    destruct o; [|by exists 1%nat..].
    unfold bind at 1.
    destruct (_sleep random self (attempt + 1) st1) as [st3 o3] eqn:E3.
    pose proof (_sleep_posts self (attempt + 1) st1) as [Hp _]. rewrite E3 in Hp. cbn in Hp.
    destruct o3; [|exists 1%nat; cbn [fst]; by rewrite Hp..].
    destruct (IH (attempt + 1)%Z st3) as [k Hk].
    exists (S k). rewrite Hk, Hp. simpl. by rewrite <- app_assoc.
  - exists 1%nat.
    unfold bind, raise_for_status, response_json, raise, ret.
    destruct (_ && _); [done|].
    destruct (json resp) as [data|]; [|done].
    by destruct (error data).
Qed.
End MoreClientProofs.

Lemma X3_witness :
  _request scripted_post no_random default_client "https://host/layer/0/query" ∅
    (start [not_found_answer; good_answer])
  = (CState [good_answer] 0 [] [("https://host/layer/0/query", wire_payload default_client ∅)],
     Raise (HTTPError 404)).
Proof.
  exact (proj1 (proj2 (_request_fails_fast scripted_post no_random default_client
                         "https://host/layer/0/query" ∅
                         (start [not_found_answer; good_answer])
                         [good_answer] not_found_answer eq_refl
                         (Z.to_nat (max_retries default_client)) 0%Z))
           (Response 404 None) eq_refl ltac:(simpl; lia) eq_refl).
Defined.

Section Scripted.
Context {F : Type}.
Variable random : nat -> Q.

Lemma _request_loop_retries_then_success self url params
    (good : response F) data (rest : list (exn + response F)) :
  unit_interval random -> (0 < backoff_factor self)%Q ->
  (200 <= status_code good < 300)%Z -> json good = Some data -> error data = None ->
  forall (retries : list (response F)) fuel attempt (st : cstate (list (exn + response F))),
    Forall (fun r => is_retry_status (status_code r) = true) retries ->
    (0 <= attempt)%Z ->
    (attempt + Z.of_nat (length retries) <= max_retries self)%Z ->
    (length retries < fuel)%nat ->
    net st = map inr retries ++ inr good :: rest ->
    exists st',
      _request_loop scripted_post random fuel self url params attempt st = (st', Ok data)
      /\ net st' = rest
      /\ posts st' = posts st ++ replicate (S (length retries)) (url, wire_payload self params)
      /\ length (slept st') = (length (slept st) + length retries)%nat.
Proof.
  intros Hrnd Hbf Hstatus Hjson Herr.
  induction retries as [|r retries IH]; intros fuel attempt st Hall Ha Hbudget Hfuel Hnet;
    (destruct fuel as [|fuel]; [simpl in Hfuel; lia|]).
  - cbn [_request_loop]. fold (wire_payload self params).
    unfold bind at 1. unfold session_post at 1, scripted_post at 1. rewrite Hnet. cbn [map app].
    rewrite success_not_retry by done.
    unfold bind, raise_for_status, response_json, raise, ret.
    replace ((400 <=? status_code good)%Z && (status_code good <? 600)%Z) with false
      by (symmetry; apply andb_false_iff; left; lia).
    rewrite Hjson, Herr. eexists. split; [reflexivity|]. simpl. split_and!; try done; lia.
  - apply Forall_cons in Hall as [Hr Hall].
    cbn [_request_loop]. fold (wire_payload self params).
    unfold bind at 1. unfold session_post at 1, scripted_post at 1. rewrite Hnet. cbn [map app].
    rewrite Hr.
    replace (attempt + 1 >? max_retries self)%Z with false
      by (symmetry; rewrite Z.gtb_ltb; apply Z.ltb_ge; simpl in Hbudget; lia).
    unfold bind at 1. unfold ret at 1.
    set (st1 := CState (map inr retries ++ inr good :: rest) (rng_pos st) (slept st)
                  (posts st ++ [(url, wire_payload self params)])).
    destruct (_sleep_spec random self (attempt + 1) st1 Hbf ltac:(lia)
                (proj1 (Hrnd _)) (proj2 (Hrnd _))) as (d & Hsl & _).
    unfold bind at 1. rewrite Hsl.
    destruct (IH fuel (attempt + 1)%Z
                (CState (net st1) (S (rng_pos st1)) (slept st1 ++ [d]) (posts st1)) Hall
                ltac:(lia) ltac:(simpl in Hbudget; lia) ltac:(simpl in Hfuel; lia) eq_refl)
      as (st' & Hrun & Hnet' & Hposts & Hslept).
    exists st'. split; [exact Hrun|]. split_and!; [done| |].
    + rewrite Hposts. simpl. by rewrite <- app_assoc.
    + rewrite Hslept. simpl. rewrite length_app. simpl. lia.
Qed.

(** X4 ([_request], transient failures): with a positive back-off factor,
    if the service answers a retryable status [k] times, [k <= max_retries],
    and then a 2xx JSON body without an [error] member, [_request] returns
    that body after exactly [k + 1] posts of the same URL and payload and
    exactly [k] sleeps, leaving later answers unread. *)
Theorem _request_rides_out_transient_failures self url params
    (retries : list (response F)) (good : response F) data
    (rest : list (exn + response F)) (st : cstate (list (exn + response F))) :
  unit_interval random -> (0 < backoff_factor self)%Q ->
  Forall (fun r => is_retry_status (status_code r) = true) retries ->
  (Z.of_nat (length retries) <= max_retries self)%Z ->
  (200 <= status_code good < 300)%Z -> json good = Some data -> error data = None ->
  net st = map inr retries ++ inr good :: rest ->
  exists st',
    _request scripted_post random self url params st = (st', Ok data)
    /\ net st' = rest
    /\ posts st' = posts st ++ replicate (S (length retries)) (url, wire_payload self params)
    /\ length (slept st') = (length (slept st) + length retries)%nat.
Proof.
  intros Hrnd Hbf Hall Hbudget Hstatus Hjson Herr Hnet. unfold _request.
  apply (_request_loop_retries_then_success self url params good data rest
           Hrnd Hbf Hstatus Hjson Herr retries); try done; lia.
Qed.
End Scripted.

Lemma X4_witness :
  exists st',
    _request scripted_post half_random default_client "https://host/layer/0/query" ∅
      (start [busy; busy; good_answer; not_found_answer])
    = (st', Ok good_page)
    /\ net st' = [not_found_answer]
    /\ length (posts st') = 3%nat
    /\ length (slept st') = 2%nat.
Proof.
  destruct (_request_rides_out_transient_failures half_random default_client
              "https://host/layer/0/query" ∅
              [Response 503 None; Response 503 None] (Response 200 (Some good_page))
              good_page [not_found_answer]
              (start [busy; busy; good_answer; not_found_answer]))
    as (st' & Hrun & Hnet & Hposts & Hslept).
  - intros n. unfold half_random. split; lra.
  - reflexivity.
  - by repeat constructor.
  - discriminate.
  - simpl. lia.
  - reflexivity.
  - reflexivity.
  - reflexivity.
  - exists st'. split_and!; [done|done| |done].
    rewrite Hposts. reflexivity.
Defined.

Lemma wire_payload_lookup self (payload : gmap string pvalue) key :
  key <> "token" -> wire_payload self payload !! key = payload !! key.
Proof. intros H. unfold wire_payload. destruct (Py.truthy _); [|done]. by rewrite lookup_insert_ne. Qed.

Lemma wire_payload_token self (payload : gmap string pvalue) :
  Py.truthy (token self) = true ->
  wire_payload self payload !! "token" = Some (PStr (default "" (token self))).
Proof. intros H. unfold wire_payload. rewrite H. apply lookup_insert_eq. Qed.

Lemma wire_payload_offset self (payload : gmap string pvalue) offset :
  agrees_off_offset (wire_payload self (<["resultOffset" := PInt offset]> payload))
    (wire_payload self payload).
Proof.
  intros key Hkey. unfold wire_payload. destruct (Py.truthy _).
  - destruct (decide (key = "token")) as [->|Hne].
    + by rewrite !lookup_insert_eq.
    + by rewrite !lookup_insert_ne.
  - by rewrite lookup_insert_ne.
Qed.

Section QueryPosts.
Context {F Net : Type}.
Variable post : Net -> string -> gmap string pvalue -> Net * (exn + response F).
Variable random : nat -> Q.
Variable int_of_string : string -> option Z.

Lemma query_loop_posts self url fuel :
  forall payload offset items (st : cstate Net),
    exists new,
      posts (fst (query_loop post random fuel self url payload offset items st))
      = posts st ++ new
      /\ Forall (fun e => e.1 = url /\ agrees_off_offset e.2 (wire_payload self payload)) new.
Proof.
  induction fuel as [|fuel IH]; intros payload offset items st.
  { exists []. simpl. by rewrite app_nil_r. }
  cbn [query_loop]. unfold bind at 1.
  set (payload' := <["resultOffset" := PInt offset]> payload).
  destruct (_request_loop_posts post random self url payload'
              (S (Z.to_nat (max_retries self))) 0 st) as [k Hk].
  fold (_request post random self url payload') in Hk.
  assert (Hfirst : Forall (fun e => e.1 = url /\ agrees_off_offset e.2 (wire_payload self payload))
                     (replicate k (url, wire_payload self payload'))).
  { apply Forall_replicate. split; [done|]. apply wire_payload_offset. }
  destruct (_request post random self url payload' st) as [st1 [page| |]];
    cbn [fst] in Hk; [|by eexists..].
  destruct (negb _ || _).
  { by eexists. }
  destruct (IH payload' (offset + Z.of_nat (length (default [] (features page))))%Z
              (items ++ default [] (features page)) st1) as (new & Hnew & Hall).
  exists (replicate k (url, wire_payload self payload') ++ new). split.
  - by rewrite Hnew, Hk, <- app_assoc.
  - apply Forall_app. split; [done|].
    eapply Forall_impl; [exact Hall|]. intros e [He Hagree]. split; [done|].
    intros key Hkey. rewrite (Hagree key Hkey). by apply wire_payload_offset.
Qed.

(** X5 ([query_by_where], what goes on the wire): every post a
    [query_by_where] call makes, on any service and however it ends, goes to
    the normalised URL and carries the caller's [where] and [out_fields]
    (which override the same keys of [additional_params]), [f = json], and
    the client's token when it has a non-empty one. *)
Theorem query_by_where_posts fuel self url where_ out_fields additional_params
    (st : cstate Net) :
  exists new,
    posts (fst (query_by_where post random int_of_string fuel self url where_ out_fields
                  additional_params st))
    = posts st ++ new
    /\ Forall (fun e =>
         e.1 = request_url url
         /\ e.2 !! "where" = Some (PStr where_)
         /\ e.2 !! "outFields" = Some (PStr out_fields)
         /\ e.2 !! "f" = Some (PStr "json")
         /\ (Py.truthy (token self) = true ->
             e.2 !! "token" = Some (PStr (default "" (token self))))) new.
Proof.
  unfold query_by_where, query.
  set (params := <["outFields" := PStr out_fields]>
                   (<["where" := PStr where_]> (default ∅ additional_params))).
  set (payload := query_payload (Some params)).
  destruct (query_payload_defaults (Some params)) as (Hkeep & Hf & _).
  fold payload in Hkeep, Hf.
  assert (Hwhere : payload !! "where" = Some (PStr where_)).
  { apply Hkeep; [done|]. unfold params. cbn [default]. by simplify_map_eq. }
  assert (Hout : payload !! "outFields" = Some (PStr out_fields)).
  { apply Hkeep; [done|]. unfold params. cbn [default]. by simplify_map_eq. }
  unfold bind.
  destruct (initial_offset int_of_string payload st) as [st0 o] eqn:Hoff.
  assert (st0 = st) as ->.
  { unfold initial_offset in Hoff. repeat case_match; by injection Hoff. }
  destruct o as [offset| |]; [|exists []; cbn [fst]; by rewrite app_nil_r..].
  destruct (query_loop_posts self (request_url url) fuel payload offset [] st)
    as (new & Hnew & Hall).
  exists new. split; [done|].
  eapply Forall_impl; [exact Hall|]. intros e [He Hagree].
  split_and!; [done| | | |].
  - rewrite (Hagree "where") by done. by rewrite wire_payload_lookup.
  - rewrite (Hagree "outFields") by done. by rewrite wire_payload_lookup.
  - rewrite (Hagree "f") by done. by rewrite wire_payload_lookup.
  - intros Htok. rewrite (Hagree "token") by done. by apply wire_payload_token.
Qed.
End QueryPosts.

Section Capped.
Context {F : Type}.
Variable db : list F.
Variable cap : Z.
Variable random : nat -> Q.

Lemma _request_capped self url payload (st : cstate unit) :
  _request (capped_post db cap) random self url payload st
  = (CState tt (rng_pos st) (slept st) (posts st ++ [(url, wire_payload self payload)]),
     Ok {| error := None;
           features :=
             Some (take (Z.to_nat (Z.min (payload_int payload "resultRecordCount" 2000) cap))
                     (drop (Z.to_nat (payload_int payload "resultOffset" 0)) db));
           exceededTransferLimit :=
             Some (payload_int payload "resultOffset" 0
                   + Z.min (payload_int payload "resultRecordCount" 2000) cap
                   <? Z.of_nat (length db))%Z |}).
Proof.
  unfold _request. cbn [_request_loop]. fold (wire_payload self payload).
  unfold bind at 1. unfold session_post, capped_post. cbn.
  assert (Hk : forall key d, key <> "token" ->
            payload_int (wire_payload self payload) key d = payload_int payload key d).
  { intros key d Hne. unfold payload_int. by rewrite wire_payload_lookup. }
  rewrite !Hk by done. reflexivity.
Qed.

Lemma query_loop_capped self url ps :
  (0 < ps)%Z -> (0 < cap)%Z ->
  forall fuel o payload items (st : cstate unit),
    payload !! "resultRecordCount" = Some (PInt ps) ->
    (length db - o < fuel)%nat ->
    exists st',
      query_loop (capped_post db cap) random fuel self url payload (Z.of_nat o) items st
      = (st', Ok (items ++ drop o db))
      /\ Z.of_nat (length (posts st'))
         = (Z.of_nat (length (posts st))
            + Z.max 1 (ceil_div (Z.of_nat (length db - o)) (Z.min ps cap)))%Z.
Proof.
  intros Hps Hcap. set (m := Z.min ps cap). assert (Hm : (0 < m)%Z) by (unfold m; lia).
  induction fuel as [|fuel IH]; intros o payload items st Hcount Hfuel; [lia|].
  set (payload' := <["resultOffset" := PInt (Z.of_nat o)]> payload).
  assert (Hc : payload_int payload' "resultRecordCount" 2000 = ps).
  { unfold payload_int, payload'. by rewrite lookup_insert_ne, Hcount. }
  assert (Ho' : payload_int payload' "resultOffset" 0 = Z.of_nat o).
  { unfold payload_int, payload'. by rewrite lookup_insert_eq. }
  pose proof (_request_capped self url payload' st) as Hreq.
  rewrite Hc, Ho', Nat2Z.id in Hreq. fold m in Hreq.
  destruct (Z.of_nat o + m <? Z.of_nat (length db))%Z eqn:Hmore.
  - apply Z.ltb_lt in Hmore.
    assert (Hlen : length (take (Z.to_nat m) (drop o db)) = Z.to_nat m).
    { rewrite length_take, length_drop. lia. }
    erewrite query_loop_continue; [|exact Hreq|done|].
    2:{ simpl. intros Hnil. rewrite Hnil in Hlen. simpl in Hlen. lia. }
    simpl. rewrite Hlen.
    replace (Z.of_nat o + Z.of_nat (Z.to_nat m))%Z with (Z.of_nat (o + Z.to_nat m)) by lia.
    destruct (IH (o + Z.to_nat m)%nat payload' (items ++ take (Z.to_nat m) (drop o db))
                (CState tt (rng_pos st) (slept st)
                   (posts st ++ [(url, wire_payload self payload')])))
      as (st' & Hrun & Hposts).
    { unfold payload'. by rewrite lookup_insert_ne. }
    { lia. }
    exists st'. split.
    + fold payload'. rewrite Hrun. f_equal. f_equal. rewrite <- app_assoc. f_equal.
      rewrite <- (take_drop (Z.to_nat m) (drop o db)) at 2.
      by rewrite drop_drop.
    + rewrite Hposts. simpl. rewrite length_app. simpl.
      rewrite (ceil_div_step (Z.of_nat (length db - o)) m) by lia.
      replace (Z.of_nat (length db - (o + Z.to_nat m))) with (Z.of_nat (length db - o) - m)%Z by lia.
      lia.
  - apply Z.ltb_ge in Hmore.
    erewrite query_loop_stop; [|exact Hreq|by left].
    eexists. split.
    + simpl. f_equal. f_equal. f_equal. apply take_ge. rewrite length_drop. lia.
    + simpl. rewrite length_app. simpl.
      rewrite ceil_div_small by lia. lia.
Qed.

(** X6 ([query], paging by what was received): against a server that caps
    every page at [cap] features, a query from offset [o] with page size
    [ps] returns exactly the features from [o] on, in order and without
    repeats, in [max 1 (ceil ((len - o) / min ps cap))] posts: the offset
    advances by the number of features received, not by the page size asked
    for. *)
Theorem query_advances_by_features_received int_of_string self url params ps o fuel
    (st : cstate unit) :
  (0 < ps)%Z -> (0 < cap)%Z ->
  query_payload params !! "resultRecordCount" = Some (PInt ps) ->
  query_payload params !! "resultOffset" = Some (PInt (Z.of_nat o)) ->
  (length db - o < fuel)%nat ->
  exists st',
    query (capped_post db cap) random int_of_string fuel self url params st
    = (st', Ok (drop o db))
    /\ Z.of_nat (length (posts st'))
       = (Z.of_nat (length (posts st))
          + Z.max 1 (ceil_div (Z.of_nat (length db - o)) (Z.min ps cap)))%Z.
Proof.
  intros Hps Hcap Hcount Hoff Hfuel. unfold query.
  unfold bind, initial_offset. rewrite Hoff. unfold ret.
  destruct (query_loop_capped self (request_url url) ps Hps Hcap fuel o
              (query_payload params) [] st Hcount Hfuel) as (st' & Hrun & Hposts).
  exists st'. by split.
Qed.
End Capped.

Lemma X6_witness :
  exists st',
    query (capped_post [1; 2; 3; 4; 5; 6; 7]%nat 2) no_random no_int 8 default_client
      "https://host/arcgis/rest/services/layer/FeatureServer/0"
      (Some (<["resultOffset" := PInt 2]> {["resultRecordCount" := PInt 1000]}))
      (start tt)
    = (st', Ok [3; 4; 5; 6; 7]%nat)
    /\ Z.of_nat (length (posts st')) = 3%Z.
Proof.
  exact (query_advances_by_features_received [1; 2; 3; 4; 5; 6; 7]%nat 2 no_random no_int
           default_client "https://host/arcgis/rest/services/layer/FeatureServer/0"
           (Some (<["resultOffset" := PInt 2]> {["resultRecordCount" := PInt 1000]}))
           1000 2 8 (start tt) eq_refl eq_refl eq_refl eq_refl ltac:(simpl; lia)).
Defined.

Section Truncating.
Context {F : Type}.
Variable feature : F.
Variable random : nat -> Q.

Lemma _request_truncating self url payload (st : cstate unit) :
  _request (truncating_post feature) random self url payload st
  = (CState tt (rng_pos st) (slept st) (posts st ++ [(url, wire_payload self payload)]),
     Ok (Page None (Some [feature]) (Some true))).
Proof. reflexivity. Qed.

Lemma query_loop_truncating self url fuel :
  forall payload offset items (st : cstate unit),
    exists st',
      query_loop (truncating_post feature) random fuel self url payload offset items st
      = (st', Diverge)
      /\ length (posts st') = (length (posts st) + fuel)%nat.
Proof.
  induction fuel as [|fuel IH]; intros payload offset items st.
  { exists st. split; [done|lia]. }
  erewrite query_loop_continue; [|apply _request_truncating|done|done].
  edestruct IH as (st' & Hrun & Hposts). exists st'. split; [exact Hrun|].
  rewrite Hposts. simpl. rewrite length_app. simpl. lia.
Qed.

(** X7 ([query], no page limit): against a service that answers every
    page with one feature and [exceededTransferLimit = true], [query] never
    returns: whatever the number of loop iterations allowed, it is still
    running after that many posts. *)
Theorem query_never_gives_up_on_truncation int_of_string self url params fuel
    (st : cstate unit) :
  (exists offset, initial_offset int_of_string (query_payload params) st = (st, Ok offset)) ->
  exists st',
    query (truncating_post feature) random int_of_string fuel self url params st
    = (st', Diverge)
    /\ length (posts st') = (length (posts st) + fuel)%nat.
Proof.
  intros [offset Hoff]. unfold query. unfold bind at 1. rewrite Hoff.
  apply query_loop_truncating.
Qed.
End Truncating.

Lemma X7_witness :
  exists st',
    query (truncating_post 7%nat) no_random no_int 50 default_client
      "https://host/arcgis/rest/services/layer/FeatureServer/0" None (start tt)
    = (st', Diverge)
    /\ length (posts st') = 50%nat.
Proof.
  apply (query_never_gives_up_on_truncation 7%nat no_random no_int default_client
           "https://host/arcgis/rest/services/layer/FeatureServer/0" None 50 (start tt)).
  by exists 0%Z.
Defined.

(** ** The state table *)

Lemma state_name_items_sound :
  Forall (fun kv =>
            get_state_abbreviation kv.1 = Some kv.2
            /\ get_state_full_name kv.2 = Some kv.1
            /\ String.length kv.2 = 2%nat
            /\ upper kv.2 = kv.2)
         state_name_items.
Proof.
  unfold state_name_items.
  repeat (apply Forall_cons; split; [vm_compute; by split_and!|]). by apply Forall_nil.
Qed.

(** X8 (the state tables): [get_state_full_name] undoes
    [get_state_abbreviation]; every abbreviation has two characters and is
    upper case; [get_state_abbreviation] undoes [get_state_full_name] up to
    the upper-casing of the code, so lower-case codes are accepted; and both
    tables hold 36 entries (no two states share a code). *)
Theorem state_codes_round_trip :
  (forall name code,
     get_state_abbreviation name = Some code ->
     get_state_full_name code = Some name
     /\ String.length code = 2%nat
     /\ upper code = code)
  /\ (forall code name,
        get_state_full_name code = Some name ->
        get_state_abbreviation name = Some (upper code))
  /\ size STATE_NAME_MAPPING = 36%nat
  /\ size STATE_ABBREV_TO_FULL = 36%nat.
Proof.
  pose proof state_name_items_sound as Hall. rewrite Forall_forall in Hall.
  split_and!.
  - intros name code H. unfold get_state_abbreviation, STATE_NAME_MAPPING in H.
    apply elem_of_list_to_map_2 in H.
    destruct (Hall _ H) as (_ & H1 & H2 & H3). done.
  - intros code name H. unfold get_state_full_name, STATE_ABBREV_TO_FULL in H.
    apply elem_of_list_to_map_2 in H.
    apply list_elem_of_fmap in H as ([n c] & Heq & Hin). cbn in Heq.
    injection Heq as Hc Hn. destruct (Hall _ Hin) as (H1 & _).
    rewrite Hn, Hc. exact H1.
  - by vm_compute.
  - by vm_compute.
Qed.

(** ** More on the resolver *)

Lemma unescape_replace value :
  unescape_quotes (Py.replace_char "'" "''" value) = Some value.
Proof.
  induction value as [|c value IH]; [done|].
  cbn [Py.replace_char]. destruct (Ascii.eqb c "'") eqn:E.
  - apply Ascii.eqb_eq in E as ->.
    change ("''" +:+ Py.replace_char "'" "''" value)
      with (String "'" (String "'" (Py.replace_char "'" "''" value))).
    cbn [unescape_quotes]. rewrite Ascii.eqb_refl, IH. done.
  - cbn [unescape_quotes]. rewrite E, IH. done.
Qed.

(** X9 ([_eq_clause], quoting): the SQL literal [_eq_clause] writes reads
    back as the value it was given, quotes included, so a quote in a name
    cannot end the literal; and two values give the same clause only when
    they are equal. *)
Theorem _eq_clause_escapes_quotes field value :
  exists literal,
    _eq_clause field value
    = "UPPER(" +:+ field +:+ ") = UPPER('" +:+ literal +:+ "')"
    /\ unescape_quotes literal = Some value
    /\ (forall other, _eq_clause field other = _eq_clause field value -> other = value).
Proof.
  exists (Py.replace_char "'" "''" value). split_and!; [done|apply unescape_replace|].
  intros other H. unfold _eq_clause in H.
  assert (Hinj : forall a b c : string, a +:+ b = a +:+ c -> b = c).
  { induction a as [|x a IHa]; intros b c Hbc; [done|]. injection Hbc. apply IHa. }
  apply Hinj, Hinj, Hinj in H.
  assert (Htail : forall a b c : string, a +:+ c = b +:+ c -> a = b).
  { intros a b c Habc.
    assert (Hlen : String.length a = String.length b).
    { apply (f_equal String.length) in Habc.
      assert (Happ : forall x y, String.length (x +:+ y) = (String.length x + String.length y)%nat).
      { induction x; intros; simpl; [done|]. by rewrite IHx. }
      rewrite !Happ in Habc. lia. }
    revert b Habc Hlen. induction a as [|x a IHa]; intros [|y b] Habc Hlen; try done.
    simpl in Habc. injection Habc as -> Habc. f_equal. apply IHa; [done|]. by injection Hlen. }
  apply Htail in H.
  apply (f_equal unescape_quotes) in H. rewrite !unescape_replace in H. by injection H.
Qed.

Section MoreResolverProofs.
Context {Geometry World : Type}.

Lemma first_resolved_spec (features : gmap string (option (@Feature Geometry))) keys :
  match first_resolved features keys with
  | Some (feature, key) =>
      features !! key = Some (Some feature)
      /\ truthy_feature feature = true
      /\ exists before after,
           keys = before ++ key :: after
           /\ Forall (fun k => resolved_at features k = false) before
  | None => Forall (fun k => resolved_at features k = false) keys
  end.
Proof.
  induction keys as [|k keys IH]; [by constructor|].
  cbn [first_resolved].
  destruct (features !! k) as [[f|]|] eqn:Hk.
  - destruct (truthy_feature f) eqn:Hf.
    + split_and!; [done|done|]. by exists [], keys.
    + assert (Hk' : resolved_at features k = false) by (unfold resolved_at; by rewrite Hk).
      destruct (first_resolved features keys) as [[f' k']|].
      * destruct IH as (H1 & H2 & before & after & -> & Hall).
        split_and!; [done|done|]. exists (k :: before), after. split; [done|]. by constructor.
      * by constructor.
  - assert (Hk' : resolved_at features k = false) by (unfold resolved_at; by rewrite Hk).
    destruct (first_resolved features keys) as [[f' k']|].
    * destruct IH as (H1 & H2 & before & after & -> & Hall).
      split_and!; [done|done|]. exists (k :: before), after. split; [done|]. by constructor.
    * by constructor.
  - assert (Hk' : resolved_at features k = false) by (unfold resolved_at; by rewrite Hk).
    destruct (first_resolved features keys) as [[f' k']|].
    * destruct IH as (H1 & H2 & before & after & -> & Hall).
      split_and!; [done|done|]. exists (k :: before), after. split; [done|]. by constructor.
    * by constructor.
Qed.

(** X10 ([_select_best_feature]): the key returned is the first of
    village, block, district, state whose feature is present and non-empty,
    the feature returned is the one stored under it, and every more specific
    level is unresolved; [ValueError] is raised exactly when no level is
    resolved; the service state is never touched. *)
Theorem _select_best_feature_most_specific
    (features : gmap string (option (@Feature Geometry))) (st : @service_state World) :
  match _select_best_feature features st with
  | (st', Ok (feature, key)) =>
      st' = st
      /\ features !! key = Some (Some feature)
      /\ truthy_feature feature = true
      /\ exists before after,
           hierarchy = before ++ key :: after
           /\ Forall (fun k => resolved_at features k = false) before
  | (st', Raise e) =>
      st' = st
      /\ e = ValueError "AOI resolution failed; no matching features found."
      /\ Forall (fun k => resolved_at features k = false) hierarchy
  | (_, Diverge) => False
  end.
Proof.
  unfold _select_best_feature.
  pose proof (first_resolved_spec features hierarchy) as H. unfold hierarchy in *.
  destruct (first_resolved features _) as [[f k]|]; cbn.
  - destruct H as (H1 & H2 & H3). by split_and!.
  - by split_and!.
Qed.
End MoreResolverProofs.

Lemma or_else_absorb a b : Py.or_else a (Py.or_else a b) = Py.or_else a b.
Proof. unfold Py.or_else. by destruct (Py.truthy a). Qed.

Section WalkProofs.
Context {Geometry World : Type}.
Variable shape_centroid : Geometry -> option (Q * Q).
Variable py_str : scalar -> string.
Variable client : World -> request -> World * (exn + list (@Feature Geometry)).
Variable settings : Settings.

Local Abbreviation notes := _last_resolution_notes.

Lemma canonical_name_truthy field (f : @Feature Geometry) fb :
  Py.truthy_str fb = true -> Py.truthy (canonical_name field f fb) = true.
Proof. intros H. by apply or_else_truthy. Qed.

Lemma _update_context_state_exact (sf : @Feature Geometry) fb ctx
    (st : @service_state World) :
  Py.truthy_str fb = true ->
  exists ctx',
    _update_context py_str "state" sf fb ctx st = (st, Ok ctx')
    /\ ctx' !! "state_name" = Some (canonical_name "State_FSI" sf fb)
    /\ ctx' !! "state_name_full" = Some (canonical_name "State_FSI" sf fb)
    /\ ctx' !! "state_name_abbrev" = Some (state_abbreviation_of sf fb)
    /\ ctx' !! "district_name" = ctx !! "district_name"
    /\ ctx' !! "block_name" = ctx !! "block_name"
    /\ ctx' !! "village_name" = ctx !! "village_name"
    /\ ctx' !! "lgd_subdistrictcode" = ctx !! "lgd_subdistrictcode".
Proof.
  intros Hfb. unfold _update_context, bind, aoi_layer.
  change (AOI_LAYERS !! "state") with (Some state_layer).
  cbn -[get_state_abbreviation get_state_full_name].
  rewrite !or_else_absorb. fold (canonical_name "State_FSI" sf fb).
  pose proof (canonical_name_truthy "State_FSI" sf fb Hfb) as Hfull.
  rewrite !Hfull. cbn [negb andb].
  rewrite !andb_false_r.
  assert (Habbrev : (if negb (Py.truthy (get_text (feature_attrs sf) "State_Name"))
                     then get_state_abbreviation
                            (default "" (canonical_name "State_FSI" sf fb))
                     else get_text (feature_attrs sf) "State_Name")
                    = state_abbreviation_of sf fb).
  { unfold state_abbreviation_of. by destruct (Py.truthy (get_text _ "State_Name")). }
  rewrite !Habbrev.
  eexists. split; [reflexivity|].
  destruct (attrs_get (feature_attrs sf) "State_Cens"); split_and!; by simplify_map_eq.
Qed.

Lemma names_level_district : @names_level Geometry World py_str "district" "District".
Proof.
  intros f fb ctx st. unfold _update_context, bind, aoi_layer.
  change (AOI_LAYERS !! "district") with (Some district_layer). cbn.
  eexists. split; [reflexivity|]. split; [by simplify_map_eq|].
  intros k Hk Hne. cbn in Hne. by rewrite lookup_insert_ne.
Qed.

Lemma names_level_village : @names_level Geometry World py_str "village" "name".
Proof.
  intros f fb ctx st. unfold _update_context, bind, aoi_layer.
  change (AOI_LAYERS !! "village") with (Some village_layer). cbn.
  eexists. split; [reflexivity|].
  assert (Hkeys : forall k, k ∈ label_keys -> k <> "village_code" /\ k <> "lgd_subdistrictcode").
  { intros k Hk. unfold label_keys in Hk.
    repeat (apply elem_of_cons in Hk as [->|Hk]; [done|]). by apply elem_of_nil in Hk. }
  destruct (attrs_get (feature_attrs f) "lgd_villagecode");
    destruct (attrs_get (feature_attrs f) "lgd_subdistrictcode");
    (split; [by simplify_map_eq|]);
    intros k Hk Hne; cbn in Hne; destruct (Hkeys k Hk);
    by rewrite ?lookup_insert_ne.
Qed.

Lemma _resolve_feature_logs key layer name ctx (st : @service_state World) :
  AOI_LAYERS !! key = Some layer ->
  exists st' o,
    _resolve_feature client key name ctx st = (st', Ok o)
    /\ notes st' = notes st
    /\ queries st'
       = queries st ++ [QueryByWhere (url layer) (where_of key layer name ctx) all_fields].
Proof.
  intros Hlayer. unfold _resolve_feature. rewrite Hlayer.
  fold (where_of key layer name ctx). fold all_fields.
  unfold try_except, bind, client_call.
  destruct (client (world st) _) as [w [e|[|first rest]]];
    eexists _, _; split_and!; reflexivity.
Qed.

(** One configured level, with the query it sends and the name it keeps. *)
Lemma resolve_level_exact key layer field name nf nc ctx (st : @service_state World) :
  AOI_LAYERS !! key = Some layer ->
  @names_level Geometry World py_str key field ->
  exists st' feature ctx',
    resolve_level py_str client key name nf nc ctx st = (st', Ok (feature, ctx'))
    /\ queries st'
       = queries st
         ++ (if Py.truthy name
             then [QueryByWhere (url layer) (where_of key layer name ctx) all_fields]
             else [])
    /\ match feature with
       | Some f =>
           if truthy_feature f then
             ctx' !! (key +:+ "_name") = Some (canonical_name field f (default "" name))
             /\ forall k, k ∈ label_keys -> k <> key +:+ "_name" -> ctx' !! k = ctx !! k
           else ctx' = ctx
       | None => ctx' = ctx
       end.
Proof.
  intros Hlayer Hnames.
  assert (Hconf : bool_decide (key ∈ dom AOI_LAYERS) = true).
  { apply bool_decide_eq_true, elem_of_dom. by eexists. }
  unfold resolve_level. rewrite Hconf.
  destruct (Py.truthy name) eqn:Hname.
  2:{ exists st, None, ctx. split_and!; [done|by rewrite app_nil_r|done]. }
  destruct (_resolve_feature_logs key layer name ctx st Hlayer) as (st1 & o & Hrun & _ & Hq).
  unfold bind at 1. rewrite Hrun.
  destruct o as [f|]; cbn [truthy_feature_opt].
  - destruct (truthy_feature f) eqn:Hf.
    + destruct (Hnames f (default "" name) ctx st1) as (ctx' & Hup & Hown & Hothers).
      unfold bind. rewrite Hup. unfold ret.
      exists st1, (Some f), ctx'. rewrite Hf. by split_and!.
    + unfold bind, append_note, modify, ret. cbn.
      eexists _, (Some f), ctx. rewrite Hf. by split_and!.
  - unfold bind, append_note, modify, ret. cbn.
    by eexists _, None, ctx.
Qed.
End WalkProofs.

(** ** What a resolution sends and what it calls the levels *)

Import Lookups.

Lemma canonical_name_Some {Geometry} field (f : @Feature Geometry) fb :
  canonical_name field f fb = Some (default "" (canonical_name field f fb)).
Proof.
  unfold canonical_name, Py.or_else.
  destruct (Py.truthy (get_text (feature_attrs f) field)) eqn:E; [|done].
  by destruct (truthy_Some _ E) as [n ->].
Qed.

Lemma state_filter_value_truthy {Geometry} (sf : @Feature Geometry) state :
  Py.truthy_str state = true -> Py.truthy (state_filter_value sf state) = true.
Proof.
  intros H. unfold state_filter_value.
  destruct (Py.truthy (state_abbreviation_of sf state)) eqn:E; cbn [andb].
  - destruct (_ =? _)%nat; [done|]. by apply canonical_name_truthy.
  - by apply canonical_name_truthy.
Qed.

Lemma where_of_state state (ctx : gmap string (option string)) :
  Py.truthy_str state = true ->
  where_of "state" state_layer (Some state) ctx = _eq_clause "State_FSI" state.
Proof. intros H. unfold where_of, where_clauses. cbn. by rewrite H. Qed.

Lemma where_of_district {Geometry} (sf : @Feature Geometry) state d
    (ctx : gmap string (option string)) :
  Py.truthy_str state = true ->
  Py.truthy_str d = true ->
  ctx !! "state_name_full" = Some (canonical_name "State_FSI" sf state) ->
  ctx !! "state_name_abbrev" = Some (state_abbreviation_of sf state) ->
  where_of "district" district_layer (Some d) ctx
  = Py.join " AND "
      [_eq_clause "District" d;
       _eq_clause "State" (default "" (state_filter_value sf state))].
Proof.
  intros Hstate Hd Hfull Habbrev.
  pose proof (state_filter_value_truthy sf state Hstate) as Hsv.
  pose proof (canonical_name_truthy "State_FSI" sf state Hstate) as Hcn.
  assert (Hor : forall x, Py.or_else (canonical_name "State_FSI" sf state) x
                     = canonical_name "State_FSI" sf state).
  { intros x. unfold Py.or_else. by rewrite Hcn. }
  unfold where_of, where_clauses, context_get.
  rewrite Hfull, Habbrev, Hor. fold (state_filter_value sf state).
  cbn -[Py.truthy String.length Nat.eqb default Py.join _eq_clause state_filter_value].
  rewrite Hsv. cbn [Py.truthy]. rewrite Hd. reflexivity.
Qed.

Lemma where_of_village {Geometry} (sf : @Feature Geometry) state v
    (ctx : gmap string (option string)) :
  Py.truthy_str state = true ->
  Py.truthy_str v = true ->
  ctx !! "state_name_full" = Some (canonical_name "State_FSI" sf state) ->
  ctx !! "state_name_abbrev" = Some (state_abbreviation_of sf state) ->
  ctx !! "lgd_subdistrictcode" = None ->
  where_of "village" village_layer (Some v) ctx
  = Py.join " AND "
      ([_eq_clause "name" v;
        _eq_clause "State" (default "" (state_filter_value sf state))]
       ++ (if Py.truthy (context_get ctx "district_name")
           then [_eq_clause "district" (default "" (context_get ctx "district_name"))]
           else [])).
Proof.
  intros Hstate Hv Hfull Habbrev Hparent.
  pose proof (state_filter_value_truthy sf state Hstate) as Hsv.
  pose proof (canonical_name_truthy "State_FSI" sf state Hstate) as Hcn.
  assert (Hor : forall x, Py.or_else (canonical_name "State_FSI" sf state) x
                     = canonical_name "State_FSI" sf state).
  { intros x. unfold Py.or_else. by rewrite Hcn. }
  assert (Hgfull : context_get ctx "state_name_full" = canonical_name "State_FSI" sf state)
    by (unfold context_get; by rewrite Hfull).
  assert (Hgabbrev : context_get ctx "state_name_abbrev" = state_abbreviation_of sf state)
    by (unfold context_get; by rewrite Habbrev).
  assert (Hgparent : context_get ctx "lgd_subdistrictcode" = None)
    by (unfold context_get; by rewrite Hparent).
  unfold where_of, where_clauses.
  change (context_get ctx (default "" (parent_field village_layer)))
    with (context_get ctx "lgd_subdistrictcode").
  rewrite Hgfull, Hgabbrev, Hgparent, Hor. fold (state_filter_value sf state).
  cbn -[Py.truthy String.length Nat.eqb default Py.join _eq_clause state_filter_value
        context_get].
  rewrite Hsv. cbn [Py.truthy]. rewrite Hv.
  rewrite andb_true_r.
  by destruct (Py.truthy (context_get ctx "district_name")).
Qed.

Section WalkExact.
Context {Geometry World : Type}.
Variable shape_centroid : Geometry -> option (Q * Q).
Variable py_str : scalar -> string.
Variable client : World -> request -> World * (exn + list (@Feature Geometry)).
Variable settings : Settings.

Local Abbreviation notes := _last_resolution_notes.

Lemma _update_context_district_exact (f : @Feature Geometry) fb ctx
    (st : @service_state World) :
  _update_context py_str "district" f fb ctx st
  = (st, Ok (<["district_name" := canonical_name "District" f fb]> ctx)).
Proof. reflexivity. Qed.

(** The district level: the query it sends, and the context it leaves. *)
Lemma resolve_district_exact district nf nc ctx (st : @service_state World) :
  exists st' df,
    resolve_level py_str client "district" district nf nc ctx st
    = (st', Ok (df,
                if truthy_feature_opt df
                then <["district_name" := Some (level_label "District" df district)]> ctx
                else ctx))
    /\ queries st'
       = queries st
         ++ (if Py.truthy district
             then [QueryByWhere (url district_layer)
                     (where_of "district" district_layer district ctx) all_fields]
             else [])
    /\ (truthy_feature_opt df = true -> Py.truthy district = true).
Proof.
  unfold resolve_level.
  change (bool_decide ("district" ∈ dom AOI_LAYERS)) with true.
  destruct (Py.truthy district) eqn:Hname.
  2:{ exists st, None. split_and!; [done|by rewrite app_nil_r|done]. }
  destruct (_resolve_feature_logs client "district" district_layer district ctx st eq_refl)
    as (st1 & o & Hrun & _ & Hq).
  unfold bind at 1. rewrite Hrun.
  destruct o as [f|]; cbn [truthy_feature_opt].
  - destruct (truthy_feature f) eqn:Hf.
    + unfold bind. rewrite _update_context_district_exact. unfold ret.
      exists st1, (Some f). cbn [truthy_feature_opt level_label]. rewrite Hf.
      rewrite <- canonical_name_Some. by split_and!.
    + unfold bind, append_note, modify, ret. cbn.
      eexists _, (Some f). cbn [truthy_feature_opt]. rewrite Hf. by split_and!.
  - unfold bind, append_note, modify, ret. cbn.
    by eexists _, None.
Qed.

(** The walk down the hierarchy once the state lookup has answered with
    the usable feature [sf]: the levels it holds, the lookups it made and
    the labels in its context. *)
Lemma resolve_levels_exact state district block village (sf : @Feature Geometry)
    (st st1 : @service_state World) :
  Py.truthy_str state = true ->
  _resolve_feature client "state" (Some state) ∅ (reset_notes st) = (st1, Ok (Some sf)) ->
  truthy_feature sf = true ->
  exists st' df vf ctx,
    resolve_levels py_str client state district block village st
    = (st', Ok (mkLevels (Some sf) df None vf ctx))
    /\ queries st' = queries st ++ lookups sf state df district village
    /\ ctx !! "state_name" = Some (canonical_name "State_FSI" sf state)
    /\ ctx !! "district_name" = context_label "District" df district
    /\ ctx !! "block_name" = None
    /\ ctx !! "village_name" = context_label "name" vf village.
Proof.
  intros Hstate Hrun Hsf.
  destruct (_resolve_feature_logs client "state" state_layer (Some state) ∅ (reset_notes st)
              eq_refl) as (st1' & o & Hrun' & _ & Hq1).
  rewrite Hrun in Hrun'. injection Hrun' as <- <-.
  rewrite where_of_state in Hq1 by done. fold (state_query state) in Hq1.
  cbn [reset_notes queries] in Hq1.
  assert (Hhead : forall k : option (@Feature Geometry)
                             -> M (@service_state World) (@levels Geometry),
            (set_notes [] ;;; o' <- _resolve_feature client "state" (Some state) ∅ ;; k o') st
            = k (Some sf) st1).
  { intros k. unfold bind at 1. unfold set_notes at 1, modify at 1. fold (reset_notes st).
    unfold bind at 1. by rewrite Hrun. }
  unfold resolve_levels. rewrite Hhead. clear Hhead. rewrite Hsf. cbn [negb].
  destruct (_update_context_state_exact py_str sf state ∅ st1 Hstate)
    as (ctx1 & Hup & Hs1 & Hfull1 & Habbrev1 & Hd1 & Hb1 & Hv1 & Hp1).
  unfold bind at 1. rewrite Hup.
  destruct (resolve_district_exact district (district_not_found district)
              "District layer not configured; using state boundary." ctx1 st1)
    as (st2 & df & Hrun2 & Hq2 & Hdt).
  unfold bind at 1. rewrite Hrun2. cbn [fst snd].
  set (ctx2 := if truthy_feature_opt df
               then <["district_name" := Some (level_label "District" df district)]> ctx1
               else ctx1).
  destruct (resolve_level_unconfigured py_str client "block" block (block_not_found block)
              "Block layer not configured; skipping." ctx2 st2 eq_refl)
    as (st3 & Hrun3 & _ & (qs3 & Hq3 & _ & Hnone3) & _).
  rewrite (Hnone3 eq_refl), app_nil_r in Hq3.
  unfold bind at 1. rewrite Hrun3. cbn [fst snd].
  destruct (resolve_level_exact py_str client "village" village_layer "name" village
              (village_not_found village) "Village layer not configured; skipping."
              ctx2 st3 eq_refl (names_level_village py_str))
    as (st4 & vf & ctx4 & Hrun4 & Hq4 & Hctx4).
  unfold bind at 1. rewrite Hrun4. cbn [fst snd]. unfold ret.
  exists st4, df, vf, ctx4. split; [reflexivity|].
  assert (Hfull2 : ctx2 !! "state_name_full" = Some (canonical_name "State_FSI" sf state)).
  { unfold ctx2. destruct (truthy_feature_opt df); [|done]. by rewrite lookup_insert_ne. }
  assert (Habbrev2 : ctx2 !! "state_name_abbrev" = Some (state_abbreviation_of sf state)).
  { unfold ctx2. destruct (truthy_feature_opt df); [|done]. by rewrite lookup_insert_ne. }
  assert (Hp2 : ctx2 !! "lgd_subdistrictcode" = None).
  { unfold ctx2. destruct (truthy_feature_opt df); [by rewrite lookup_insert_ne|done]. }
  assert (Hs2 : ctx2 !! "state_name" = Some (canonical_name "State_FSI" sf state)).
  { unfold ctx2. destruct (truthy_feature_opt df); [|done]. by rewrite lookup_insert_ne. }
  assert (Hb2 : ctx2 !! "block_name" = None).
  { unfold ctx2. destruct (truthy_feature_opt df); [by rewrite lookup_insert_ne|done]. }
  assert (Hd2 : ctx2 !! "district_name" = context_label "District" df district).
  { unfold ctx2, context_label. destruct (truthy_feature_opt df).
    - by rewrite lookup_insert_eq.
    - by rewrite Hd1. }
  assert (Hv2 : ctx2 !! "village_name" = None).
  { unfold ctx2. destruct (truthy_feature_opt df); [by rewrite lookup_insert_ne|done]. }
  assert (Hkeep : forall k, k ∈ label_keys -> k <> "village_name" -> ctx4 !! k = ctx2 !! k).
  { intros k Hk Hne. destruct vf as [f|]; [|by subst].
    destruct (truthy_feature f); [|by subst]. destruct Hctx4 as [_ Hothers]. by apply Hothers. }
  split_and!.
  - rewrite Hq4, Hq3, Hq2. unfold lookups. rewrite Hq1, <- !app_assoc. f_equal. f_equal.
    f_equal.
    + destruct district as [d|]; [|done]. cbn [Py.truthy].
      destruct (Py.truthy_str d) eqn:Hd; [|done].
      by rewrite (where_of_district sf state d ctx1).
    + destruct village as [v|]; [|done]. cbn [Py.truthy].
      destruct (Py.truthy_str v) eqn:Hv; [|done].
      rewrite (where_of_village sf state v ctx2) by done.
      unfold village_query, district_clause, context_get. rewrite Hd2. unfold context_label.
      destruct (truthy_feature_opt df) eqn:Hdf; [|done].
      cbn [default].
      replace (Py.truthy (Some (level_label "District" df district))) with true; [done|].
      symmetry. destruct df as [f|]; [|done]. cbn [truthy_feature_opt] in Hdf.
      unfold level_label. rewrite Hdf. rewrite <- canonical_name_Some.
      apply canonical_name_truthy.
      specialize (Hdt eq_refl). by destruct district.
  - rewrite Hkeep; [done|in_list|done].
  - rewrite Hkeep; [done|in_list|done].
  - rewrite Hkeep; [done|in_list|done].
  - unfold context_label. destruct vf as [f|]; cbn [truthy_feature_opt].
    + destruct (truthy_feature f) eqn:Hf.
      * destruct Hctx4 as [Hown _].
        change (ctx4 !! "village_name" = Some (canonical_name "name" f (default "" village)))
          in Hown.
        rewrite Hown.
        unfold level_label. rewrite Hf. by rewrite <- canonical_name_Some.
      * by subst.
    + by subst.
Qed.

Lemma first_resolved_best (lv : @levels Geometry) :
  block_feature lv = None ->
  truthy_feature_opt (state_feature lv) = true ->
  exists f,
    first_resolved
      (<["village" := village_feature lv]>
         (<["block" := block_feature lv]>
            (<["district" := district_feature lv]>
               (<["state" := state_feature lv]> ∅))))
      ["village"; "block"; "district"; "state"]
    = Some (f, best_key lv)
    /\ best_feature lv = Some f
    /\ truthy_feature f = true.
Proof.
  intros Hb Hs. unfold best_key, best_feature. rewrite Hb.
  cbn [first_resolved truthy_feature_opt].
  rewrite lookup_insert_eq.
  rewrite lookup_insert_ne by done. rewrite lookup_insert_eq.
  rewrite !(lookup_insert_ne _ "village" "district") by done.
  rewrite !(lookup_insert_ne _ "block" "district") by done. rewrite lookup_insert_eq.
  rewrite !(lookup_insert_ne _ _ "state") by done. rewrite lookup_insert_eq.
  destruct (village_feature lv) as [vf|]; cbn [truthy_feature_opt];
    [destruct (truthy_feature vf) eqn:Hvf; [by eexists|]|];
    (destruct (district_feature lv) as [df|]; cbn [truthy_feature_opt];
     [destruct (truthy_feature df) eqn:Hdf; [by eexists|]|]);
    (destruct (state_feature lv) as [sf|]; [|done]; cbn [truthy_feature_opt] in Hs;
     rewrite Hs; by eexists).
Qed.

(** A resolution whose state lookup answers with the usable feature [sf]:
    it returns, and the [AOI] is built from the walk as follows. *)
Lemma resolve_aoi_exact state district block village (sf : @Feature Geometry)
    (st st1 : @service_state World) :
  stub_mode settings = false ->
  Py.truthy_str state = true ->
  _resolve_feature client "state" (Some state) ∅ (reset_notes st) = (st1, Ok (Some sf)) ->
  truthy_feature sf = true ->
  exists st2 st' df vf ctx best aoi,
    let lv := mkLevels (Some sf) df None vf ctx in
    resolve_levels py_str client state district block village st = (st2, Ok lv)
    /\ resolve_aoi shape_centroid py_str client settings state district block village st
       = (st', Ok aoi)
    /\ world st' = world st2
    /\ queries st' = queries st ++ lookups sf state df district village
    /\ best_feature lv = Some best
    /\ truthy_feature best = true
    /\ aoi = {| Model.state := default "" (canonical_name "State_FSI" sf state);
                Model.district := level_label "District" df district;
                Model.block := or_NA block;
                Model.village := level_label "name" vf village;
                centroid_lat := fst <$> geometry_centroid shape_centroid best;
                centroid_lon := snd <$> geometry_centroid shape_centroid best;
                source_layer := url <$> AOI_LAYERS !! best_key lv;
                area_sqkm :=
                  get_number (additional_attrs_of (best_key lv) (feature_attrs best))
                    "area_sqkm";
                census_code :=
                  str_of_scalar py_str
                  <$> attrs_get (additional_attrs_of (best_key lv) (feature_attrs best))
                        "state_census_code";
                additional_attributes :=
                  additional_attrs_of (best_key lv) (feature_attrs best) |}.
Proof.
  intros Hstub Hstate Hrun Hsf.
  destruct (resolve_levels_exact state district block village sf st st1 Hstate Hrun Hsf)
    as (st2 & df & vf & ctx & Hwalk & Hq & Hls & Hld & Hlb & Hlv).
  set (lv := mkLevels (Some sf) df None vf ctx) in *.
  destruct (first_resolved_best lv eq_refl Hsf) as (best & Hbest & Hbf & Hbt).
  exists st2. cut (exists st' aoi,
    resolve_aoi shape_centroid py_str client settings state district block village st
    = (st', Ok aoi)
    /\ world st' = world st2
    /\ queries st' = queries st2
    /\ aoi = {| Model.state := default "" (canonical_name "State_FSI" sf state);
                Model.district := level_label "District" df district;
                Model.block := or_NA block;
                Model.village := level_label "name" vf village;
                centroid_lat := fst <$> geometry_centroid shape_centroid best;
                centroid_lon := snd <$> geometry_centroid shape_centroid best;
                source_layer := url <$> AOI_LAYERS !! best_key lv;
                area_sqkm :=
                  get_number (additional_attrs_of (best_key lv) (feature_attrs best))
                    "area_sqkm";
                census_code :=
                  str_of_scalar py_str
                  <$> attrs_get (additional_attrs_of (best_key lv) (feature_attrs best))
                        "state_census_code";
                additional_attributes :=
                  additional_attrs_of (best_key lv) (feature_attrs best) |}).
  { intros (st' & aoi & H1 & H2 & H3 & H4).
    exists st', df, vf, ctx, best, aoi. cbn zeta. fold lv.
    split_and!; try done. by rewrite H3. }
  unfold resolve_aoi. rewrite Hstate, Hstub. cbn [negb].
  unfold bind at 1. rewrite Hwalk.
  unfold bind at 1. unfold _select_best_feature. rewrite Hbest. unfold ret at 1. cbn [fst snd].
  set (st3 := if String.eqb (best_key lv) "village" then st2
              else mkState (world st2) (queries st2) (notes st2 ++ [geometry_note (best_key lv)])).
  assert (Hnote : (if negb (String.eqb (best_key lv) "village")
                   then append_note (geometry_note (best_key lv)) else ret tt) st2
                  = (st3, Ok tt)).
  { unfold st3. by destruct (String.eqb (best_key lv) "village"). }
  unfold bind at 1. rewrite Hnote.
  cbn [final_context lv].
  unfold bind at 1. unfold context_get_default at 1. rewrite Hls.
  rewrite (canonical_name_Some "State_FSI" sf state). cbn [required_str]. unfold ret at 1.
  assert (Hdist : context_get_default ctx "district_name" (or_NA district)
                  = Some (level_label "District" df district)).
  { unfold context_get_default. rewrite Hld. unfold context_label, level_label.
    destruct df as [f|]; cbn [truthy_feature_opt]; [|done]. by destruct (truthy_feature f). }
  unfold bind at 1. rewrite Hdist. cbn [required_str]. unfold ret at 1.
  unfold bind at 1. unfold context_get_default at 1. rewrite Hlb. cbn [required_str].
  unfold ret at 1.
  assert (Hvil : context_get_default ctx "village_name" (or_NA village)
                 = Some (level_label "name" vf village)).
  { unfold context_get_default. rewrite Hlv. unfold context_label, level_label.
    destruct vf as [f|]; cbn [truthy_feature_opt]; [|done]. by destruct (truthy_feature f). }
  unfold bind at 1. rewrite Hvil. cbn [required_str]. unfold ret at 1.
  assert (Hlayer : exists layer, AOI_LAYERS !! best_key lv = Some layer).
  { destruct (best_key_cases lv eq_refl) as [ -> | [ -> | -> ] ]; by eexists. }
  destruct Hlayer as (layer & Hlayer).
  unfold bind at 1. unfold aoi_layer. rewrite Hlayer. unfold ret.
  exists st3. eexists. split; [reflexivity|].
  split_and!; [unfold st3; by destruct (String.eqb (best_key lv) "village")..|].
  reflexivity.
Qed.

(** X11 ([resolve_aoi], the lookups it makes): when the state lookup finds
    a feature, a resolution makes exactly these client calls, in this
    order: the state by the caller's string; if a district was named, the
    district by its name and by the state's two-character abbreviation
    (the feature's own [State_Name], else the table's code for its name),
    or by the state's name when there is no such abbreviation; if a
    village was named, the village by its name, the same state value and,
    when the district resolved, the district's name as the district layer
    spells it.  No call is made for the block. *)
Theorem resolve_aoi_lookups state district block village (sf : @Feature Geometry)
    (st st1 : @service_state World) :
  stub_mode settings = false ->
  Py.truthy_str state = true ->
  _resolve_feature client "state" (Some state) ∅ (reset_notes st) = (st1, Ok (Some sf)) ->
  truthy_feature sf = true ->
  exists st2 st' lv aoi,
    resolve_levels py_str client state district block village st = (st2, Ok lv)
    /\ resolve_aoi shape_centroid py_str client settings state district block village st
       = (st', Ok aoi)
    /\ state_feature lv = Some sf
    /\ queries st' = queries st ++ lookups sf state (district_feature lv) district village.
Proof.
  intros Hstub Hstate Hrun Hsf.
  destruct (resolve_aoi_exact state district block village sf st st1 Hstub Hstate Hrun Hsf)
    as (st2 & st' & df & vf & ctx & best & aoi & Hwalk & Haoi & _ & Hq & _).
  by exists st2, st', (mkLevels (Some sf) df None vf ctx), aoi.
Qed.

(** X12 ([resolve_aoi], the labels of the [AOI]): when the state lookup
    finds a feature, the [AOI] is labelled with the state layer's own name
    for the state ([State_FSI], the caller's string when that is missing
    or empty); a district or village that resolved carries its layer's
    name for it ([District], [name]) and one that did not carries the
    caller's string, or [N/A] when none was given; the block label is
    always the caller's string or [N/A]. *)
Theorem resolve_aoi_labels state district block village (sf : @Feature Geometry)
    (st st1 : @service_state World) :
  stub_mode settings = false ->
  Py.truthy_str state = true ->
  _resolve_feature client "state" (Some state) ∅ (reset_notes st) = (st1, Ok (Some sf)) ->
  truthy_feature sf = true ->
  exists st2 st' lv aoi,
    resolve_levels py_str client state district block village st = (st2, Ok lv)
    /\ resolve_aoi shape_centroid py_str client settings state district block village st
       = (st', Ok aoi)
    /\ Model.state aoi = default "" (canonical_name "State_FSI" sf state)
    /\ Model.district aoi = level_label "District" (district_feature lv) district
    /\ Model.block aoi = or_NA block
    /\ Model.village aoi = level_label "name" (village_feature lv) village.
Proof.
  intros Hstub Hstate Hrun Hsf.
  destruct (resolve_aoi_exact state district block village sf st st1 Hstub Hstate Hrun Hsf)
    as (st2 & st' & df & vf & ctx & best & aoi & Hwalk & Haoi & _ & _ & _ & _ & ->).
  eexists st2, st', (mkLevels (Some sf) df None vf ctx), _.
  split_and!; [exact Hwalk|exact Haoi|reflexivity..].
Qed.

Lemma get_number_renamed (attrs : gmap string scalar) key key' :
  get_number (match attrs !! key with
              | Some v => <[key' := v]> ∅
              | None => ∅
              end) key'
  = get_number attrs key.
Proof.
  unfold get_number, attrs_get. destruct (attrs !! key) as [v|].
  - by rewrite lookup_insert_eq.
  - by rewrite lookup_empty.
Qed.

(** X13 ([resolve_aoi], geometry and metadata): when the state lookup
    finds a feature, the centroid of the [AOI] is the centroid of the most
    specific resolved feature, latitude and longitude being present or
    absent together; [source_layer] is the URL of that level's layer;
    [area_sqkm] is the [st_area_sh] of a district-level feature and absent
    at any other level; [census_code] is the [State_Cens] of a state-level
    feature and absent at any other level. *)
Theorem resolve_aoi_geometry state district block village (sf : @Feature Geometry)
    (st st1 : @service_state World) :
  stub_mode settings = false ->
  Py.truthy_str state = true ->
  _resolve_feature client "state" (Some state) ∅ (reset_notes st) = (st1, Ok (Some sf)) ->
  truthy_feature sf = true ->
  exists st2 st' lv best aoi,
    resolve_levels py_str client state district block village st = (st2, Ok lv)
    /\ resolve_aoi shape_centroid py_str client settings state district block village st
       = (st', Ok aoi)
    /\ best_feature lv = Some best
    /\ centroid_lat aoi = fst <$> geometry_centroid shape_centroid best
    /\ centroid_lon aoi = snd <$> geometry_centroid shape_centroid best
    /\ (centroid_lat aoi = None <-> centroid_lon aoi = None)
    /\ source_layer aoi = url <$> AOI_LAYERS !! best_key lv
    /\ area_sqkm aoi
       = (if String.eqb (best_key lv) "district"
          then get_number (feature_attrs best) "st_area_sh" else None)
    /\ census_code aoi
       = (if String.eqb (best_key lv) "state"
          then str_of_scalar py_str <$> attrs_get (feature_attrs best) "State_Cens"
          else None).
Proof.
  intros Hstub Hstate Hrun Hsf.
  destruct (resolve_aoi_exact state district block village sf st st1 Hstub Hstate Hrun Hsf)
    as (st2 & st' & df & vf & ctx & best & aoi & Hwalk & Haoi & _ & _ & Hbest & _ & ->).
  eexists st2, st', (mkLevels (Some sf) df None vf ctx), best, _.
  split; [exact Hwalk|]. split; [exact Haoi|].
  cbn [centroid_lat centroid_lon source_layer area_sqkm census_code].
  split_and!; try done.
  - by destruct (geometry_centroid shape_centroid best).
  - destruct (best_key_cases (mkLevels (Some sf) df None vf ctx) eq_refl)
      as [ -> | [ -> | -> ] ]; cbn [String.eqb Ascii.eqb Bool.eqb]; unfold additional_attrs_of;
      cbn [String.eqb Ascii.eqb Bool.eqb].
    + done.
    + apply get_number_renamed.
    + unfold get_number, attrs_get.
      destruct (feature_attrs best !! "GA_sqkm"), (feature_attrs best !! "State_Cens");
        by simplify_map_eq.
  - destruct (best_key_cases (mkLevels (Some sf) df None vf ctx) eq_refl)
      as [ -> | [ -> | -> ] ]; cbn [String.eqb Ascii.eqb Bool.eqb]; unfold additional_attrs_of;
      cbn [String.eqb Ascii.eqb Bool.eqb].
    + done.
    + unfold attrs_get. destruct (feature_attrs best !! "st_area_sh"); by simplify_map_eq.
    + unfold attrs_get.
      destruct (feature_attrs best !! "GA_sqkm"), (feature_attrs best !! "State_Cens");
        by simplify_map_eq.
Qed.

End WalkExact.

Lemma X11_witness :
  exists st' aoi,
    resolve_aoi point_centroid plain_str atlas_client default_settings
      "tripura" (Some "dhalai") (Some "Salema") (Some "Nowhere") fresh = (st', Ok aoi)
    /\ queries st'
       = [QueryByWhere (url state_layer) "UPPER(State_FSI) = UPPER('tripura')" all_fields;
          QueryByWhere (url district_layer)
            "UPPER(District) = UPPER('dhalai') AND UPPER(State) = UPPER('TR')" all_fields;
          QueryByWhere (url village_layer)
            ("UPPER(name) = UPPER('Nowhere') AND UPPER(State) = UPPER('TR')"
             +:+ " AND UPPER(district) = UPPER('Dhalai')") all_fields].
Proof.
  edestruct (resolve_aoi_lookups point_centroid plain_str atlas_client default_settings
               "tripura" (Some "dhalai") (Some "Salema") (Some "Nowhere") tripura fresh)
    as (st2 & st' & lv & aoi & Hwalk & Haoi & Hsf & Hq);
    [reflexivity|reflexivity|vm_compute; reflexivity|reflexivity|].
  exists st', aoi. split; [exact Haoi|]. rewrite Hq.
  vm_compute in Hwalk. injection Hwalk as _ <-. vm_compute. reflexivity.
Defined.

Lemma X12_witness :
  exists st' aoi,
    resolve_aoi point_centroid plain_str atlas_client default_settings
      "tripura" (Some "dhalai") (Some "Salema") (Some "Nowhere") fresh = (st', Ok aoi)
    /\ Model.state aoi = "Tripura"
    /\ Model.district aoi = "Dhalai"
    /\ Model.block aoi = "Salema"
    /\ Model.village aoi = "Nowhere".
Proof.
  edestruct (resolve_aoi_labels point_centroid plain_str atlas_client default_settings
               "tripura" (Some "dhalai") (Some "Salema") (Some "Nowhere") tripura fresh)
    as (st2 & st' & lv & aoi & Hwalk & Haoi & Hs & Hd & Hb & Hv);
    [reflexivity|reflexivity|vm_compute; reflexivity|reflexivity|].
  exists st', aoi. split; [exact Haoi|]. rewrite Hs, Hd, Hb, Hv.
  vm_compute in Hwalk. injection Hwalk as _ <-. vm_compute. by split_and!.
Defined.

Lemma X13_witness :
  exists st' aoi,
    resolve_aoi point_centroid plain_str atlas_client default_settings
      "tripura" (Some "dhalai") None (Some "Nowhere") fresh = (st', Ok aoi)
    /\ centroid_lat aoi = Some 23.93%Q
    /\ centroid_lon aoi = Some 91.85%Q
    /\ source_layer aoi = Some (url district_layer)
    /\ area_sqkm aoi = Some 2400%Q
    /\ census_code aoi = None.
Proof.
  edestruct (resolve_aoi_geometry point_centroid plain_str atlas_client default_settings
               "tripura" (Some "dhalai") None (Some "Nowhere") tripura fresh)
    as (st2 & st' & lv & best & aoi & Hwalk & Haoi & Hbest & Hlat & Hlon & _ & Hsrc & Harea
        & Hcode);
    [reflexivity|reflexivity|vm_compute; reflexivity|reflexivity|].
  exists st', aoi. split; [exact Haoi|]. rewrite Hlat, Hlon, Hsrc, Harea, Hcode.
  vm_compute in Hwalk. injection Hwalk as _ <-.
  vm_compute in Hbest. injection Hbest as <-. vm_compute. by split_and!.
Defined.

(** ** More on the indicators *)

Import Bundle.

Lemma round_half_even_near (q : Q) :
  (inject_Z (Num.round_half_even q) - q <= 1 # 2
   /\ q - inject_Z (Num.round_half_even q) <= 1 # 2)%Q.
Proof.
  unfold Num.round_half_even.
  pose proof (Qfloor_le q) as Hlo. pose proof (Qlt_floor q) as Hhi.
  set (f := Qfloor q) in *.
  assert (Hf1 : (inject_Z (f + 1) == inject_Z f + 1)%Q) by (rewrite inject_Z_plus; reflexivity).
  destruct (q - inject_Z f ?= 1 # 2)%Q eqn:E.
  - apply Qeq_alt in E. destruct (Z.even f); [|rewrite Hf1]; split; lra.
  - apply Qlt_alt in E. split; lra.
  - apply Qgt_alt in E. rewrite Hf1. split; lra.
Qed.

Lemma round2_near (q : Q) :
  (Num.round2 q - q <= 1 # 200 /\ q - Num.round2 q <= 1 # 200)%Q.
Proof.
  unfold Num.round2. rewrite Qred_correct.
  destruct (round_half_even_near (q * 100)) as [H1 H2].
  set (r := inject_Z (Num.round_half_even (q * 100))) in *.
  assert (Hdiv : (r / 100 == r * (1 # 100))%Q) by (field).
  rewrite Hdiv. split; lra.
Qed.

Lemma Qle_bool_false (a b : Q) : Qle_bool a b = false -> (b < a)%Q.
Proof.
  intros H. apply Qnot_le_lt. intros Hle. apply Qle_bool_iff in Hle. congruence.
Qed.

Section MoreIndicatorProofs.
Context {Geometry World : Type}.
Variable py_str : scalar -> string.
Variable py_float : scalar -> option Q.
Variable client : World -> request -> World * (exn + list (@Feature Geometry)).
Variable settings : Settings.

(** The category is read off the stage of development. *)
Lemma _fetch_district_groundwater_category aoi (st : @service_state World) :
  exists st' dgw,
    _fetch_district_groundwater py_float client aoi st = (st', Ok dgw)
    /\ gw_category dgw
       = (fun stage_val =>
            if Qle_bool 100 stage_val then "Over-exploited"
            else if Qle_bool 90 stage_val then "Critical"
            else if Qle_bool 70 stage_val then "Semi-critical"
            else "Safe") <$> stage_of_development dgw.
Proof.
  unfold _fetch_district_groundwater.
  change (AOI_LAYERS !! "district") with (Some district_layer).
  unfold try_except, bind, client_call.
  destruct (client (world st) _) as [w [e|[|first rest]]]; eexists _, _;
    (split; [reflexivity|]); try done.
  cbn [gw_category stage_of_development].
  destruct (attrs_get (feature_attrs first) "Stage_of_d" ≫= py_float) as [s|]; [|done].
  cbn. by repeat case_match.
Qed.

(** [_fetch_groundwater] always returns, and its record is built from the
    district record and the three seasonal averages as follows. *)
Lemma _fetch_groundwater_run aoi (st : @service_state World) :
  exists st1 dgw st2 pre st3 during st4 post,
    _fetch_district_groundwater py_float client aoi st = (st1, Ok dgw)
    /\ _average_groundwater_layer py_float client "groundwater_pre_monsoon" aoi st1
       = (st2, Ok pre)
    /\ _average_groundwater_layer py_float client "groundwater_during_monsoon" aoi st2
       = (st3, Ok during)
    /\ _average_groundwater_layer py_float client "groundwater_post_monsoon" aoi st3
       = (st4, Ok post)
    /\ _fetch_groundwater py_float client settings aoi st
       = (st4,
          Ok {| annual_extraction_mcm := annual_extraction dgw;
                net_available_mcm := net_available dgw;
                stage_of_development_pc := stage_of_development dgw;
                category := gw_category dgw;
                district_pre2019_m :=
                  if truthy_float (first_not_None [post; during; pre])
                  then Num.round2 <$> first_not_None [post; during; pre] else None;
                pre_post_delta_m := first_delta [(post, pre); (during, pre)];
                stressed :=
                  stress_flag (gw_stress_threshold_m settings)
                    (first_not_None [post; during; pre]) |}).
Proof.
  destruct (_fetch_district_groundwater_total py_float client aoi st) as (st1 & dgw & H1).
  destruct (_average_groundwater_layer_total py_float client "groundwater_pre_monsoon" aoi st1)
    as (st2 & pre & H2).
  destruct (_average_groundwater_layer_total py_float client "groundwater_during_monsoon" aoi st2)
    as (st3 & during & H3).
  destruct (_average_groundwater_layer_total py_float client "groundwater_post_monsoon" aoi st3)
    as (st4 & post & H4).
  exists st1, dgw, st2, pre, st3, during, st4, post.
  split_and!; try done.
  unfold _fetch_groundwater.
  unfold bind at 1. rewrite H1. unfold bind at 1. rewrite H2.
  unfold bind at 1. rewrite H3. unfold bind at 1. rewrite H4. reflexivity.
Qed.

(** X14 ([_fetch_groundwater], the category): the fetch always returns,
    and the category it reports is a function of the stage of development
    alone: [Over-exploited] from 100, [Critical] from 90 to below 100,
    [Semi-critical] from 70 to below 90, [Safe] below 70, and absent
    exactly when the stage is absent. *)
Theorem groundwater_category_bands aoi (st : @service_state World) :
  exists st' gw,
    _fetch_groundwater py_float client settings aoi st = (st', Ok gw)
    /\ match stage_of_development_pc gw with
       | None => category gw = None
       | Some stage =>
           (100 <= stage -> category gw = Some "Over-exploited")
           /\ (90 <= stage < 100 -> category gw = Some "Critical")
           /\ (70 <= stage < 90 -> category gw = Some "Semi-critical")
           /\ (stage < 70 -> category gw = Some "Safe")
       end%Q.
Proof.
  destruct (_fetch_groundwater_run aoi st)
    as (st1 & dgw & st2 & pre & st3 & during & st4 & post & H1 & _ & _ & _ & Hrun).
  destruct (_fetch_district_groundwater_category aoi st) as (st1' & dgw' & H1' & Hcat).
  rewrite H1 in H1'. injection H1' as <- <-.
  eexists _, _. split; [exact Hrun|]. cbn [stage_of_development_pc category].
  rewrite Hcat. destruct (stage_of_development dgw) as [s|]; [|done]. cbn [fmap option_fmap option_map].
  destruct (Qle_bool 100 s) eqn:E100;
    [apply Qle_bool_iff in E100|apply Qle_bool_false in E100];
    (destruct (Qle_bool 90 s) eqn:E90;
     [apply Qle_bool_iff in E90|apply Qle_bool_false in E90]);
    (destruct (Qle_bool 70 s) eqn:E70;
     [apply Qle_bool_iff in E70|apply Qle_bool_false in E70]);
    split_and!; intros; try done; exfalso; lra.
Qed.

(** X15 ([_fetch_groundwater], flag and level agree): the stress flag is
    absent exactly when the reported level [district_pre2019_m] is; and
    when both are present the reported level, which is rounded to two
    decimals, is within 0.005 of the side of the threshold the flag
    states: at least [threshold - 0.005] when flagged stressed, below
    [threshold + 0.005] when not. *)
Theorem groundwater_flag_matches_level aoi (st : @service_state World) :
  exists st' gw,
    _fetch_groundwater py_float client settings aoi st = (st', Ok gw)
    /\ (stressed gw = None <-> district_pre2019_m gw = None)
    /\ (forall level,
          district_pre2019_m gw = Some level ->
          (stressed gw = Some true
           /\ gw_stress_threshold_m settings - (1 # 200) <= level)%Q
          \/ (stressed gw = Some false
              /\ level < gw_stress_threshold_m settings + (1 # 200))%Q).
Proof.
  destruct (_fetch_groundwater_run aoi st)
    as (st1 & dgw & st2 & pre & st3 & during & st4 & post & _ & _ & _ & _ & Hrun).
  eexists _, _. split; [exact Hrun|]. cbn [stressed district_pre2019_m].
  unfold stress_flag.
  destruct (truthy_float (first_not_None [post; during; pre])) eqn:Ht.
  - destruct (first_not_None [post; during; pre]) as [primary|]; [|done].
    cbn [fmap option_fmap option_map]. split; [done|].
    intros level [= <-]. destruct (round2_near primary) as [Hup Hdown].
    destruct (Qle_bool (gw_stress_threshold_m settings) primary) eqn:E.
    + left. split; [done|]. apply Qle_bool_iff in E. lra.
    + right. split; [done|]. apply Qle_bool_false in E. lra.
  - split; [done|]. intros level [=].
Qed.

(** X16 ([_fetch_groundwater], the seasonal change): the change
    [pre_post_delta_m] is absent whenever the pre-monsoon average is, and
    whenever both later averages are; otherwise it is the post-monsoon
    average minus the pre-monsoon one, rounded to two decimals, the
    during-monsoon average standing in for a missing post-monsoon one.
    The level reported as [district_pre2019_m] is the rounded post-monsoon
    average whenever that is present and not zero. *)
Theorem groundwater_delta_needs_pre_monsoon aoi (st : @service_state World) :
  exists st1 dgw st2 pre st3 during st4 post gw,
    _fetch_district_groundwater py_float client aoi st = (st1, Ok dgw)
    /\ _average_groundwater_layer py_float client "groundwater_pre_monsoon" aoi st1
       = (st2, Ok pre)
    /\ _average_groundwater_layer py_float client "groundwater_during_monsoon" aoi st2
       = (st3, Ok during)
    /\ _average_groundwater_layer py_float client "groundwater_post_monsoon" aoi st3
       = (st4, Ok post)
    /\ _fetch_groundwater py_float client settings aoi st = (st4, Ok gw)
    /\ (pre = None -> pre_post_delta_m gw = None)
    /\ (post = None -> during = None -> pre_post_delta_m gw = None)
    /\ (forall older newer,
          pre = Some older -> post = Some newer ->
          pre_post_delta_m gw = Some (Num.round2 (newer - older)))
    /\ (forall older newer,
          pre = Some older -> post = None -> during = Some newer ->
          pre_post_delta_m gw = Some (Num.round2 (newer - older)))
    /\ (forall newest,
          post = Some newest -> ~ (newest == 0)%Q ->
          district_pre2019_m gw = Some (Num.round2 newest)).
Proof.
  destruct (_fetch_groundwater_run aoi st)
    as (st1 & dgw & st2 & pre & st3 & during & st4 & post & H1 & H2 & H3 & H4 & Hrun).
  eexists st1, dgw, st2, pre, st3, during, st4, post, _.
  split_and!; try done; cbn [pre_post_delta_m district_pre2019_m].
  - intros ->. by destruct post, during.
  - by intros -> ->.
  - by intros older newer -> ->.
  - by intros older newer -> -> ->.
  - intros newest -> Hnz. cbn [first_not_None truthy_float]. unfold Num.truthy_Q.
    destruct (Qeq_bool newest 0) eqn:E; [by apply Qeq_bool_iff in E|done].
Qed.






End MoreIndicatorProofs.


(** ** The indicator bundle and the notes of a report *)

Import BundleSpecs.

Section BundleProofs.
Context {Geometry World : Type}.
Variable py_str : scalar -> string.
Variable py_float : scalar -> option Q.
Variable client : World -> request -> World * (exn + list (@Feature Geometry)).
Variable settings : Settings.

Local Abbreviation notes := _last_resolution_notes.

Ltac one_call_run :=
  unfold try_except, bind, client_call;
  match goal with
  | |- context [client (world ?st) ?r] =>
      let q := fresh "q" in
      set (q := r);
      destruct (client (world st) q) as [w [e|[|first rest]]] eqn:Hq;
      eexists _, _; (split; [reflexivity|]); exists q; rewrite Hq; by split_and!
  end.

Lemma _fetch_district_groundwater_one_call aoi (st : @service_state World) :
  exists st' dgw,
    _fetch_district_groundwater py_float client aoi st = (st', Ok dgw)
    /\ one_call client (url district_layer) empty_district_gw st st' dgw.
Proof.
  unfold _fetch_district_groundwater.
  change (AOI_LAYERS !! "district") with (Some district_layer).
  one_call_run.
Qed.

Lemma _average_groundwater_layer_one_call layer_key layer aoi (st : @service_state World) :
  INDICATOR_LAYERS !! layer_key = Some layer ->
  exists st' average,
    _average_groundwater_layer py_float client layer_key aoi st = (st', Ok average)
    /\ one_call client (url layer) None st st' average.
Proof.
  intros Hlayer. unfold _average_groundwater_layer. rewrite Hlayer.
  unfold try_except, bind, client_call.
  match goal with
  | |- context [client (world st) ?r] => set (q := r)
  end.
  destruct (client (world st) q) as [w [e|[|first rest]]] eqn:Hq.
  - eexists _, _. split; [reflexivity|]. exists q. rewrite Hq. by split_and!.
  - eexists _, _. split; [reflexivity|]. exists q. rewrite Hq. by split_and!.
  - destruct (collect_values _ _ _); eexists _, _; (split; [reflexivity|]);
      exists q; rewrite Hq; by split_and!.
Qed.

Lemma _fetch_state_forest_data_one_call aoi (st : @service_state World) :
  exists st' data,
    _fetch_state_forest_data py_float client aoi st = (st', Ok data)
    /\ one_call client (url state_layer) empty_forest_data st st' data.
Proof.
  unfold _fetch_state_forest_data.
  change (AOI_LAYERS !! "state") with (Some state_layer).
  one_call_run.
Qed.

Lemma _fetch_mgnrega_one_call aoi (st : @service_state World) :
  exists st' stats,
    _fetch_mgnrega client aoi st = (st', Ok stats)
    /\ one_call client (url mgnrega_workers) empty_MGNREGAStats st st' stats.
Proof.
  unfold _fetch_mgnrega.
  change (INDICATOR_LAYERS !! "mgnrega_workers") with (Some mgnrega_workers).
  one_call_run.
Qed.

Lemma _fetch_aquifer_calls aoi (st : @service_state World) :
  exists st' found,
    _fetch_aquifer py_str client aoi st = (st', Ok found)
    /\ if has_centroid aoi
       then one_call client (url aquifer_layer) empty_Aquifer st st' found
       else st' = st /\ found = empty_Aquifer.
Proof.
  unfold _fetch_aquifer, has_centroid.
  change (INDICATOR_LAYERS !! "aquifer") with (Some aquifer_layer).
  destruct (truthy_float (centroid_lat aoi)); cbn [negb orb andb]; [|by eexists _, _].
  destruct (truthy_float (centroid_lon aoi)); cbn [negb orb andb]; [|by eexists _, _].
  one_call_run.
Qed.

(** The groundwater fetch: four calls, and the default record when none
    of them finds anything. *)
Lemma _fetch_groundwater_calls aoi (st : @service_state World) :
  exists st' record qs,
    _fetch_groundwater py_float client settings aoi st = (st', Ok record)
    /\ notes st' = notes st
    /\ queries st' = queries st ++ qs
    /\ map request_layer_url qs
       = [url district_layer; url groundwater_pre_monsoon;
          url groundwater_during_monsoon; url groundwater_post_monsoon]
    /\ (finds_nothing client -> record = empty_GroundWater).
Proof.
  destruct (_fetch_district_groundwater_one_call aoi st)
    as (st1 & dgw & H1 & q1 & Hq1 & Hu1 & Hn1 & Hf1).
  destruct (_average_groundwater_layer_one_call "groundwater_pre_monsoon"
              groundwater_pre_monsoon aoi st1 eq_refl)
    as (st2 & pre & H2 & q2 & Hq2 & Hu2 & Hn2 & Hf2).
  destruct (_average_groundwater_layer_one_call "groundwater_during_monsoon"
              groundwater_during_monsoon aoi st2 eq_refl)
    as (st3 & during & H3 & q3 & Hq3 & Hu3 & Hn3 & Hf3).
  destruct (_average_groundwater_layer_one_call "groundwater_post_monsoon"
              groundwater_post_monsoon aoi st3 eq_refl)
    as (st4 & post & H4 & q4 & Hq4 & Hu4 & Hn4 & Hf4).
  eexists st4, _, [q1; q2; q3; q4]. split_and!.
  - unfold _fetch_groundwater.
    unfold bind at 1. rewrite H1. unfold bind at 1. rewrite H2.
    unfold bind at 1. rewrite H3. unfold bind at 1. rewrite H4. reflexivity.
  - by rewrite Hn4, Hn3, Hn2, Hn1.
  - rewrite Hq4, Hq3, Hq2, Hq1, <- !app_assoc. reflexivity.
  - cbn [map]. by rewrite Hu1, Hu2, Hu3, Hu4.
  - intros Hnothing.
    pose proof (Hnothing (world st) q1) as N1. pose proof (Hnothing (world st1) q2) as N2.
    pose proof (Hnothing (world st2) q3) as N3. pose proof (Hnothing (world st3) q4) as N4.
    assert (dgw = empty_district_gw) as ->
      by (destruct (snd (client (world st) q1)) as [?|[|? ?]]; done).
    assert (pre = None) as ->
      by (destruct (snd (client (world st1) q2)) as [?|[|? ?]]; done).
    assert (during = None) as ->
      by (destruct (snd (client (world st2) q3)) as [?|[|? ?]]; done).
    assert (post = None) as ->
      by (destruct (snd (client (world st3) q4)) as [?|[|? ?]]; done).
    reflexivity.
Qed.

(** A live bundle: the calls it makes and what it holds. *)
Lemma build_indicator_bundle_live aoi (st : @service_state World) :
  stub_mode settings = false ->
  exists st' bundle qs,
    build_indicator_bundle py_str py_float client settings aoi st = (st', Ok bundle)
    /\ notes st' = notes st
    /\ queries st' = queries st ++ qs
    /\ map request_layer_url qs = bundle_layers aoi
    /\ classes (lulc_pc bundle) = ∅
    /\ (finds_nothing client -> bundle = empty_IndicatorSet).
Proof.
  intros Hstub.
  destruct (_fetch_groundwater_calls aoi st)
    as (st1 & record & qs1 & H1 & Hn1 & Hq1 & Hu1 & Hf1).
  destruct (_fetch_aquifer_calls aoi st1) as (st2 & found & H2 & Haq).
  destruct (_fetch_state_forest_data_one_call aoi st2)
    as (st3 & data & H3 & q3 & Hq3 & Hu3 & Hn3 & Hf3).
  destruct (_fetch_mgnrega_one_call aoi st3)
    as (st4 & stats & H4 & q4 & Hq4 & Hu4 & Hn4 & Hf4).
  assert (Haq' : exists qs2,
             queries st2 = queries st1 ++ qs2
             /\ map request_layer_url qs2
                = (if has_centroid aoi then [url aquifer_layer] else [])
             /\ notes st2 = notes st1
             /\ (finds_nothing client -> found = empty_Aquifer)).
  { destruct (has_centroid aoi).
    - destruct Haq as (q2 & Hq2 & Hu2 & Hn2 & Hf2). exists [q2]. split_and!; try done.
      + cbn [map]. by rewrite Hu2.
      + intros Hnothing. pose proof (Hnothing (world st1) q2) as N2.
        destruct (snd (client (world st1) q2)) as [?|[|? ?]]; done.
    - destruct Haq as [-> ->]. exists []. split_and!; try done. by rewrite app_nil_r. }
  destruct Haq' as (qs2 & Hq2 & Hu2 & Hn2 & Hf2).
  eexists st4, _, (qs1 ++ qs2 ++ [q3; q4]). split_and!.
  - unfold build_indicator_bundle. rewrite Hstub.
    unfold bind at 1. rewrite H1. unfold bind at 1. rewrite H2.
    unfold bind at 1. unfold _fetch_lulc. unfold bind at 1. rewrite H3. unfold ret at 1.
    unfold bind at 1. rewrite H4. reflexivity.
  - by rewrite Hn4, Hn3, Hn2, Hn1.
  - rewrite Hq4, Hq3, Hq2, Hq1, <- !app_assoc. reflexivity.
  - rewrite !map_app, Hu1, Hu2. cbn [map]. rewrite Hu3, Hu4. reflexivity.
  - reflexivity.
  - intros Hnothing.
    pose proof (Hnothing (world st2) q3) as N3. pose proof (Hnothing (world st3) q4) as N4.
    rewrite (Hf1 Hnothing), (Hf2 Hnothing).
    assert (data = empty_forest_data) as ->
      by (destruct (snd (client (world st2) q3)) as [?|[|? ?]]; done).
    assert (stats = empty_MGNREGAStats) as ->
      by (destruct (snd (client (world st3) q4)) as [?|[|? ?]]; done).
    reflexivity.
Qed.


(** X19 ([build_indicator_bundle], degraded service): with stub mode off,
    if every client call fails or comes back without a feature, the bundle
    is the default [IndicatorSet()]: nothing is raised and every field is
    absent. *)
Theorem build_indicator_bundle_degrades aoi (st : @service_state World) :
  stub_mode settings = false ->
  finds_nothing client ->
  exists st',
    build_indicator_bundle py_str py_float client settings aoi st
    = (st', Ok empty_IndicatorSet).
Proof.
  intros Hstub Hnothing.
  destruct (build_indicator_bundle_live aoi st Hstub)
    as (st' & bundle & qs & Hrun & _ & _ & _ & _ & Hf).
  exists st'. by rewrite <- (Hf Hnothing).
Qed.

Lemma elem_of_optional (b : bool) (x y : string) :
  x ∈ (if b then [y] else []) <-> b = true /\ x = y.
Proof.
  destruct b.
  - rewrite list_elem_of_singleton. split; [by intros ->|by intros [_ ->]].
  - split; [intros Hin; by apply elem_of_nil in Hin|by intros [? _]].
Qed.

Lemma any_mentions_app phrase (ns ms : list string) :
  any_mentions phrase (ns ++ ms) = any_mentions phrase ns || any_mentions phrase ms.
Proof. unfold any_mentions. apply existsb_app. Qed.

(** The notes [_build_meta_notes] returns, as one expression. *)
Lemma _build_meta_notes_run aoi indicators (st : @service_state World) :
  _build_meta_notes aoi indicators st
  = (st,
     Ok (notes st
         ++ (if label_unknown (village aoi)
                && negb (any_mentions "village boundary" (notes st))
             then [village_note] else [])
         ++ (if label_unknown (block aoi)
                && negb (any_mentions "block boundary" (notes st))
             then [block_note] else [])
         ++ (if bool_decide (classes (lulc_pc indicators) = ∅) then [lulc_note] else [])
         ++ (if bool_decide (stressed (gw indicators) = None) then [stress_note] else [])
         ++ (if bool_decide (pre_post_delta_m (gw indicators) = None)
             then [delta_note] else []))).
Proof.
  unfold _build_meta_notes, bind, get_state, ret. f_equal. f_equal.
  fold village_note block_note lulc_note stress_note delta_note.
  assert (Hblock : forall ns,
            any_mentions "block boundary" (ns ++ [village_note])
            = any_mentions "block boundary" ns).
  { intros ns. rewrite any_mentions_app.
    change (any_mentions "block boundary" [village_note]) with false.
    apply orb_false_r. }
  assert (Hstress : forall (o : option bool) (ns : list string),
            match o with None => ns ++ [stress_note] | Some _ => ns end
            = ns ++ (if bool_decide (o = None) then [stress_note] else [])).
  { intros [b|] ns; [by rewrite app_nil_r|done]. }
  assert (Hdelta : forall (o : option Q) (ns : list string),
            match o with None => ns ++ [delta_note] | Some _ => ns end
            = ns ++ (if bool_decide (o = None) then [delta_note] else [])).
  { intros [q|] ns; [by rewrite app_nil_r|done]. }
  rewrite Hdelta, Hstress.
  destruct (label_unknown (village aoi) && negb (any_mentions "village boundary" (notes st)));
    rewrite ?Hblock;
    destruct (label_unknown (block aoi) && negb (any_mentions "block boundary" (notes st)));
    destruct (bool_decide (classes (lulc_pc indicators) = ∅));
    rewrite ?app_nil_r, <- ?app_assoc; reflexivity.
Qed.

(** X20 ([_build_meta_notes]): the notes of a report are the resolution
    notes, in order, followed by some of five fixed notes, each at most
    once and in a fixed order; the service state is left as it was.  The
    village (block) note is added exactly when the label is empty or [N/A]
    and no resolution note mentions "village boundary" ("block boundary");
    the land-cover note exactly when there are no classes; the stress note
    exactly when the flag is absent; the change note exactly when the
    change is absent. *)
Theorem _build_meta_notes_adds aoi indicators (st : @service_state World) :
  exists added,
    _build_meta_notes aoi indicators st = (st, Ok (notes st ++ added))
    /\ sublist added [village_note; block_note; lulc_note; stress_note; delta_note]
    /\ (village_note ∈ added
        <-> label_unknown (village aoi) = true
            /\ any_mentions "village boundary" (notes st) = false)
    /\ (block_note ∈ added
        <-> label_unknown (block aoi) = true
            /\ any_mentions "block boundary" (notes st) = false)
    /\ (lulc_note ∈ added <-> classes (lulc_pc indicators) = ∅)
    /\ (stress_note ∈ added <-> stressed (gw indicators) = None)
    /\ (delta_note ∈ added <-> pre_post_delta_m (gw indicators) = None).
Proof.
  eexists. split; [apply _build_meta_notes_run|].
  set (v := label_unknown (village aoi)
            && negb (any_mentions "village boundary" (notes st))).
  set (b := label_unknown (block aoi)
            && negb (any_mentions "block boundary" (notes st))).
  assert (Hv : v = true <-> label_unknown (village aoi) = true
                           /\ any_mentions "village boundary" (notes st) = false).
  { unfold v. rewrite andb_true_iff, negb_true_iff. done. }
  assert (Hb : b = true <-> label_unknown (block aoi) = true
                           /\ any_mentions "block boundary" (notes st) = false).
  { unfold b. rewrite andb_true_iff, negb_true_iff. done. }
  pose proof (bool_decide_eq_true (classes (lulc_pc indicators) = ∅)) as Hc.
  pose proof (bool_decide_eq_true (stressed (gw indicators) = None)) as Hs.
  pose proof (bool_decide_eq_true (pre_post_delta_m (gw indicators) = None)) as Hd.
  split.
  - clear. destruct v, b, (bool_decide (classes (lulc_pc indicators) = ∅)),
      (bool_decide (stressed (gw indicators) = None)),
      (bool_decide (pre_post_delta_m (gw indicators) = None));
      cbn [app];
      solve [repeat first [apply sublist_nil | apply sublist_skip | apply sublist_cons]].
  - rewrite !elem_of_app, !elem_of_optional.
    unfold village_note, block_note, lulc_note, stress_note, delta_note.
    split_and!.
    + transitivity (v = true); [|exact Hv]. split; [|by auto 10].
      intros H. by repeat destruct H as [H|H]; destruct H.
    + transitivity (b = true); [|exact Hb]. split; [|by auto 10].
      intros H. by repeat destruct H as [H|H]; destruct H.
    + transitivity (bool_decide (classes (lulc_pc indicators) = ∅) = true); [|exact Hc]. split; [|by auto 10].
      intros H. by repeat destruct H as [H|H]; destruct H.
    + transitivity (bool_decide (stressed (gw indicators) = None) = true); [|exact Hs]. split; [|by auto 10].
      intros H. by repeat destruct H as [H|H]; destruct H.
    + transitivity (bool_decide (pre_post_delta_m (gw indicators) = None) = true); [|exact Hd]. split; [|by auto 10].
      intros H. by repeat destruct H as [H|H]; destruct H.
Qed.


End BundleProofs.

Lemma X19_witness :
  exists st',
    build_indicator_bundle plain_str plain_float failing_client default_settings
      (aoi_at (Some 23.75%Q) (Some 91.75%Q)) fresh
    = (st', Ok empty_IndicatorSet)
    /\ length (queries st') = 7%nat.
Proof.
  destruct (build_indicator_bundle_degrades plain_str plain_float failing_client
              default_settings (aoi_at (Some 23.75%Q) (Some 91.75%Q)) fresh eq_refl)
    as (st' & Hrun).
  - by intros w r.
  - exists st'. split; [exact Hrun|].
    assert (Hst : st' = fst (build_indicator_bundle plain_str plain_float failing_client
                               default_settings (aoi_at (Some 23.75%Q) (Some 91.75%Q)) fresh))
      by (by rewrite Hrun).
    vm_compute in Hst. by subst st'.
Defined.


(** ** Geometry helpers *)

Import Geo.

Lemma _esri_to_geojson_geojson type coordinates :
  _esri_to_geojson (geojson type coordinates) = inr (geojson type coordinates).
Proof. reflexivity. Qed.

(** X22 ([_esri_to_geojson]): converting is idempotent, a geometry that
    converts is either returned as it is or becomes a dict with exactly a
    [type] (Polygon, LineString, MultiLineString or Point) and
    [coordinates]; and a geometry with no [rings], no [paths] and not both
    [x] and [y] is returned as it is. *)
Theorem _esri_to_geojson_idempotent (esri_geom converted : gmap string json) :
  _esri_to_geojson esri_geom = inr converted ->
  _esri_to_geojson converted = inr converted
  /\ (converted = esri_geom
      \/ exists type coordinates,
           converted = geojson type coordinates
           /\ type ∈ ["Polygon"; "LineString"; "MultiLineString"; "Point"])
  /\ (esri_geom !! "rings" = None -> esri_geom !! "paths" = None ->
      (esri_geom !! "x" = None \/ esri_geom !! "y" = None) ->
      converted = esri_geom).
Proof.
  unfold _esri_to_geojson. intros H.
  destruct (esri_geom !! "rings") as [rings|] eqn:Hrings.
  { injection H as <-. split_and!; [done| |done].
    right. eexists _, _. split; [done|]. in_list. }
  destruct (esri_geom !! "paths") as [paths|] eqn:Hpaths.
  { destruct (py_len paths) as [e|n]; [done|].
    destruct (n =? 1)%nat.
    - destruct (first_of_one paths) as [e|first]; [done|]. injection H as <-.
      split_and!; [done| |done]. right. eexists _, _. split; [done|]. in_list.
    - injection H as <-. split_and!; [done| |done].
      right. eexists _, _. split; [done|]. in_list. }
  destruct (esri_geom !! "x") as [x|] eqn:Hx, (esri_geom !! "y") as [y|] eqn:Hy;
    injection H as <-.
  - split_and!; [done| |by intros _ _ [?|?]].
    right. eexists _, _. split; [done|]. in_list.
  - split_and!; [|by left|done]. by rewrite Hrings, Hpaths, Hx, Hy.
  - split_and!; [|by left|done]. by rewrite Hrings, Hpaths, Hx.
  - split_and!; [|by left|done]. by rewrite Hrings, Hpaths, Hx.
Qed.

Lemma X22_witness :
  _esri_to_geojson (geojson "Point" (JArr [JFloat 91.75; JFloat 23.75]))
  = inr (geojson "Point" (JArr [JFloat 91.75; JFloat 23.75])).
Proof.
  assert (H : _esri_to_geojson (<["x" := JFloat 91.75]> (<["y" := JFloat 23.75]> ∅))
              = inr (geojson "Point" (JArr [JFloat 91.75; JFloat 23.75])))
    by reflexivity.
  exact (proj1 (_esri_to_geojson_idempotent _ _ H)).
Defined.

Lemma truthy_nonempty_object (g : gmap string json) key value :
  g !! key = Some value -> truthy_json (JObj g) = true.
Proof.
  intros H. cbn [truthy_json]. apply negb_true_iff, Nat.eqb_neq.
  intros Hsize. apply map_size_empty_iff in Hsize. subst g.
  by rewrite lookup_empty in H.
Qed.

Lemma py_in_object (g : gmap string json) key value :
  g !! key = Some value -> py_in key (JObj g) = inr true.
Proof.
  intros H. cbn [py_in]. f_equal. apply bool_decide_eq_true. by eexists.
Qed.

Lemma py_in_object_absent (g : gmap string json) key :
  g !! key = None -> py_in key (JObj g) = inr false.
Proof.
  intros H. cbn [py_in]. f_equal. apply bool_decide_eq_false. rewrite H.
  by intros [? ?].
Qed.

(** X23 ([_feature_point] after [_esri_to_geojson]): for an Esri point
    (an [x] and a [y], no [rings], no [paths]) the conversion succeeds,
    and [_feature_point] reads the same pair from the feature before and
    after the conversion: [(y, x)], latitude first. *)
Theorem _feature_point_of_converted_point (feature g : gmap string json) x y :
  g !! "rings" = None -> g !! "paths" = None ->
  g !! "x" = Some x -> g !! "y" = Some y ->
  exists converted,
    _esri_to_geojson g = inr converted
    /\ _feature_point (JObj (<["geometry" := JObj g]> feature)) = inr (Some (y, x))
    /\ _feature_point (JObj (<["geometry" := JObj converted]> feature))
       = inr (Some (y, x)).
Proof.
  intros Hrings Hpaths Hx Hy. eexists. split_and!.
  - unfold _esri_to_geojson. by rewrite Hrings, Hpaths, Hx, Hy.
  - unfold _feature_point. rewrite lookup_insert_eq.
    rewrite (truthy_nonempty_object g "x" x Hx). cbn [negb].
    rewrite (py_in_object g "y" y Hy), (py_in_object g "x" x Hx). by rewrite Hy, Hx.
  - unfold _feature_point. rewrite lookup_insert_eq. reflexivity.
Qed.

Lemma X23_witness :
  _feature_point
    (JObj (<["geometry" := JObj (<["x" := JFloat 91.75]> (<["y" := JFloat 23.75]> ∅))]> ∅))
  = inr (Some (JFloat 23.75, JFloat 91.75))
  /\ _feature_point
       (JObj (<["geometry" := JObj (geojson "Point" (JArr [JFloat 91.75; JFloat 23.75]))]> ∅))
     = inr (Some (JFloat 23.75, JFloat 91.75)).
Proof.
  assert (Hx : (<["x" := JFloat 91.75]> (<["y" := JFloat 23.75]> (∅ : gmap string json))) !! "x"
               = Some (JFloat 91.75)) by reflexivity.
  assert (Hy : (<["x" := JFloat 91.75]> (<["y" := JFloat 23.75]> (∅ : gmap string json))) !! "y"
               = Some (JFloat 23.75)) by reflexivity.
  assert (Hrings : (<["x" := JFloat 91.75]> (<["y" := JFloat 23.75]> (∅ : gmap string json)))
                   !! "rings" = None) by reflexivity.
  assert (Hpaths : (<["x" := JFloat 91.75]> (<["y" := JFloat 23.75]> (∅ : gmap string json)))
                   !! "paths" = None) by reflexivity.
  destruct (_feature_point_of_converted_point ∅ _ _ _ Hrings Hpaths Hx Hy)
    as (converted & Hconv & Hraw & Hconverted).
  split; [exact Hraw|].
  assert (converted = geojson "Point" (JArr [JFloat 91.75; JFloat 23.75])) as <-; [|done].
  assert (H : _esri_to_geojson (<["x" := JFloat 91.75]> (<["y" := JFloat 23.75]> ∅))
              = inr (geojson "Point" (JArr [JFloat 91.75; JFloat 23.75])))
    by reflexivity.
  rewrite H in Hconv. by injection Hconv.
Defined.

(** X24 ([_feature_point], edges): a feature that is no dict, or whose
    geometry is missing, [None] or empty, has no point; on a dict geometry
    the function never raises, and a point it returns is the [y] and [x]
    members or the second and first item of a [coordinates] list; a
    non-zero number as geometry raises [TypeError]. *)
Theorem _feature_point_edges :
  (forall feature,
     match feature with
     | JObj members =>
         match members !! "geometry" with
         | Some geometry => truthy_json geometry = false
         | None => True
         end
     | _ => True
     end ->
     _feature_point feature = inr None)
  /\ (forall members g,
        members !! "geometry" = Some (JObj g) ->
        exists point,
          _feature_point (JObj members) = inr point
          /\ forall lat lon,
               point = Some (lat, lon) ->
               (g !! "y" = Some lat /\ g !! "x" = Some lon)
               \/ (exists rest, g !! "coordinates" = Some (JArr (lon :: lat :: rest))))
  /\ (forall members number,
        members !! "geometry" = Some (JInt number) -> number <> 0%Z ->
        _feature_point (JObj members) = inl TypeError).
Proof.
  split_and!.
  - intros feature H. unfold _feature_point.
    destruct feature as [| | | | | |members]; try done.
    destruct (members !! "geometry") as [geometry|]; [|done]. by rewrite H.
  - intros members g Hg. unfold _feature_point. rewrite Hg.
    destruct (truthy_json (JObj g)); cbn [negb]; [|by eexists].
    destruct (g !! "y") as [y|] eqn:Hy.
    + rewrite (py_in_object g "y" y Hy).
      destruct (g !! "x") as [x|] eqn:Hx.
      * rewrite (py_in_object g "x" x Hx). eexists. split; [done|].
        intros lat lon [= <- <-]. by left.
      * rewrite (py_in_object_absent g "x" Hx).
        destruct (g !! "coordinates") as [[| | | | |[|c0 [|c1 rest]]|]|] eqn:Hc;
          eexists; (split; [done|]); try (by intros lat lon [=]).
        intros lat lon [= <- <-]. right. by eexists.
    + rewrite (py_in_object_absent g "y" Hy).
      destruct (g !! "coordinates") as [[| | | | |[|c0 [|c1 rest]]|]|] eqn:Hc;
        eexists; (split; [done|]); try (by intros lat lon [=]).
      intros lat lon [= <- <-]. right. by eexists.
  - intros members number Hg Hnz. unfold _feature_point. rewrite Hg.
    cbn [truthy_json]. by rewrite (proj2 (Z.eqb_neq number 0) Hnz).
Qed.

Section DistanceProofs.
Variable haversine_km : Q -> Q -> Q -> Q -> Q.

Lemma py_min_spec (d : Q) (ds : list Q) :
  py_min d ds ∈ d :: ds /\ Forall (fun x => (py_min d ds <= x)%Q) (d :: ds).
Proof.
  unfold py_min. revert d. induction ds as [|x ds IH]; intros d; cbn [foldl].
  - split; [in_list|]. apply Forall_cons. split; [lra|by apply Forall_nil].
  - destruct (Qle_bool d x) eqn:E.
    + apply Qle_bool_iff in E. destruct (IH d) as [Hin Hall].
      apply Forall_cons in Hall as [Hd Hall]. split.
      * apply elem_of_cons in Hin as [->|Hin]; [in_list|].
        by apply list_elem_of_further, list_elem_of_further.
      * apply Forall_cons. split; [done|]. apply Forall_cons. split; [lra|done].
    + apply Qle_bool_false in E. destruct (IH x) as [Hin Hall].
      apply Forall_cons in Hall as [Hx Hall]. split.
      * by apply list_elem_of_further.
      * apply Forall_cons. split; [lra|]. by apply Forall_cons.
Qed.

(** X25 ([min_distance_km]): the result is [None] exactly for an empty
    set of points; otherwise it is the distance to one of the points and
    no point is nearer. *)
Theorem min_distance_km_is_least (base : Q * Q) (points : list (Q * Q)) :
  (min_distance_km haversine_km base points = None <-> points = [])
  /\ forall least,
       min_distance_km haversine_km base points = Some least ->
       (exists point,
          point ∈ points
          /\ least = haversine_km (fst base) (snd base) (fst point) (snd point))
       /\ forall point,
            point ∈ points ->
            (least <= haversine_km (fst base) (snd base) (fst point) (snd point))%Q.
Proof.
  unfold min_distance_km. destruct points as [|p points]; cbn [map].
  - split; [done|]. by intros least [=].
  - split; [done|]. intros least [= <-].
    set (dist := fun point : Q * Q =>
                   haversine_km (fst base) (snd base) (fst point) (snd point)).
    destruct (py_min_spec (dist p) (map dist points)) as [Hin Hall].
    change (dist p :: map dist points) with (map dist (p :: points)) in Hin, Hall.
    split.
    + apply list_elem_of_fmap in Hin as (point & Heq & Hpoint). by exists point.
    + intros point Hpoint. rewrite Forall_forall in Hall. apply Hall.
      apply list_elem_of_fmap. by exists point.
Qed.

End DistanceProofs.

(** ** The placeholder polygon and the filters of the indicator lookups *)


Section FilterProofs.
Context {Geometry World : Type}.
Variable py_str : scalar -> string.
Variable py_float : scalar -> option Q.
Variable client : World -> request -> World * (exn + list (@Feature Geometry)).
Variable settings : Settings.

(** X27 (the filters of the indicator lookups): for an [AOI] with a state
    and a district label, the MGNREGA lookup filters [state_name] and
    [district_name] by the two labels, the forest lookup filters
    [State_FSI] by the state label, and the district groundwater lookup
    filters [District] by the district label and [State] by the table's
    code for the state label, with no state filter at all when the label
    is not in the table.  The labels are compared as they are (no
    [UPPER]), as string literals with their quotes doubled. *)
Theorem indicator_filters aoi (st : @service_state World) :
  Py.truthy_str (state aoi) = true ->
  Py.truthy_str (district aoi) = true ->
  queries (fst (_fetch_mgnrega client aoi st))
  = queries st
    ++ [QueryByWhere (url mgnrega_workers)
          (Py.join " AND " ["state_name = " +:+ sql_literal (state aoi);
                            "district_name = " +:+ sql_literal (district aoi)]) star]
  /\ queries (fst (_fetch_state_forest_data py_float client aoi st))
     = queries st
       ++ [QueryByWhere (url state_layer)
             ("State_FSI = " +:+ sql_literal (state aoi)) star]
  /\ queries (fst (_fetch_district_groundwater py_float client aoi st))
     = queries st
       ++ [QueryByWhere (url district_layer)
             (Py.join " AND "
                (match get_state_abbreviation (state aoi) with
                 | Some code => ["State = '" +:+ code +:+ "'"]
                 | None => []
                 end ++ ["District = " +:+ sql_literal (district aoi)])) star].
Proof.
  intros Hstate Hdistrict. split_and!.
  - unfold _fetch_mgnrega.
    change (INDICATOR_LAYERS !! "mgnrega_workers") with (Some mgnrega_workers).
    rewrite Hstate, Hdistrict. unfold try_except, bind, client_call.
    by destruct (client (world st) _) as [w [e|[|first rest]]].
  - unfold _fetch_state_forest_data.
    change (AOI_LAYERS !! "state") with (Some state_layer).
    rewrite Hstate. unfold try_except, bind, client_call.
    by destruct (client (world st) _) as [w [e|[|first rest]]].
  - unfold _fetch_district_groundwater.
    change (AOI_LAYERS !! "district") with (Some district_layer).
    rewrite Hstate, Hdistrict.
    destruct (get_state_abbreviation (state aoi)) as [code|] eqn:Hcode.
    + assert (Hlen : String.length code = 2%nat).
      { unfold get_state_abbreviation, STATE_NAME_MAPPING in Hcode.
        apply elem_of_list_to_map_2 in Hcode.
        pose proof state_name_items_sound as Hall. rewrite Forall_forall in Hall.
        by destruct (Hall _ Hcode) as (_ & _ & ? & _). }
      assert (Hcode' : Py.truthy_str code = true) by (by destruct code).
      cbn [andb Py.truthy state_field district_layer]. rewrite Hcode'.
      unfold try_except, bind, client_call.
      by destruct (client (world st) _) as [w [e|[|first rest]]].
    + unfold try_except, bind, client_call.
      by destruct (client (world st) _) as [w [e|[|first rest]]].
Qed.

End FilterProofs.

Lemma X27_witness :
  queries (fst (_fetch_mgnrega empty_client ri_bhoi fresh))
  = [QueryByWhere (url mgnrega_workers)
       "state_name = 'Meghalaya' AND district_name = 'Ri''Bhoi'" star]
  /\ queries (fst (_fetch_district_groundwater plain_float empty_client ri_bhoi fresh))
     = [QueryByWhere (url district_layer) "State = 'ML' AND District = 'Ri''Bhoi'" star].
Proof.
  destruct (indicator_filters plain_float empty_client ri_bhoi fresh eq_refl eq_refl)
    as (Hm & _ & Hd).
  split.
  - rewrite Hm. reflexivity.
  - rewrite Hd. reflexivity.
Defined.
